(** * Library catalogue: books, readers and reservations

    A shallow embedding of [library/models.py] (the [Book], [Reader] and
    [Reservation] models with their validation and transition methods), of
    the [quick_reserve] view of [library/views.py] and of
    [QuickReservationForm.clean] of [library/forms.py], together with the
    properties of the reservation rules.

    The database is a record of three tables (lists of rows in insertion
    order).  Model methods that read or write the database are functions in
    a small state-and-exception monad [M]: an exception leaves the database
    as it was at the point where it was raised. *)

From Stdlib Require Import ZArith List String Ascii Bool Lia DecimalString
  Permutation.
Import ListNotations.

Local Open Scope string_scope.
Local Open Scope list_scope.

(** ** Basic types *)

(** A clock reading ([datetime.now()]). *)
Definition datetime := Z.
Bind Scope Z_scope with datetime.

(** The double-quote character, for messages that quote a title or a name. *)
Definition dquote : string := String "034"%char EmptyString.

(** Equality of a foreign-key column with a primary key, as SQL has it:
    a NULL never matches. *)
Definition fk_eqb (fk pk : option Z) : bool :=
  match fk, pk with
  | Some a, Some b => Z.eqb a b
  | _, _ => false
  end.

(** [filter(id=i)] on a primary key column. *)
Definition pk_is (i : Z) (pk : option Z) : bool := fk_eqb pk (Some i).

(** ** Exceptions and the monad *)

(** The exceptions the modelled code raises.  [ValidationError] is Django's
    exception built from one message ([ValidationError("...")]),
    [ValidationErrorDict] the same exception built from a dictionary
    ([ValidationError({'field': "..."})]). *)
Inductive Exception : Type :=
| Http404 (message : string)
| DoesNotExist (model : string)
| MultipleObjectsReturned (model : string)
| ValidationError (message : string)
| ValidationErrorDict (error_dict : list (string * string))
| IntegrityError (constraint : string)
| JSONDecodeError.

Inductive result (A : Type) : Type :=
| Ok (a : A)
| Raise (e : Exception).
Arguments Ok {A} a.
Arguments Raise {A} e.

(** ** The models' fields *)

Module Book.
Record t : Type := mk {
  pk : option Z;
  title : string;
  author : string;
  year : Z;
  created_at : datetime;
  updated_at : datetime
}.
End Book.

Module Reader.
Record t : Type := mk {
  pk : option Z;
  name : string;
  email : string;
  created_at : option datetime;
  updated_at : option datetime
}.
End Reader.

Module Reservation.
(** [book] and [reader] hold the foreign keys ([book_id], [reader_id]);
    the related objects are loaded from the database on access. *)
Record t : Type := mk {
  pk : option Z;
  book : option Z;
  reader : option Z;
  reservation_date : option datetime;
  is_active : bool;
  cancelled_at : option datetime;
  notes : string
}.
End Reservation.

(** ** The database *)

Record Database : Type := mkDatabase {
  Book_objects : list Book.t;
  Reader_objects : list Reader.t;
  Reservation_objects : list Reservation.t
}.

Definition M (A : Type) : Type := Database -> result A * Database.

Definition ret {A} (a : A) : M A := fun db => (Ok a, db).
Definition raise {A} (e : Exception) : M A := fun db => (Raise e, db).
Definition bind {A B} (m : M A) (k : A -> M B) : M B :=
  fun db =>
    match m db with
    | (Ok a, db') => k a db'
    | (Raise e, db') => (Raise e, db')
    end.
Definition query {A} (q : Database -> A) : M A := fun db => (Ok (q db), db).

Declare Scope monad_scope.
Delimit Scope monad_scope with monad.
Notation "x <- m ;; k" := (bind m (fun x => k))
  (at level 61, m at next level, right associativity) : monad_scope.
Notation "m ;; k" := (bind m (fun _ => k))
  (at level 61, right associativity) : monad_scope.
Local Open Scope monad_scope.

(** ** Querysets *)

(** [Reservation.objects.filter(book=b, is_active=True)] *)
Definition filter_book_active (b : option Z) (db : Database) : list Reservation.t :=
  filter (fun r => fk_eqb (Reservation.book r) b && Reservation.is_active r)
         (Reservation_objects db).

(** [Reservation.objects.filter(reader=rd, is_active=True)] *)
Definition filter_reader_active (rd : option Z) (db : Database) : list Reservation.t :=
  filter (fun r => fk_eqb (Reservation.reader r) rd && Reservation.is_active r)
         (Reservation_objects db).

(** [qs.exists()] *)
Definition exists_ {A} (qs : list A) : bool :=
  match qs with [] => false | _ :: _ => true end.

(** [qs.count()] *)
Definition count {A} (qs : list A) : nat := List.length qs.

(** [Model.objects.get(...)] on an already filtered queryset. *)
Definition objects_get {A} (model : string) (qs : list A) : M A :=
  match qs with
  | [] => raise (DoesNotExist model)
  | [x] => ret x
  | _ :: _ :: _ => raise (MultipleObjectsReturned model)
  end.

Definition find_Book (i : Z) (db : Database) : option Book.t :=
  find (fun b => pk_is i (Book.pk b)) (Book_objects db).
Definition find_Reader (i : Z) (db : Database) : option Reader.t :=
  find (fun r => pk_is i (Reader.pk r)) (Reader_objects db).
Definition find_Reservation (i : Z) (db : Database) : option Reservation.t :=
  find (fun r => pk_is i (Reservation.pk r)) (Reservation_objects db).

(** [get_object_or_404(Book, id=i)] and its two siblings. *)
Definition get_Book_or_404 (i : Z) : M Book.t :=
  fun db =>
    match find_Book i db with
    | Some b => (Ok b, db)
    | None => (Raise (Http404 "No Book matches the given query."), db)
    end.
Definition get_Reader_or_404 (i : Z) : M Reader.t :=
  fun db =>
    match find_Reader i db with
    | Some r => (Ok r, db)
    | None => (Raise (Http404 "No Reader matches the given query."), db)
    end.
Definition get_Reservation_or_404 (i : Z) : M Reservation.t :=
  fun db =>
    match find_Reservation i db with
    | Some r => (Ok r, db)
    | None => (Raise (Http404 "No Reservation matches the given query."), db)
    end.

(** ** [class Book] *)

(** [Book.is_available]: no active reservation refers to the book. *)
Definition is_available (self : Book.t) (db : Database) : bool :=
  negb (exists_ (filter_book_active (Book.pk self) db)).

(** ** [class Reader] *)

(** [Reader.get_active_reservations] *)
Definition get_active_reservations (self : Reader.t) (db : Database)
  : list Reservation.t :=
  filter_reader_active (Reader.pk self) db.

(** [Reader.get_reservations_count] *)
Definition get_reservations_count (self : Reader.t) (db : Database) : nat :=
  count (filter (fun r => fk_eqb (Reservation.reader r) (Reader.pk self))
                (Reservation_objects db)).

(** ** Strings

    A Python [str] is Unicode text; it is modelled by the [string] of its
    UTF-8 encoding, so that the text is ASCII exactly when every character
    of the [string] is below 128 ([ascii_only]).

    [strip] and [lower] below are what [str.strip] and [str.lower] compute
    on ASCII text, where the whitespace characters are the codes 9 to 13 and
    28 to 32 and the upper-case letters are A to Z.  On other text the two
    builtins follow the Unicode tables, which are no part of the repository:
    [Reader.save], which is called on arbitrary text, takes the two builtins
    as the parameters [py_strip] and [py_lower], of which [str_builtins]
    records the behaviour on ASCII text.  The cleaning methods of the forms
    are modelled for ASCII input. *)

Fixpoint ascii_only (s : string) : bool :=
  match s with
  | EmptyString => true
  | String c s' => (nat_of_ascii c <? 128)%nat && ascii_only s'
  end.

Definition isspace (c : ascii) : bool :=
  let n := nat_of_ascii c in
  ((9 <=? n) && (n <=? 13) || (28 <=? n) && (n <=? 32))%nat.

Definition lower_char (c : ascii) : ascii :=
  let n := nat_of_ascii c in
  if ((65 <=? n) && (n <=? 90))%nat then ascii_of_nat (n + 32) else c.

(** [s.lower()] *)
Fixpoint lower (s : string) : string :=
  match s with
  | EmptyString => EmptyString
  | String c s' => String (lower_char c) (lower s')
  end.

(** [s.lstrip()] *)
Fixpoint lstrip (s : string) : string :=
  match s with
  | EmptyString => EmptyString
  | String c s' => if isspace c then lstrip s' else s
  end.

(** [s.rstrip()] *)
Fixpoint rstrip (s : string) : string :=
  match s with
  | EmptyString => EmptyString
  | String c s' =>
      match rstrip s' with
      | EmptyString => if isspace c then EmptyString else String c EmptyString
      | t => String c t
      end
  end.

(** [s.strip()] *)
Definition strip (s : string) : string := rstrip (lstrip s).

(** What is known of the builtins [str.strip] and [str.lower]: on ASCII
    text they are [strip] and [lower]. *)
Definition str_builtins (py_strip py_lower : string -> string) : Prop :=
  (forall s, ascii_only s = true -> py_strip s = strip s) /\
  (forall s, ascii_only s = true -> py_lower s = lower s).

(** [str(i)] for an integer. *)
Definition str_int (i : Z) : string := NilZero.string_of_int (Z.to_int i).

(** ** Storage layer

    [Model.save] of Django: an instance without primary key is inserted
    under a fresh key, an instance with a primary key updates its row (and is
    inserted when no row has that key).  A field declared [auto_now_add] is
    set on insertion only, a field declared [auto_now] on every save.  The
    write is refused with [IntegrityError] when the resulting table breaks a
    uniqueness constraint declared by the model. *)

(** The next value of an auto-incremented key: one more than the largest
    key of the table (the counter of the database, which also remembers the
    keys of deleted rows, is not modelled). *)
Definition next_pk (pks : list (option Z)) : Z :=
  (1 + fold_right (fun p m => match p with Some i => Z.max i m | None => m end)
                  0 pks)%Z.

(** [Reservation.Meta.constraints]: the only constraint of the table is
    [UniqueConstraint(fields=['book'], condition=Q(is_active=True),
    name='unique_active_reservation_per_book')]. *)
Definition unique_active_reservation_per_book (rows : list Reservation.t) : bool :=
  forallb
    (fun r =>
       negb (Reservation.is_active r)
       || (count (filter (fun r' => fk_eqb (Reservation.book r') (Reservation.book r)
                                    && Reservation.is_active r') rows) <=? 1)%nat)
    rows.

(** [Reader.email] is declared [unique=True]. *)
Definition unique_email (rows : list Reader.t) : bool :=
  forallb
    (fun r =>
       (count (filter (fun r' => String.eqb (Reader.email r') (Reader.email r)) rows)
        <=? 1)%nat)
    rows.

Definition set_Reservation_objects (rows : list Reservation.t) (db : Database)
  : Database :=
  {| Book_objects := Book_objects db;
     Reader_objects := Reader_objects db;
     Reservation_objects := rows |}.

Definition set_Reader_objects (rows : list Reader.t) (db : Database) : Database :=
  {| Book_objects := Book_objects db;
     Reader_objects := rows;
     Reservation_objects := Reservation_objects db |}.

(** [UPDATE ... WHERE id = i]: the row of key [i] is replaced by [self]. *)
Definition update_row (i : Z) (self : Reservation.t) (rows : list Reservation.t)
  : list Reservation.t :=
  map (fun r => if pk_is i (Reservation.pk r) then self else r) rows.

(** The row written by a save of [self] at time [now], and the table after
    the write. *)
Definition write_Reservation (now : datetime) (self : Reservation.t)
  (rows : list Reservation.t) : Reservation.t * list Reservation.t :=
  let insert (i : Z) :=
    let self' := {| Reservation.pk := Some i;
                    Reservation.book := Reservation.book self;
                    Reservation.reader := Reservation.reader self;
                    Reservation.reservation_date := Some now;
                    Reservation.is_active := Reservation.is_active self;
                    Reservation.cancelled_at := Reservation.cancelled_at self;
                    Reservation.notes := Reservation.notes self |} in
    (self', rows ++ [self']) in
  match Reservation.pk self with
  | Some i =>
      if existsb (fun r => pk_is i (Reservation.pk r)) rows
      then (self, update_row i self rows)
      else insert i
  | None => insert (next_pk (map Reservation.pk rows))
  end.

(** [models.Model.save] on a [Reservation] ([super().save()]).  Of the
    checks of the table only the uniqueness constraint is modelled. *)
Definition Model_save_Reservation (now : datetime) (self : Reservation.t)
  : M Reservation.t :=
  fun db =>
    let (self', rows') := write_Reservation now self (Reservation_objects db) in
    if unique_active_reservation_per_book rows'
    then (Ok self', set_Reservation_objects rows' db)
    else (Raise (IntegrityError "unique_active_reservation_per_book"), db).

Definition write_Reader (now : datetime) (self : Reader.t) (rows : list Reader.t)
  : Reader.t * list Reader.t :=
  let insert (i : Z) :=
    let self' := {| Reader.pk := Some i;
                    Reader.name := Reader.name self;
                    Reader.email := Reader.email self;
                    Reader.created_at := Some now;
                    Reader.updated_at := Some now |} in
    (self', rows ++ [self']) in
  match Reader.pk self with
  | Some i =>
      if existsb (fun r => pk_is i (Reader.pk r)) rows
      then
        let self' := {| Reader.pk := Some i;
                        Reader.name := Reader.name self;
                        Reader.email := Reader.email self;
                        Reader.created_at := Reader.created_at self;
                        Reader.updated_at := Some now |} in
        (self', map (fun r => if pk_is i (Reader.pk r) then self' else r) rows)
      else insert i
  | None => insert (next_pk (map Reader.pk rows))
  end.

(** [models.Model.save] on a [Reader] ([super().save()]). *)
Definition Model_save_Reader (now : datetime) (self : Reader.t) : M Reader.t :=
  fun db =>
    let (self', rows') := write_Reader now self (Reader_objects db) in
    if unique_email rows'
    then (Ok self', set_Reader_objects rows' db)
    else (Raise (IntegrityError "library_reader.email"), db).

(** ** [class Reader], continued *)

Section Str.

(** The builtins [str.strip] and [str.lower]. *)
Variables py_strip py_lower : string -> string.

(** The body shared by [Reader.clean_fields] and [Reader.save]:
    [if self.email: self.email = self.email.strip().lower()]. *)
Definition normalize_email (self : Reader.t) : Reader.t :=
  match Reader.email self with
  | EmptyString => self
  | _ =>
      {| Reader.pk := Reader.pk self;
         Reader.name := Reader.name self;
         Reader.email := py_lower (py_strip (Reader.email self));
         Reader.created_at := Reader.created_at self;
         Reader.updated_at := Reader.updated_at self |}
  end.

(** [Reader.save] *)
Definition Reader_save (now : datetime) (self : Reader.t) : M Reader.t :=
  Model_save_Reader now (normalize_email self).

(** [Reader.objects.create(name=..., email=...)] *)
Definition Reader_objects_create (now : datetime) (name email : string)
  : M Reader.t :=
  Reader_save now {| Reader.pk := None;
                     Reader.name := name;
                     Reader.email := email;
                     Reader.created_at := None;
                     Reader.updated_at := None |}.

End Str.

(** ** [class Reservation] *)

(** The row that the foreign key of [self] refers to, when the key is set
    and the row exists. *)
Definition related_book (self : Reservation.t) (db : Database) : option Book.t :=
  match Reservation.book self with
  | Some i => find_Book i db
  | None => None
  end.
Definition related_reader (self : Reservation.t) (db : Database) : option Reader.t :=
  match Reservation.reader self with
  | Some i => find_Reader i db
  | None => None
  end.

(** [self.book] and [self.reader], the attribute accesses: an unset key
    raises [RelatedObjectDoesNotExist], a key that refers to no row raises
    the [DoesNotExist] of the related model, of which the former is a
    subclass. *)
Definition load_book (self : Reservation.t) : M Book.t :=
  fun db =>
    match related_book self db with
    | Some b => (Ok b, db)
    | None => (Raise (DoesNotExist "Book"), db)
    end.
Definition load_reader (self : Reservation.t) : M Reader.t :=
  fun db =>
    match related_reader self db with
    | Some r => (Ok r, db)
    | None => (Raise (DoesNotExist "Reader"), db)
    end.

(** [Model.clean_fields] on a [Reservation]: the two foreign keys are
    required and must refer to existing rows; the other fields accept every
    value the record type allows. *)
Definition Reservation_clean_fields (self : Reservation.t) (db : Database)
  : list (string * string) :=
  (match Reservation.book self with
   | None => [("book", "This field cannot be null.")]
   | Some i =>
       match find_Book i db with
       | Some _ => []
       | None => [("book", ("Livre instance with id " ++ str_int i ++ " does not exist.")%string)]
       end
   end)
  ++
  (match Reservation.reader self with
   | None => [("reader", "This field cannot be null.")]
   | Some i =>
       match find_Reader i db with
       | Some _ => []
       | None => [("reader", ("Lecteur instance with id " ++ str_int i ++ " does not exist.")%string)]
       end
   end).

(** [hasattr(self, 'book')] with the value of [self.book] when it holds.
    [hasattr] answers [False] for an [AttributeError] only:
    [RelatedObjectDoesNotExist], raised for an unset key, is one; the
    [DoesNotExist] raised for a key that refers to no row is not, and goes
    through [hasattr] to the caller. *)
Definition hasattr_book (self : Reservation.t) : M (option Book.t) :=
  fun db =>
    match Reservation.book self with
    | None => (Ok None, db)
    | Some i =>
        match find_Book i db with
        | Some b => (Ok (Some b), db)
        | None => (Raise (DoesNotExist "Book"), db)
        end
    end.
Definition hasattr_reader (self : Reservation.t) : M (option Reader.t) :=
  fun db =>
    match Reservation.reader self with
    | None => (Ok None, db)
    | Some i =>
        match find_Reader i db with
        | Some r => (Ok (Some r), db)
        | None => (Raise (DoesNotExist "Reader"), db)
        end
    end.

(** [Reservation.clean] *)
Definition Reservation_clean (self : Reservation.t) : M unit :=
  match Reservation.pk self with
  | Some _ => ret tt
  | None =>
      book <- hasattr_book self ;;
      match book with
      | None => ret tt
      | Some book =>
          reader <- hasattr_reader self ;;
          match reader with
          | None => ret tt
          | Some reader =>
              book_taken <- query (fun db => exists_ (filter_book_active (Book.pk book) db)) ;;
              if book_taken then
                qs <- query (filter_book_active (Book.pk book)) ;;
                existing <- objects_get "Reservation" qs ;;
                existing_reader <- load_reader existing ;;
                raise (ValidationErrorDict
                         [("book",
                           ("Le livre " ++ dquote ++ Book.title book ++ dquote
                            ++ " est déjà réservé par "
                            ++ Reader.name existing_reader ++ ".")%string)])
              else
                reader_taken <-
                  query (fun db => exists_ (filter_reader_active (Reader.pk reader) db)) ;;
                if reader_taken then
                  raise (ValidationErrorDict
                           [("reader",
                             ("Le lecteur " ++ dquote ++ Reader.name reader ++ dquote
                              ++ " a déjà une réservation en cours.")%string)])
                else ret tt
          end
      end
  end.

(** [Model.full_clean]: the errors of [clean_fields] and of [clean] are
    collected and raised together; an exception of [clean] that is not a
    [ValidationError] propagates as it is.  [Model.validate_constraints],
    which [full_clean] also runs from Django 4.1 on, is not modelled: it
    reports a violation of the constraint of the table, which the storage
    layer refuses in any version. *)
Definition Reservation_full_clean (self : Reservation.t) : M unit :=
  fun db =>
    let errors := Reservation_clean_fields self db in
    let raise_if_any (errs : list (string * string)) : result unit * Database :=
      match errs with
      | [] => (Ok tt, db)
      | _ :: _ => (Raise (ValidationErrorDict errs), db)
      end in
    match fst (Reservation_clean self db) with
    | Ok _ => raise_if_any errors
    | Raise (ValidationErrorDict e) => raise_if_any (errors ++ e)
    | Raise (ValidationError m) => raise_if_any (errors ++ [("__all__", m)])
    | Raise e => (Raise e, db)
    end.

(** [Reservation.save] *)
Definition Reservation_save (now : datetime) (self : Reservation.t)
  : M Reservation.t :=
  Reservation_full_clean self ;;
  Model_save_Reservation now self.

(** [Reservation.objects.create(book=book, reader=reader, notes=notes)];
    [is_active] defaults to [True], [cancelled_at] to [None]. *)
Definition Reservation_objects_create (now : datetime) (book : Book.t)
  (reader : Reader.t) (notes : string) : M Reservation.t :=
  Reservation_save now {| Reservation.pk := None;
                          Reservation.book := Book.pk book;
                          Reservation.reader := Reader.pk reader;
                          Reservation.reservation_date := None;
                          Reservation.is_active := true;
                          Reservation.cancelled_at := None;
                          Reservation.notes := notes |}.

Definition set_status (is_active : bool) (cancelled_at : option datetime)
  (self : Reservation.t) : Reservation.t :=
  {| Reservation.pk := Reservation.pk self;
     Reservation.book := Reservation.book self;
     Reservation.reader := Reservation.reader self;
     Reservation.reservation_date := Reservation.reservation_date self;
     Reservation.is_active := is_active;
     Reservation.cancelled_at := cancelled_at;
     Reservation.notes := Reservation.notes self |}.

(** [Reservation.cancel]; [now] is the value of [datetime.now()]. *)
Definition cancel (now : datetime) (self : Reservation.t) : M bool :=
  if Reservation.is_active self then
    Reservation_save now (set_status false (Some now) self) ;;
    ret true
  else ret false.

(** [self.book.is_available()] *)
Definition book_is_available (self : Reservation.t) : M bool :=
  book <- load_book self ;;
  query (is_available book).

(** [Reservation.reactivate].  The first condition is
    [not self.is_active and self.book.is_available()], evaluated left to
    right; the [elif] evaluates [not self.book.is_available()] again. *)
Definition reactivate (now : datetime) (self : Reservation.t) : M bool :=
  c1 <- (if negb (Reservation.is_active self) then book_is_available self
         else ret false) ;;
  if c1 then
    Reservation_save now (set_status true None self) ;;
    ret true
  else
    available <- book_is_available self ;;
    if negb available then
      raise (ValidationError "Le livre est déjà réservé par quelqu'un d'autre.")
    else ret false.

(** ** The reservation operations

    The three operations on the catalogue, each starting from identifiers:
    the rows are fetched with [get_object_or_404] and the model methods do
    the rest. *)

Definition CreateReservation (now : datetime) (book_id reader_id : Z)
  (notes : string) : M Reservation.t :=
  book <- get_Book_or_404 book_id ;;
  reader <- get_Reader_or_404 reader_id ;;
  Reservation_objects_create now book reader notes.

Definition CancelReservation (now : datetime) (reservation_id : Z) : M bool :=
  reservation <- get_Reservation_or_404 reservation_id ;;
  cancel now reservation.

Definition ReactivateReservation (now : datetime) (reservation_id : Z) : M bool :=
  reservation <- get_Reservation_or_404 reservation_id ;;
  reactivate now reservation.

(** ** [library/forms.py]: [QuickReservationForm.clean]

    The form holds the book it was built for ([self.book]) and, in its
    cleaned data, the reader chosen; the cleaned data are returned
    unchanged. *)
Definition QuickReservationForm_clean (book : option Book.t)
  (reader : option Reader.t) : M (option Reader.t) :=
  match book, reader with
  | Some b, Some rd =>
      available <- query (is_available b) ;;
      if negb available then
        raise (ValidationError "Ce livre n'est plus disponible.")
      else
        active_count <- query (fun db => count (get_active_reservations rd db)) ;;
        if (5 <=? active_count)%nat then
          raise (ValidationError
                   (Reader.name rd ++ " a déjà " ++ str_int (Z.of_nat active_count)
                    ++ " réservations actives.")%string)
        else ret reader
  | _, _ => ret reader
  end.

(** ** [library/views.py]: [quick_reserve] *)

(** The request: its method and its body as [json.loads] reads it, either
    not JSON or an object whose [reader_id] entry is an integer or absent. *)
Inductive Body : Type :=
| InvalidJson
| JsonObject (reader_id : option Z).

Record HttpRequest : Type := mkRequest {
  method : string;
  body : Body
}.

(** The message of a response: a text, or [str(e)] for a caught
    exception. *)
Inductive Message : Type :=
| Text (s : string)
| Str (e : Exception).

Record JsonResponse : Type := mkJsonResponse {
  status : string;
  message : Message;
  reservation_id : option Z
}.

Definition json_error (m : Message) : JsonResponse :=
  {| status := "error"; message := m; reservation_id := None |}.

(** [try: ... except Exception as e: ...] *)
Definition try_except {A} (m : M A) (handler : Exception -> M A) : M A :=
  fun db =>
    match m db with
    | (Ok a, db') => (Ok a, db')
    | (Raise e, db') => handler e db'
    end.

(** [json.loads(request.body)] followed by [data.get('reader_id')] *)
Definition json_loads_reader_id (request : HttpRequest) : M (option Z) :=
  match body request with
  | InvalidJson => raise JSONDecodeError
  | JsonObject reader_id => ret reader_id
  end.

Definition quick_reserve (now : datetime) (request : HttpRequest) (book_id : Z)
  : M JsonResponse :=
  if String.eqb (method request) "POST" then
    try_except
      (reader_id <- json_loads_reader_id request ;;
       book <- get_Book_or_404 book_id ;;
       reader <- match reader_id with
                 | Some i => get_Reader_or_404 i
                 | None => raise (Http404 "No Reader matches the given query.")
                 end ;;
       available <- query (is_available book) ;;
       if negb available then
         ret (json_error (Text "Ce livre est déjà réservé."))
       else
         has_active <- query (fun db => exists_ (get_active_reservations reader db)) ;;
         if has_active then
           ret (json_error (Text "Ce lecteur a déjà une réservation en cours."))
         else
           reservation <- Reservation_objects_create now book reader EmptyString ;;
           ret {| status := "success";
                  message := Text ("Livre réservé avec succès pour "
                                   ++ Reader.name reader)%string;
                  reservation_id := Reservation.pk reservation |})
      (fun e => ret (json_error (Str e)))
  else ret (json_error (Text "Méthode non autorisée")).

(** ** Consistency of the database

    What the storage layer guarantees of every committed state: primary keys
    of reservations are distinct, every reservation refers to an existing
    book and an existing reader, and the partial uniqueness constraint on
    active reservations holds. *)

(** The active reservations of book [b]. *)
Definition active_for_book (b : Z) (db : Database) : list Reservation.t :=
  filter_book_active (Some b) db.

(** The active reservations of reader [rd]. *)
Definition active_for_reader (rd : Z) (db : Database) : list Reservation.t :=
  filter_reader_active (Some rd) db.

(** Invariant I1: at most one active reservation per book. *)
Definition I1 (db : Database) : Prop :=
  forall b : Z, (count (active_for_book b db) <= 1)%nat.

(** Invariant I2: at most one active reservation per reader. *)
Definition I2 (db : Database) : Prop :=
  forall rd : Z, (count (active_for_reader rd db) <= 1)%nat.

Definition foreign_keys_ok (db : Database) : Prop :=
  forall r, In r (Reservation_objects db) ->
    related_book r db <> None /\ related_reader r db <> None.

Record consistent (db : Database) : Prop := mkConsistent {
  pk_unique : NoDup (map Reservation.pk (Reservation_objects db));
  pk_set : forall r, In r (Reservation_objects db) -> Reservation.pk r <> None;
  fk_ok : foreign_keys_ok db;
  unique_active : I1 db
}.

(** ** Error kinds and the rows of a creation *)

Definition Http404_Reservation : Exception :=
  Http404 "No Reservation matches the given query.".

Definition already_reserved : Exception :=
  ValidationError "Le livre est déjà réservé par quelqu'un d'autre.".

(** The three error kinds of the reservation rules, as the code raises
    them: [NotFound] is [Http404]; [BookAlreadyReserved] is the validation
    error on field [book], whose message names the reader holding the book;
    [ReaderAlreadyReserved] is the validation error on field [reader]. *)
Definition BookAlreadyReserved (book : Book.t) (holder : Reader.t) : Exception :=
  ValidationErrorDict
    [("book",
      ("Le livre " ++ dquote ++ Book.title book ++ dquote
       ++ " est déjà réservé par " ++ Reader.name holder ++ ".")%string)].

Definition ReaderAlreadyReserved (reader : Reader.t) : Exception :=
  ValidationErrorDict
    [("reader",
      ("Le lecteur " ++ dquote ++ Reader.name reader ++ dquote
       ++ " a déjà une réservation en cours.")%string)].

Definition is_NotFound (e : Exception) : bool :=
  match e with Http404 _ => true | _ => false end.

(** The instance built by [Reservation.objects.create]. *)
Definition new_reservation (b rd : option Z) (notes : string) : Reservation.t :=
  {| Reservation.pk := None;
     Reservation.book := b;
     Reservation.reader := rd;
     Reservation.reservation_date := None;
     Reservation.is_active := true;
     Reservation.cancelled_at := None;
     Reservation.notes := notes |}.

(** The row it becomes once inserted at time [now] under key [i]. *)
Definition inserted_reservation (i : Z) (now : datetime) (b rd : Z)
  (notes : string) : Reservation.t :=
  {| Reservation.pk := Some i;
     Reservation.book := Some b;
     Reservation.reader := Some rd;
     Reservation.reservation_date := Some now;
     Reservation.is_active := true;
     Reservation.cancelled_at := None;
     Reservation.notes := notes |}.

(** ** Sequences of operations *)

Inductive Operation : Type :=
| OpCreate (book_id reader_id : Z) (notes : string)
| OpCancel (reservation_id : Z)
| OpReactivate (reservation_id : Z).

(** The database after an operation run at time [now]. *)
Definition execute (now : datetime) (op : Operation) (db : Database) : Database :=
  match op with
  | OpCreate b rd notes => snd (CreateReservation now b rd notes db)
  | OpCancel i => snd (CancelReservation now i db)
  | OpReactivate i => snd (ReactivateReservation now i db)
  end.

(** The states reached from [init] by any sequence of operations. *)
Inductive reachable (init : Database) : Database -> Prop :=
| reachable_init : reachable init init
| reachable_step db now op :
    reachable init db -> reachable init (execute now op db).

Fixpoint run (ops : list (datetime * Operation)) (db : Database) : Database :=
  match ops with
  | [] => db
  | (now, op) :: ops' => run ops' (execute now op db)
  end.



(** Two rows that differ in [is_active] and [cancelled_at] at most. *)
Definition same_but_status (old new : Reservation.t) : Prop :=
  Reservation.pk new = Reservation.pk old /\
  Reservation.book new = Reservation.book old /\
  Reservation.reader new = Reservation.reader old /\
  Reservation.reservation_date new = Reservation.reservation_date old /\
  Reservation.notes new = Reservation.notes old.

(** ** A small catalogue

    Two books, two readers and no reservation; [db_res1] is the catalogue
    after reader 1 reserved book 1 at time 100. *)

Definition book1 : Book.t :=
  {| Book.pk := Some 1%Z; Book.title := "Test Book"; Book.author := "Author X";
     Book.year := 2000%Z; Book.created_at := 1%Z; Book.updated_at := 1%Z |}.

Definition book2 : Book.t :=
  {| Book.pk := Some 2%Z; Book.title := "Book 2"; Book.author := "A";
     Book.year := 1999%Z; Book.created_at := 2%Z; Book.updated_at := 2%Z |}.

Definition reader1 : Reader.t :=
  {| Reader.pk := Some 1%Z; Reader.name := "John Tester";
     Reader.email := "john.tester@example.com";
     Reader.created_at := Some 3%Z; Reader.updated_at := Some 3%Z |}.

Definition reader2 : Reader.t :=
  {| Reader.pk := Some 2%Z; Reader.name := "Other";
     Reader.email := "other@example.com";
     Reader.created_at := Some 4%Z; Reader.updated_at := Some 4%Z |}.

Definition db_empty : Database :=
  {| Book_objects := [book1; book2];
     Reader_objects := [reader1; reader2];
     Reservation_objects := [] |}.

Definition db_res1 : Database := execute 100%Z (OpCreate 1%Z 1%Z "first") db_empty.

(** [db_cancelled]: reservation 1 cancelled at time 150; [db_taken]: book 1
    then reserved by reader 2 at time 160; [db_other]: instead, reader 2
    reserves book 2. *)
Definition db_cancelled : Database := execute 150%Z (OpCancel 1%Z) db_res1.
Definition db_taken : Database :=
  execute 160%Z (OpCreate 1%Z 2%Z "second") db_cancelled.
Definition db_other : Database :=
  execute 160%Z (OpCreate 2%Z 2%Z "other") db_cancelled.


(** [db'] differs from [db] at most in the [is_active] and [cancelled_at]
    fields of the reservation of key [i]: same books, same readers, and the
    same reservations row by row. *)
Definition only_status_changed (i : Z) (db db' : Database) : Prop :=
  Book_objects db' = Book_objects db /\
  Reader_objects db' = Reader_objects db /\
  Forall2 (fun old new =>
             same_but_status old new /\
             (Reservation.pk old <> Some i -> new = old))
          (Reservation_objects db) (Reservation_objects db').

(** Reader 1 reserves book 1, cancels, reserves book 2 and then has the
    first reservation reactivated. *)
Definition db_two_for_reader : Database :=
  run [(150%Z, OpCancel 1%Z); (160%Z, OpCreate 2%Z 1%Z "b2");
       (170%Z, OpReactivate 1%Z)] db_res1.

(** A quick-reservation request for reader 1. *)
Definition post_reader1 : HttpRequest :=
  {| method := "POST"; body := JsonObject (Some 1%Z) |}.

(** The exception an operation ends with, if any. *)
Definition raised (now : datetime) (op : Operation) (db : Database)
  : option Exception :=
  let exception_of {A} (r : result A) : option Exception :=
    match r with Ok _ => None | Raise e => Some e end in
  match op with
  | OpCreate b rd notes => exception_of (fst (CreateReservation now b rd notes db))
  | OpCancel i => exception_of (fst (CancelReservation now i db))
  | OpReactivate i => exception_of (fst (ReactivateReservation now i db))
  end.

(** ** Further invariants *)

(** Invariant I3: a reservation is active exactly when it has no date of
    cancellation. *)
Definition I3 (db : Database) : Prop :=
  forall r, In r (Reservation_objects db) ->
    (Reservation.is_active r = true <-> Reservation.cancelled_at r = None).

(** The operations that check the reader: all but reactivation. *)
Definition checks_reader (op : Operation) : bool :=
  match op with
  | OpReactivate _ => false
  | OpCreate _ _ _ | OpCancel _ => true
  end.

(** The number of reservations an operation adds for the reader of key
    [rd]: one when it is a creation for that reader that succeeds. *)
Definition added_for (now : datetime) (op : Operation) (db : Database)
  (rd : option Z) : nat :=
  match op, raised now op db with
  | OpCreate _ rd' _, None => if fk_eqb (Some rd') rd then 1 else 0
  | _, _ => 0
  end.

(** The table after an operation is the old one, the old one with a new
    active row appended, or the old one with the row of a stored
    reservation replaced by the same row with another status. *)
Inductive table_step (now : datetime) (op : Operation) (db : Database)
  : Database -> Prop :=
| step_same :
    (forall b rd notes, op = OpCreate b rd notes -> raised now op db <> None) ->
    table_step now op db db
| step_insert b rd notes bk rdr :
    op = OpCreate b rd notes ->
    find_Book b db = Some bk -> find_Reader rd db = Some rdr ->
    filter_book_active (Some b) db = [] ->
    filter_reader_active (Some rd) db = [] ->
    raised now op db = None ->
    table_step now op db
      (set_Reservation_objects
         (Reservation_objects db
          ++ [inserted_reservation
                (next_pk (map Reservation.pk (Reservation_objects db)))
                now b rd notes]) db)
| step_cancel i r :
    op = OpCancel i ->
    find_Reservation i db = Some r -> Reservation.is_active r = true ->
    table_step now op db
      (set_Reservation_objects
         (update_row i (set_status false (Some now) r) (Reservation_objects db)) db)
| step_reactivate i r :
    op = OpReactivate i ->
    find_Reservation i db = Some r -> Reservation.is_active r = false ->
    filter_book_active (Reservation.book r) db = [] ->
    table_step now op db
      (set_Reservation_objects
         (update_row i (set_status true None r) (Reservation_objects db)) db).

(** ** [Book.clean] *)

(** [current_year] is [datetime.now().year]. *)
Definition Book_clean (current_year : Z) (self : Book.t) : result unit :=
  if (Book.year self >? current_year)%Z then
    Raise (ValidationErrorDict
             [("year", "L'année de publication ne peut pas être dans le futur.")])
  else if (Book.year self <? 1000)%Z then
    Raise (ValidationErrorDict
             [("year", "L'année de publication doit être supérieure à 1000.")])
  else Ok tt.

(** ** [library/forms.py]: the field cleaners

    A cleaner reads its field in [cleaned_data], where it is absent ([None])
    when the field itself was invalid.  The cleaners are modelled for ASCII
    text ([ascii_only]): there [len] is [String.length], [str.strip] and
    [str.lower] are [strip] and [lower], and [str.isdigit] is the test for a
    non-empty string of the digits 0 to 9. *)

Definition is_digit_char (c : ascii) : bool :=
  let n := nat_of_ascii c in ((48 <=? n) && (n <=? 57))%nat.

Fixpoint all_digits (s : string) : bool :=
  match s with
  | EmptyString => true
  | String c s' => is_digit_char c && all_digits s'
  end.

(** [s.isdigit()] *)
Definition isdigit (s : string) : bool :=
  match s with
  | EmptyString => false
  | String _ _ => all_digits s
  end.

(** [BookForm.clean_title] *)
Definition BookForm_clean_title (title : option string) : result (option string) :=
  match title with
  | Some (String _ _ as t) =>
      let t' := strip t in
      if (String.length t' <? 2)%nat then
        Raise (ValidationError "Le titre doit contenir au moins 2 caractères.")
      else Ok (Some t')
  | _ => Ok title
  end.

(** [BookForm.clean_author] *)
Definition BookForm_clean_author (author : option string) : result (option string) :=
  match author with
  | Some (String _ _ as a) =>
      let a' := strip a in
      if (String.length a' <? 2)%nat then
        Raise (ValidationError
                 "Le nom de l'auteur doit contenir au moins 2 caractères.")
      else Ok (Some a')
  | _ => Ok author
  end.

(** [BookForm.clean_year]; [if year:] skips [None] and [0]. *)
Definition BookForm_clean_year (current_year : Z) (year : option Z)
  : result (option Z) :=
  match year with
  | Some y =>
      if (y =? 0)%Z then Ok year
      else if (y >? current_year)%Z then
        Raise (ValidationError "L'année ne peut pas être dans le futur.")
      else if (y <? 1000)%Z then
        Raise (ValidationError "L'année doit être supérieure à 1000.")
      else Ok year
  | None => Ok year
  end.

(** [ReaderForm.clean_name] *)
Definition ReaderForm_clean_name (name : option string) : result (option string) :=
  match name with
  | Some (String _ _ as n) =>
      let n' := strip n in
      if (String.length n' <? 2)%nat then
        Raise (ValidationError "Le nom doit contenir au moins 2 caractères.")
      else if isdigit n' then
        Raise (ValidationError
                 "Le nom ne peut pas contenir uniquement des chiffres.")
      else Ok (Some n')
  | _ => Ok name
  end.

(** [ReaderForm.clean_email]; [instance] is [self.instance]. *)
Definition ReaderForm_clean_email (instance : Reader.t) (email : option string)
  : M (option string) :=
  match email with
  | Some (String _ _ as e) =>
      let e' := strip (lower e) in
      if match Reader.pk instance with None => true | Some _ => false end
         || negb (String.eqb (Reader.email instance) e')
      then
        taken <- query (fun db =>
                          exists_ (filter (fun r => String.eqb (Reader.email r) e')
                                          (Reader_objects db))) ;;
        if taken then
          raise (ValidationError
                   "Cette adresse email est déjà utilisée par un autre lecteur.")
        else ret (Some e')
      else ret (Some e')
  | _ => ret email
  end.

(** ** [library/views.py]: responses, messages and the other views *)

(** What a view renders a template with. *)
Inductive Context : Type :=
| HomeContext (total_books total_readers active_reservations : nat)
    (available_books : Z) (recent_reservations : list Reservation.t)
| DeleteBookContext (book : Book.t) (has_reservations : bool)
| DeleteReaderContext (reader : Reader.t) (has_active_reservations : bool)
    (total_reservations : nat).

Inductive HttpResponse : Type :=
| Json (response : JsonResponse)
| HttpResponseNotAllowed (permitted_methods : list string)
| Redirect (to : string) (kwargs : list (string * option Z))
| Render (template_name : string) (context : Context).

(** A message left by [messages.success] or [messages.error]. *)
Record FlashMessage : Type := mkFlash {
  level : string;
  text : string
}.

(** Errors of Python itself, beside the exceptions of Django. *)
Inductive BuiltinError : Type :=
| AttributeError (message : string)
| ValueError (message : string).

Inductive outcome (A : Type) : Type :=
| Returns (a : A)
| Raises (e : Exception)
| RaisesBuiltin (e : BuiltinError).
Arguments Returns {A} a.
Arguments Raises {A} e.
Arguments RaisesBuiltin {A} e.

(** Code that may also end with a [BuiltinError]. *)
Definition V (A : Type) : Type := Database -> outcome A * Database.

Definition lift {A} (m : M A) : V A :=
  fun db =>
    match m db with
    | (Ok a, db') => (Returns a, db')
    | (Raise e, db') => (Raises e, db')
    end.
Definition retV {A} (a : A) : V A := fun db => (Returns a, db).
Definition bindV {A B} (m : V A) (k : A -> V B) : V B :=
  fun db =>
    match m db with
    | (Returns a, db') => k a db'
    | (Raises e, db') => (Raises e, db')
    | (RaisesBuiltin e, db') => (RaisesBuiltin e, db')
    end.

(** [@require_http_methods(["POST"])] around [view]. *)
Definition require_POST {A} (request : HttpRequest)
  (not_allowed : A) (view : M A) : M A :=
  if String.eqb (method request) "POST" then view else ret not_allowed.

(** [cancel_reservation] *)
Definition cancel_reservation (now : datetime) (request : HttpRequest)
  (reservation_id : Z) : M (HttpResponse * list FlashMessage) :=
  require_POST request (HttpResponseNotAllowed ["POST"], [])
    (reservation <- get_Reservation_or_404 reservation_id ;;
     if Reservation.is_active reservation then
       success <- cancel now reservation ;;
       if success then
         ret (Json {| status := "success";
                      message := Text "Réservation annulée.";
                      reservation_id := None |},
              [{| level := "success"; text := "Réservation annulée avec succès." |}])
       else
         ret (Json (json_error (Text "Erreur lors de l'annulation.")), [])
     else
       ret (Json (json_error (Text "Cette réservation est déjà annulée.")), [])).

(** [Model.delete] on a [Book]: the reservations of the book go with it
    ([on_delete=models.CASCADE]); an instance without primary key cannot be
    deleted. *)
Definition Book_delete (self : Book.t) : V unit :=
  fun db =>
    match Book.pk self with
    | None =>
        (RaisesBuiltin
           (ValueError
              "Book object can't be deleted because its id attribute is set to None."),
         db)
    | Some i =>
        (Returns tt,
         {| Book_objects :=
              filter (fun b => negb (pk_is i (Book.pk b))) (Book_objects db);
            Reader_objects := Reader_objects db;
            Reservation_objects :=
              filter (fun r => negb (pk_is i (Reservation.book r)))
                     (Reservation_objects db) |})
    end.

(** [Model.delete] on a [Reader], with the same cascade. *)
Definition Reader_delete (self : Reader.t) : V unit :=
  fun db =>
    match Reader.pk self with
    | None =>
        (RaisesBuiltin
           (ValueError
              "Reader object can't be deleted because its id attribute is set to None."),
         db)
    | Some i =>
        (Returns tt,
         {| Book_objects := Book_objects db;
            Reader_objects :=
              filter (fun r => negb (pk_is i (Reader.pk r))) (Reader_objects db);
            Reservation_objects :=
              filter (fun r => negb (pk_is i (Reservation.reader r)))
                     (Reservation_objects db) |})
    end.

(** [book.reservations] and [reader.reservations] *)
Definition reservations_of_book (self : Book.t) (db : Database)
  : list Reservation.t :=
  filter (fun r => fk_eqb (Reservation.book r) (Book.pk self))
         (Reservation_objects db).
Definition reservations_of_reader (self : Reader.t) (db : Database)
  : list Reservation.t :=
  filter (fun r => fk_eqb (Reservation.reader r) (Reader.pk self))
         (Reservation_objects db).

(** [delete_book] *)
Definition delete_book (request : HttpRequest) (book_id : Z)
  : V (HttpResponse * list FlashMessage) :=
  bindV (lift (get_Book_or_404 book_id)) (fun book =>
  bindV (lift (query (fun db => exists_ (filter_book_active (Book.pk book) db))))
        (fun has_active =>
  if has_active then
    retV (Redirect "library:book_list" [],
          [{| level := "error";
              text := ("Impossible de supprimer " ++ dquote ++ Book.title book
                       ++ dquote ++ " : il y a des réservations actives.")%string |}])
  else if String.eqb (method request) "POST" then
    bindV (Book_delete book) (fun _ =>
    retV (Redirect "library:book_list" [],
          [{| level := "success";
              text := ("Livre " ++ dquote ++ Book.title book ++ dquote
                       ++ " supprimé avec succès.")%string |}]))
  else
    bindV (lift (query (fun db => exists_ (reservations_of_book book db))))
          (fun has_reservations =>
    retV (Render "library/delete_book.html"
                 (DeleteBookContext book has_reservations), [])))).

(** [delete_reader] *)
Definition delete_reader (request : HttpRequest) (reader_id : Z)
  : V (HttpResponse * list FlashMessage) :=
  bindV (lift (get_Reader_or_404 reader_id)) (fun reader =>
  bindV (lift (query (fun db => exists_ (filter_reader_active (Reader.pk reader) db))))
        (fun has_active =>
  if has_active then
    retV (Redirect "library:reader_detail" [("reader_id", Reader.pk reader)],
          [{| level := "error";
              text := ("Impossible de supprimer " ++ dquote ++ Reader.name reader
                       ++ dquote ++ " : il y a des réservations actives.")%string |}])
  else if String.eqb (method request) "POST" then
    bindV (Reader_delete reader) (fun _ =>
    retV (Redirect "library:reader_list" [],
          [{| level := "success";
              text := ("Lecteur " ++ dquote ++ Reader.name reader ++ dquote
                       ++ " supprimé avec succès.")%string |}]))
  else
    bindV (lift (query (fun db =>
                          (exists_ (filter_reader_active (Reader.pk reader) db),
                           count (reservations_of_reader reader db)))))
          (fun c =>
    retV (Render "library/delete_reader.html"
                 (DeleteReaderContext reader (fst c) (snd c)), [])))).

(** A request without body. *)
Definition request_of (m : string) : HttpRequest :=
  {| method := m; body := InvalidJson |}.

(** ** Ordered querysets

    [Reservation.Meta.ordering] is [['-reservation_date']]: a queryset of
    reservations yields its rows by decreasing date, in an order the
    database is free to choose among equal dates.  The code that depends on
    that order is written over [order_by], the function putting the rows of
    a queryset in the order of iteration. *)

Section Ordered.
Variable order_by : list Reservation.t -> list Reservation.t.

(** [Book.get_current_reservation] *)
Definition get_current_reservation (self : Book.t) (db : Database)
  : option Reservation.t :=
  hd_error (order_by (filter_book_active (Book.pk self) db)).

(** [ReservationForm.clean]; the cleaned data are the book, the reader and
    the notes, returned as they came. *)
Definition ReservationForm_clean (book : option Book.t) (reader : option Reader.t)
  (notes : string) : V (option Book.t * option Reader.t * string) :=
  match book, reader with
  | Some b, Some rd =>
      fun db =>
        if negb (is_available b db) then
          match get_current_reservation b db with
          | None =>
              (RaisesBuiltin
                 (AttributeError "'NoneType' object has no attribute 'reader'"), db)
          | Some current_reservation =>
              match related_reader current_reservation db with
              | None => (Raises (DoesNotExist "Reader"), db)
              | Some holder =>
                  (Raises
                     (ValidationError
                        ("Le livre " ++ dquote ++ Book.title b ++ dquote
                         ++ " est déjà réservé par " ++ Reader.name holder ++ ".")%string),
                   db)
              end
          end
        else
          let active_reservations_count := count (get_active_reservations rd db) in
          if (5 <=? active_reservations_count)%nat then
            (Raises
               (ValidationError
                  ("Le lecteur " ++ Reader.name rd ++ " a déjà "
                   ++ str_int (Z.of_nat active_reservations_count)
                   ++ " réservations actives. " ++ "Limite maximale : "
                   ++ str_int 5 ++ ".")%string),
             db)
          else (Returns (book, reader, notes), db)
  | _, _ => retV (book, reader, notes)
  end.

(** [home]: the context the page is rendered with. *)
Definition home (db : Database) : HttpResponse :=
  let total_books := count (Book_objects db) in
  let total_readers := count (Reader_objects db) in
  let active_reservations :=
    count (filter Reservation.is_active (Reservation_objects db)) in
  let available_books := (Z.of_nat total_books - Z.of_nat active_reservations)%Z in
  let recent_reservations := firstn 5 (order_by (Reservation_objects db)) in
  Render "library/home.html"
         (HomeContext total_books total_readers active_reservations
                      available_books recent_reservations).

(** ** [library/admin.py]: the actions of [ReservationAdmin]

    [queryset] is the selection the action is run on, [clock k] the value
    of [datetime.now()] at the [k]-th iteration.  The rows are fetched when
    the loop starts; each iteration works on the instance fetched then. *)

Fixpoint cancel_each (clock : nat -> datetime) (k : nat)
  (reservations : list Reservation.t) (cancelled_count : nat) : M nat :=
  match reservations with
  | [] => ret cancelled_count
  | reservation :: rest =>
      cancelled <- cancel (clock k) reservation ;;
      cancel_each clock (S k) rest
                  (if cancelled then S cancelled_count else cancelled_count)
  end.

(** [ReservationAdmin.cancel_reservations]; the result is the message given
    to [message_user]. *)
Definition cancel_reservations (clock : nat -> datetime)
  (queryset : Reservation.t -> bool) : M string :=
  reservations <-
    query (fun db =>
             order_by (filter (fun r => queryset r && Reservation.is_active r)
                              (Reservation_objects db))) ;;
  cancelled_count <- cancel_each clock 0 reservations 0 ;;
  ret (str_int (Z.of_nat cancelled_count) ++ " réservation(s) annulée(s).")%string.

(** An entry of [errors]: the title of the book and the exception [e] whose
    [str(e)] follows it. *)
Definition ErrorLine : Type := (string * Exception)%type.

Fixpoint reactivate_each (clock : nat -> datetime) (k : nat)
  (reservations : list Reservation.t) (reactivated_count : nat)
  (errors : list ErrorLine) : M (nat * list ErrorLine) :=
  match reservations with
  | [] => ret (reactivated_count, errors)
  | reservation :: rest =>
      state <-
        try_except
          (reactivated <- reactivate (clock k) reservation ;;
           ret (if reactivated then S reactivated_count else reactivated_count,
                errors))
          (fun e =>
             book <- load_book reservation ;;
             ret (reactivated_count, errors ++ [(Book.title book, e)])) ;;
      reactivate_each clock (S k) rest (fst state) (snd state)
  end.

(** [ReservationAdmin.reactivate_reservations]; the result is the first
    sentence of the message and the errors that follow it. *)
Definition reactivate_reservations (clock : nat -> datetime)
  (queryset : Reservation.t -> bool) : M (string * list ErrorLine) :=
  reservations <-
    query (fun db =>
             order_by (filter (fun r => queryset r && negb (Reservation.is_active r))
                              (Reservation_objects db))) ;;
  state <- reactivate_each clock 0 reservations 0 [] ;;
  ret ((str_int (Z.of_nat (fst state)) ++ " réservation(s) réactivée(s).")%string,
       snd state).

End Ordered.

(** The rows in the order they are stored, an order a database may use
    when all dates are equal. *)
Definition stored_order (rows : list Reservation.t) : list Reservation.t := rows.

(** The selection of every row. *)
Definition select_all (r : Reservation.t) : bool := true.

(** * Properties *)

(** ** Lists, keys and counts *)

Lemma pk_is_true (i : Z) (p : option Z) : pk_is i p = true <-> p = Some i.
Proof.
  unfold pk_is, fk_eqb. destruct p as [j|]; split; intro H; try discriminate.
  - apply Z.eqb_eq in H. now subst.
  - injection H as ->. apply Z.eqb_refl.
Qed.

Lemma exists_false {A} (qs : list A) : exists_ qs = false <-> qs = [].
Proof. destruct qs; simpl; split; congruence. Qed.

Section Counting.
Variable P : Reservation.t -> bool.

Lemma count_filter_app (l1 l2 : list Reservation.t) :
  count (filter P (l1 ++ l2)) = (count (filter P l1) + count (filter P l2))%nat.
Proof. unfold count. now rewrite filter_app, length_app. Qed.

Lemma count_filter_map_le (f : Reservation.t -> Reservation.t) l :
  (forall r, In r l -> P (f r) = true -> P r = true) ->
  (count (filter P (map f l)) <= count (filter P l))%nat.
Proof.
  unfold count. induction l as [|r l IH]; intro H; simpl; [lia|].
  assert (IH' : (List.length (filter P (map f l)) <= List.length (filter P l))%nat).
  { apply IH. intros r' Hin. apply H. now right. }
  destruct (P (f r)) eqn:E.
  - rewrite (H r (or_introl eq_refl) E). simpl. lia.
  - destruct (P r); simpl; lia.
Qed.

Lemma count_filter_update_le (i : Z) (self : Reservation.t) l :
  (count (filter P (update_row i self l))
   <= count (filter P l)
      + count (filter (fun r => pk_is i (Reservation.pk r)) l))%nat.
Proof.
  unfold count, update_row. induction l as [|r l IH]; simpl; [lia|].
  destruct (pk_is i (Reservation.pk r)) eqn:E.
  - destruct (P self), (P r); simpl; lia.
  - destruct (P r); simpl; lia.
Qed.
End Counting.

Lemma count_pk_le_1 (i : Z) (l : list Reservation.t) :
  NoDup (map Reservation.pk l) ->
  (count (filter (fun r => pk_is i (Reservation.pk r)) l) <= 1)%nat.
Proof.
  unfold count. induction l as [|r l IH]; simpl; intro H; [lia|].
  inversion H as [|? ? Hnotin Hnd]; subst.
  destruct (pk_is i (Reservation.pk r)) eqn:E; [|now apply IH].
  apply pk_is_true in E. simpl.
  assert (Hnil : filter (fun r0 => pk_is i (Reservation.pk r0)) l = []).
  { destruct (filter _ l) as [|x xs] eqn:F; [reflexivity|].
    exfalso. apply Hnotin. rewrite E.
    assert (Hx : In x (filter (fun r0 => pk_is i (Reservation.pk r0)) l))
      by (rewrite F; now left).
    apply filter_In in Hx. destruct Hx as [Hx1 Hx2].
    apply pk_is_true in Hx2. rewrite <- Hx2. now apply in_map. }
  rewrite Hnil. simpl. lia.
Qed.

Lemma map_pk_update_row (i : Z) (self : Reservation.t) l :
  Reservation.pk self = Some i ->
  map Reservation.pk (update_row i self l) = map Reservation.pk l.
Proof.
  intro Hpk. unfold update_row. rewrite map_map. apply map_ext_in.
  intros r _. destruct (pk_is i (Reservation.pk r)) eqn:E; [|reflexivity].
  apply pk_is_true in E. congruence.
Qed.

Lemma in_update_row (i : Z) (self : Reservation.t) l r :
  In r (update_row i self l) -> r = self \/ In r l.
Proof.
  unfold update_row. rewrite in_map_iff. intros (r' & Hr & Hin).
  destruct (pk_is i (Reservation.pk r')); subst; auto.
Qed.

Lemma next_pk_above (pks : list (option Z)) (i : Z) :
  In (Some i) pks -> (i < next_pk pks)%Z.
Proof.
  intro Hin. unfold next_pk.
  enough (i <= fold_right (fun p m => match p with
                                      | Some j => Z.max j m
                                      | None => m
                                      end) 0 pks)%Z by lia.
  induction pks as [|p pks IH]; simpl; [contradiction|].
  destruct Hin as [->|Hin].
  - lia.
  - specialize (IH Hin). destruct p; lia.
Qed.

Lemma next_pk_fresh (pks : list (option Z)) : ~ In (Some (next_pk pks)) pks.
Proof. intro H. apply next_pk_above in H. lia. Qed.

(** ** The uniqueness constraint and invariant I1 *)

Lemma filter_book_null (l : list Reservation.t) :
  filter (fun r' => fk_eqb (Reservation.book r') None && Reservation.is_active r') l
  = [].
Proof.
  induction l as [|r l IH]; simpl; [reflexivity|].
  destruct (Reservation.book r); simpl; exact IH.
Qed.

Lemma unique_active_iff (rows : list Reservation.t) :
  unique_active_reservation_per_book rows = true <->
  forall b : Z,
    (count (filter (fun r => fk_eqb (Reservation.book r) (Some b)
                             && Reservation.is_active r) rows) <= 1)%nat.
Proof.
  unfold unique_active_reservation_per_book. rewrite forallb_forall. split.
  - intros H b.
    destruct (filter _ rows) as [|r l] eqn:F; [simpl; lia|].
    assert (Hr : In r (filter (fun r => fk_eqb (Reservation.book r) (Some b)
                                        && Reservation.is_active r) rows))
      by (rewrite F; now left).
    apply filter_In in Hr. destruct Hr as [Hin Hp].
    apply andb_true_iff in Hp. destruct Hp as [Hb Ha].
    apply pk_is_true in Hb. specialize (H r Hin).
    rewrite Ha, Hb in H. simpl in H. apply Nat.leb_le in H.
    rewrite <- F. exact H.
  - intros H r _. destruct (Reservation.is_active r); [simpl|reflexivity].
    apply Nat.leb_le. destruct (Reservation.book r) as [b|].
    + apply H.
    + rewrite filter_book_null. simpl. lia.
Qed.

Lemma unique_active_I1 (db : Database) :
  unique_active_reservation_per_book (Reservation_objects db) = true <-> I1 db.
Proof. apply unique_active_iff. Qed.

(** ** Looking rows up *)

Lemma find_Reservation_Some i db r :
  find_Reservation i db = Some r ->
  In r (Reservation_objects db) /\ Reservation.pk r = Some i.
Proof.
  unfold find_Reservation. intro H. apply find_some in H.
  destruct H as [Hin Hpk]. apply pk_is_true in Hpk. now split.
Qed.

Lemma find_Book_Some i db b : find_Book i db = Some b -> Book.pk b = Some i.
Proof.
  unfold find_Book. intro H. apply find_some in H. now apply pk_is_true.
Qed.

Lemma find_Reader_Some i db rd : find_Reader i db = Some rd -> Reader.pk rd = Some i.
Proof.
  unfold find_Reader. intro H. apply find_some in H. now apply pk_is_true.
Qed.

Lemma existsb_pk i rows r :
  In r rows -> Reservation.pk r = Some i ->
  existsb (fun r => pk_is i (Reservation.pk r)) rows = true.
Proof.
  intros Hin Hpk. apply existsb_exists. exists r. split; [exact Hin|].
  now apply pk_is_true.
Qed.

(** Under [NoDup] on the keys, the row found under key [i] is the only one
    with that key. *)
Lemma pk_determines_row db r r' :
  NoDup (map Reservation.pk (Reservation_objects db)) ->
  In r (Reservation_objects db) -> In r' (Reservation_objects db) ->
  Reservation.pk r = Reservation.pk r' -> r = r'.
Proof.
  generalize (Reservation_objects db) as l.
  induction l as [|x l IH]; simpl; intros Hnd Hr Hr' Heq; [contradiction|].
  inversion Hnd as [|? ? Hnotin Hnd']; subst.
  destruct Hr as [->|Hr], Hr' as [->|Hr'].
  - reflexivity.
  - exfalso. apply Hnotin. rewrite Heq. now apply in_map.
  - exfalso. apply Hnotin. rewrite <- Heq. now apply in_map.
  - now apply IH.
Qed.

(** The book a stored reservation refers to, loaded from the database. *)
Lemma load_book_ok db r :
  foreign_keys_ok db -> In r (Reservation_objects db) ->
  exists b bk, Reservation.book r = Some b /\ find_Book b db = Some bk
               /\ Book.pk bk = Some b /\ load_book r db = (Ok bk, db).
Proof.
  intros Hfk Hin. destruct (Hfk r Hin) as [Hb _].
  unfold load_book, related_book in *.
  destruct (Reservation.book r) as [b|]; [|congruence].
  destruct (find_Book b db) as [bk|] eqn:F; [|congruence].
  exists b, bk. pose proof (find_Book_Some _ _ _ F). now repeat split.
Qed.

Lemma load_reader_ok db r :
  foreign_keys_ok db -> In r (Reservation_objects db) ->
  exists i rd, Reservation.reader r = Some i /\ find_Reader i db = Some rd
               /\ load_reader r db = (Ok rd, db).
Proof.
  intros Hfk Hin. destruct (Hfk r Hin) as [_ Hr].
  unfold load_reader, related_reader in *.
  destruct (Reservation.reader r) as [i|]; [|congruence].
  destruct (find_Reader i db) as [rd|] eqn:F; [|congruence].
  exists i, rd. now repeat split.
Qed.

(** ** Validation and storage of an existing row *)

Lemma clean_fields_ok self db :
  related_book self db <> None -> related_reader self db <> None ->
  Reservation_clean_fields self db = [].
Proof.
  unfold Reservation_clean_fields, related_book, related_reader.
  intros Hb Hr.
  destruct (Reservation.book self) as [b|]; [|congruence].
  destruct (find_Book b db); [|congruence].
  destruct (Reservation.reader self) as [i|]; [|congruence].
  destruct (find_Reader i db); [|congruence].
  reflexivity.
Qed.

Lemma full_clean_saved self db :
  Reservation.pk self <> None ->
  related_book self db <> None -> related_reader self db <> None ->
  Reservation_full_clean self db = (Ok tt, db).
Proof.
  intros Hpk Hb Hr. unfold Reservation_full_clean.
  rewrite (clean_fields_ok _ _ Hb Hr).
  unfold Reservation_clean. destruct (Reservation.pk self); [|congruence].
  reflexivity.
Qed.

Lemma Model_save_update now self db i :
  Reservation.pk self = Some i ->
  existsb (fun r => pk_is i (Reservation.pk r)) (Reservation_objects db) = true ->
  unique_active_reservation_per_book (update_row i self (Reservation_objects db))
  = true ->
  Model_save_Reservation now self db
  = (Ok self, set_Reservation_objects (update_row i self (Reservation_objects db)) db).
Proof.
  intros Hpk Hex Hu. unfold Model_save_Reservation, write_Reservation.
  rewrite Hpk, Hex, Hu. reflexivity.
Qed.

(** Replacing the row of key [i] keeps the constraint when the new row is
    inactive, or when its book had no active reservation. *)
Lemma update_row_unique i self rows :
  NoDup (map Reservation.pk rows) ->
  unique_active_reservation_per_book rows = true ->
  (Reservation.is_active self = true ->
   filter (fun r => fk_eqb (Reservation.book r) (Reservation.book self)
                    && Reservation.is_active r) rows = []) ->
  unique_active_reservation_per_book (update_row i self rows) = true.
Proof.
  intros Hnd Hu Hfree. apply unique_active_iff. intro b.
  rewrite unique_active_iff in Hu.
  destruct (fk_eqb (Reservation.book self) (Some b) && Reservation.is_active self)
    eqn:E.
  - apply andb_true_iff in E. destruct E as [Hb Ha].
    apply pk_is_true in Hb. rewrite Hb in Hfree.
    eapply Nat.le_trans; [apply count_filter_update_le|].
    rewrite (Hfree Ha). simpl. apply (count_pk_le_1 i rows Hnd).
  - eapply Nat.le_trans; [|apply (Hu b)].
    apply count_filter_map_le. intros r _.
    destruct (pk_is i (Reservation.pk r)); [congruence|tauto].
Qed.

(** Saving a stored reservation after a change of status. *)
Lemma save_set_status now db i r a c :
  consistent db ->
  find_Reservation i db = Some r ->
  (a = true ->
   filter_book_active (Reservation.book r) db = []) ->
  Reservation_save now (set_status a c r) db
  = (Ok (set_status a c r),
     set_Reservation_objects
       (update_row i (set_status a c r) (Reservation_objects db)) db).
Proof.
  intros Hc Hfind Hfree.
  destruct (find_Reservation_Some _ _ _ Hfind) as [Hin Hpk].
  destruct (fk_ok db Hc r Hin) as [Hb Hr].
  unfold Reservation_save, bind.
  rewrite full_clean_saved; try assumption;
    [|simpl; rewrite Hpk; discriminate].
  apply Model_save_update.
  - exact Hpk.
  - now apply existsb_pk with r.
  - apply update_row_unique.
    + apply (pk_unique db Hc).
    + apply unique_active_I1, (unique_active db Hc).
    + exact Hfree.
Qed.

(** ** What the three operations compute *)

Lemma CancelReservation_missing now i db :
  find_Reservation i db = None ->
  CancelReservation now i db = (Raise Http404_Reservation, db).
Proof.
  intro H. unfold CancelReservation, bind, get_Reservation_or_404.
  now rewrite H.
Qed.

Lemma CancelReservation_inactive now i db r :
  find_Reservation i db = Some r -> Reservation.is_active r = false ->
  CancelReservation now i db = (Ok false, db).
Proof.
  intros H Ha. unfold CancelReservation, bind, get_Reservation_or_404, cancel.
  now rewrite H, Ha.
Qed.

Lemma CancelReservation_active now i db r :
  consistent db ->
  find_Reservation i db = Some r -> Reservation.is_active r = true ->
  CancelReservation now i db
  = (Ok true,
     set_Reservation_objects
       (update_row i (set_status false (Some now) r) (Reservation_objects db)) db).
Proof.
  intros Hc H Ha. unfold CancelReservation, bind, get_Reservation_or_404, cancel.
  rewrite H, Ha. unfold bind.
  rewrite (save_set_status now db i r false (Some now) Hc H); [reflexivity|].
  discriminate.
Qed.

Lemma ReactivateReservation_missing now i db :
  find_Reservation i db = None ->
  ReactivateReservation now i db = (Raise Http404_Reservation, db).
Proof.
  intro H. unfold ReactivateReservation, bind, get_Reservation_or_404.
  now rewrite H.
Qed.

(** The availability of the book of a stored reservation. *)
Lemma book_is_available_stored db r :
  foreign_keys_ok db -> In r (Reservation_objects db) ->
  book_is_available r db
  = (Ok (negb (exists_ (filter_book_active (Reservation.book r) db))), db).
Proof.
  intros Hfk Hin.
  destruct (load_book_ok db r Hfk Hin) as (b & bk & Hb & _ & Hpk & Hload).
  unfold book_is_available, bind. rewrite Hload.
  unfold query, is_available. now rewrite Hpk, Hb.
Qed.

Lemma ReactivateReservation_taken now i db r :
  consistent db ->
  find_Reservation i db = Some r ->
  exists_ (filter_book_active (Reservation.book r) db) = true ->
  ReactivateReservation now i db = (Raise already_reserved, db).
Proof.
  intros Hc H Ht.
  destruct (find_Reservation_Some _ _ _ H) as [Hin Hpk].
  unfold ReactivateReservation, bind, get_Reservation_or_404, reactivate.
  rewrite H. unfold bind.
  destruct (Reservation.is_active r); simpl;
    rewrite ?(book_is_available_stored db r (fk_ok db Hc) Hin), Ht; simpl;
    rewrite ?(book_is_available_stored db r (fk_ok db Hc) Hin), ?Ht; reflexivity.
Qed.

Lemma ReactivateReservation_free now i db r :
  consistent db ->
  find_Reservation i db = Some r ->
  Reservation.is_active r = false ->
  exists_ (filter_book_active (Reservation.book r) db) = false ->
  ReactivateReservation now i db
  = (Ok true,
     set_Reservation_objects
       (update_row i (set_status true None r) (Reservation_objects db)) db).
Proof.
  intros Hc H Ha Hf.
  destruct (find_Reservation_Some _ _ _ H) as [Hin Hpk].
  unfold ReactivateReservation, bind, get_Reservation_or_404, reactivate.
  rewrite H, Ha. unfold bind. simpl.
  rewrite (book_is_available_stored db r (fk_ok db Hc) Hin), Hf. simpl.
  rewrite (save_set_status now db i r true None Hc H); [reflexivity|].
  intros _. now apply exists_false.
Qed.

(** A stored active reservation makes its own book unavailable. *)
Lemma active_row_takes_book db r :
  foreign_keys_ok db -> In r (Reservation_objects db) ->
  Reservation.is_active r = true ->
  exists_ (filter_book_active (Reservation.book r) db) = true.
Proof.
  intros Hfk Hin Ha.
  destruct (load_book_ok db r Hfk Hin) as (b & _ & Hb & _).
  destruct (filter_book_active (Reservation.book r) db) as [|x l] eqn:F;
    [|reflexivity].
  exfalso.
  assert (Hr : In r (filter_book_active (Reservation.book r) db)).
  { unfold filter_book_active. apply filter_In. split; [exact Hin|].
    rewrite Ha, Hb. simpl. now rewrite Z.eqb_refl. }
  now rewrite F in Hr.
Qed.

(** ** Creation *)

Lemma clean_new db b rd notes bk rdr :
  find_Book b db = Some bk -> find_Reader rd db = Some rdr ->
  Reservation_clean (new_reservation (Some b) (Some rd) notes) db
  = match filter_book_active (Some b) db with
    | [] =>
        match filter_reader_active (Some rd) db with
        | [] => (Ok tt, db)
        | _ :: _ => (Raise (ReaderAlreadyReserved rdr), db)
        end
    | [existing] =>
        match related_reader existing db with
        | Some holder => (Raise (BookAlreadyReserved bk holder), db)
        | None => (Raise (DoesNotExist "Reader"), db)
        end
    | _ :: _ :: _ => (Raise (MultipleObjectsReturned "Reservation"), db)
    end.
Proof.
  intros Hb Hr. unfold Reservation_clean.
  cbn [Reservation.pk new_reservation].
  unfold bind, query. unfold hasattr_book.
  cbn [Reservation.book new_reservation]. rewrite Hb.
  unfold hasattr_reader.
  cbn [Reservation.reader new_reservation]. rewrite Hr.
  rewrite (find_Book_Some _ _ _ Hb), (find_Reader_Some _ _ _ Hr).
  cbv beta.
  destruct (filter_book_active (Some b) db) as [|existing [|e2 l]] eqn:F;
    cbn [exists_]; cbv beta iota; rewrite ?F; cbn [objects_get].
  - destruct (filter_reader_active (Some rd) db); reflexivity.
  - unfold ret, load_reader. destruct (related_reader existing db); reflexivity.
  - reflexivity.
Qed.

Lemma clean_fields_new db b rd notes bk rdr :
  find_Book b db = Some bk -> find_Reader rd db = Some rdr ->
  Reservation_clean_fields (new_reservation (Some b) (Some rd) notes) db = [].
Proof.
  intros Hb Hr. apply clean_fields_ok; unfold related_book, related_reader; simpl;
    congruence.
Qed.

(** Under I1 a non-empty set of active reservations of a book is a
    singleton. *)
Lemma active_singleton db b existing l :
  I1 db -> filter_book_active (Some b) db = existing :: l -> l = [].
Proof.
  intros H F. specialize (H b). unfold active_for_book in H. rewrite F in H.
  destruct l; [reflexivity|]. simpl in H. lia.
Qed.

Lemma insert_unique rows self :
  unique_active_reservation_per_book rows = true ->
  filter (fun r => fk_eqb (Reservation.book r) (Reservation.book self)
                   && Reservation.is_active r) rows = [] ->
  unique_active_reservation_per_book (rows ++ [self]) = true.
Proof.
  intros Hu Hfree. apply unique_active_iff. intro b.
  rewrite unique_active_iff in Hu. rewrite count_filter_app. simpl.
  destruct (fk_eqb (Reservation.book self) (Some b) && Reservation.is_active self)
    eqn:E; simpl.
  - apply andb_true_iff in E. destruct E as [Hb _]. apply pk_is_true in Hb.
    rewrite Hb in Hfree. rewrite Hfree. simpl. lia.
  - specialize (Hu b). lia.
Qed.

Lemma CreateReservation_no_book now b rd notes db :
  find_Book b db = None ->
  CreateReservation now b rd notes db
  = (Raise (Http404 "No Book matches the given query."), db).
Proof.
  intro H. unfold CreateReservation, bind, get_Book_or_404. now rewrite H.
Qed.

Lemma CreateReservation_no_reader now b rd notes db bk :
  find_Book b db = Some bk -> find_Reader rd db = None ->
  CreateReservation now b rd notes db
  = (Raise (Http404 "No Reader matches the given query."), db).
Proof.
  intros Hb H. unfold CreateReservation, bind, get_Book_or_404, get_Reader_or_404.
  now rewrite Hb, H.
Qed.

(** With both rows found, creation is a save of the new instance. *)
Lemma CreateReservation_found now b rd notes db bk rdr :
  find_Book b db = Some bk -> find_Reader rd db = Some rdr ->
  CreateReservation now b rd notes db
  = Reservation_save now (new_reservation (Some b) (Some rd) notes) db.
Proof.
  intros Hb Hr. unfold CreateReservation, bind, get_Book_or_404, get_Reader_or_404.
  rewrite Hb, Hr. unfold Reservation_objects_create.
  now rewrite (find_Book_Some _ _ _ Hb), (find_Reader_Some _ _ _ Hr).
Qed.

Lemma CreateReservation_book_taken now b rd notes db bk rdr existing l :
  consistent db ->
  find_Book b db = Some bk -> find_Reader rd db = Some rdr ->
  filter_book_active (Some b) db = existing :: l ->
  exists holder,
    related_reader existing db = Some holder /\
    CreateReservation now b rd notes db = (Raise (BookAlreadyReserved bk holder), db).
Proof.
  intros Hc Hb Hr F.
  pose proof (active_singleton db b existing l (unique_active db Hc) F) as ->.
  assert (Hin : In existing (Reservation_objects db)).
  { assert (H : In existing (filter_book_active (Some b) db)) by (rewrite F; now left).
    unfold filter_book_active in H. now apply filter_In in H. }
  destruct (load_reader_ok db existing (fk_ok db Hc) Hin) as (j & holder & Hj & Hfind & _).
  exists holder.
  assert (Hrel : related_reader existing db = Some holder).
  { unfold related_reader. now rewrite Hj. }
  split; [exact Hrel|].
  rewrite (CreateReservation_found now b rd notes db bk rdr Hb Hr).
  unfold Reservation_save, bind, Reservation_full_clean.
  rewrite (clean_new db b rd notes bk rdr Hb Hr), F, Hrel.
  rewrite (clean_fields_new db b rd notes bk rdr Hb Hr). reflexivity.
Qed.

Lemma CreateReservation_reader_taken now b rd notes db bk rdr :
  find_Book b db = Some bk -> find_Reader rd db = Some rdr ->
  filter_book_active (Some b) db = [] ->
  filter_reader_active (Some rd) db <> [] ->
  CreateReservation now b rd notes db = (Raise (ReaderAlreadyReserved rdr), db).
Proof.
  intros Hb Hr F G.
  rewrite (CreateReservation_found now b rd notes db bk rdr Hb Hr).
  unfold Reservation_save, bind, Reservation_full_clean.
  rewrite (clean_new db b rd notes bk rdr Hb Hr), F.
  rewrite (clean_fields_new db b rd notes bk rdr Hb Hr).
  destruct (filter_reader_active (Some rd) db); [congruence|reflexivity].
Qed.

Lemma CreateReservation_ok now b rd notes db bk rdr :
  consistent db ->
  find_Book b db = Some bk -> find_Reader rd db = Some rdr ->
  filter_book_active (Some b) db = [] ->
  filter_reader_active (Some rd) db = [] ->
  let new := inserted_reservation
               (next_pk (map Reservation.pk (Reservation_objects db)))
               now b rd notes in
  CreateReservation now b rd notes db
  = (Ok new, set_Reservation_objects (Reservation_objects db ++ [new]) db).
Proof.
  intros Hc Hb Hr F G new.
  rewrite (CreateReservation_found now b rd notes db bk rdr Hb Hr).
  unfold Reservation_save, bind, Reservation_full_clean.
  rewrite (clean_new db b rd notes bk rdr Hb Hr), F, G.
  rewrite (clean_fields_new db b rd notes bk rdr Hb Hr). simpl.
  unfold Model_save_Reservation, write_Reservation. simpl.
  fold new. rewrite insert_unique; [reflexivity| |exact F].
  apply unique_active_I1, (unique_active db Hc).
Qed.

(** ** Consistency is preserved *)

Lemma consistent_no_reservations db :
  Reservation_objects db = [] -> consistent db.
Proof.
  intro H. constructor.
  - rewrite H. constructor.
  - rewrite H. intros r [].
  - intros r Hin. rewrite H in Hin. destruct Hin.
  - intro b. unfold active_for_book, filter_book_active. rewrite H. simpl. lia.
Qed.

Lemma consistent_update db i r a c :
  consistent db ->
  find_Reservation i db = Some r ->
  (a = true -> filter_book_active (Reservation.book r) db = []) ->
  consistent (set_Reservation_objects
                (update_row i (set_status a c r) (Reservation_objects db)) db).
Proof.
  intros Hc Hfind Hfree.
  assert (Hu : unique_active_reservation_per_book
                 (update_row i (set_status a c r) (Reservation_objects db)) = true).
  { apply update_row_unique.
    - apply (pk_unique db Hc).
    - apply unique_active_I1, (unique_active db Hc).
    - exact Hfree. }
  destruct (find_Reservation_Some _ _ _ Hfind) as [Hin Hpk].
  constructor; cbn [Reservation_objects set_Reservation_objects].
  - rewrite map_pk_update_row; [apply (pk_unique db Hc)|exact Hpk].
  - intros r' Hr'. apply in_update_row in Hr'. destruct Hr' as [->|Hr'].
    + cbn. rewrite Hpk. discriminate.
    + now apply (pk_set db Hc).
  - intros r' Hr'. cbn [Reservation_objects set_Reservation_objects] in Hr'.
    apply in_update_row in Hr'. destruct Hr' as [->|Hr'].
    + exact (fk_ok db Hc r Hin).
    + exact (fk_ok db Hc r' Hr').
  - now apply unique_active_I1.
Qed.

Lemma consistent_insert db now b rd notes bk rdr :
  consistent db ->
  find_Book b db = Some bk -> find_Reader rd db = Some rdr ->
  filter_book_active (Some b) db = [] ->
  let new := inserted_reservation
               (next_pk (map Reservation.pk (Reservation_objects db)))
               now b rd notes in
  consistent (set_Reservation_objects (Reservation_objects db ++ [new]) db).
Proof.
  intros Hc Hb Hr F new.
  constructor; cbn [Reservation_objects set_Reservation_objects].
  - rewrite map_app. cbn [map]. apply NoDup_app_remove_l with (l := []).
    cbn [app]. apply NoDup_app; [apply (pk_unique db Hc) | repeat constructor; auto |].
    intros p Hp [<-|[]]. now apply next_pk_fresh in Hp.
  - intros r Hin. apply in_app_or in Hin. destruct Hin as [Hin|[<-|[]]].
    + now apply (pk_set db Hc).
    + discriminate.
  - intros r Hin. cbn [Reservation_objects set_Reservation_objects] in Hin.
    apply in_app_or in Hin. destruct Hin as [Hin|[<-|[]]].
    + exact (fk_ok db Hc r Hin).
    + unfold related_book, related_reader, find_Book, find_Reader in *.
      cbn in *. rewrite Hb, Hr. split; discriminate.
  - apply unique_active_I1. cbn [Reservation_objects set_Reservation_objects].
    apply insert_unique; [apply unique_active_I1, (unique_active db Hc)|exact F].
Qed.

(** Every operation takes a consistent database to a consistent one. *)
Lemma execute_consistent now op db :
  consistent db -> consistent (execute now op db).
Proof.
  intro Hc. destruct op as [b rd notes|i|i]; cbn [execute].
  - destruct (find_Book b db) as [bk|] eqn:Hb;
      [|now rewrite CreateReservation_no_book].
    destruct (find_Reader rd db) as [rdr|] eqn:Hr;
      [|now rewrite (CreateReservation_no_reader now b rd notes db bk)].
    destruct (filter_book_active (Some b) db) as [|existing l] eqn:F.
    + destruct (filter_reader_active (Some rd) db) as [|x xs] eqn:G.
      * rewrite (CreateReservation_ok now b rd notes db bk rdr Hc Hb Hr F G).
        cbn [snd]. now apply consistent_insert with bk rdr.
      * rewrite (CreateReservation_reader_taken now b rd notes db bk rdr Hb Hr F);
          [exact Hc|]. rewrite G. discriminate.
    + destruct (CreateReservation_book_taken now b rd notes db bk rdr existing l
                  Hc Hb Hr F) as (holder & _ & ->). exact Hc.
  - destruct (find_Reservation i db) as [r|] eqn:Hf;
      [|now rewrite CancelReservation_missing].
    destruct (Reservation.is_active r) eqn:Ha.
    + rewrite (CancelReservation_active now i db r Hc Hf Ha). cbn [snd].
      apply consistent_update; [exact Hc|exact Hf|discriminate].
    + now rewrite (CancelReservation_inactive now i db r Hf Ha).
  - destruct (find_Reservation i db) as [r|] eqn:Hf;
      [|now rewrite ReactivateReservation_missing].
    destruct (find_Reservation_Some _ _ _ Hf) as [Hin Hpk].
    destruct (exists_ (filter_book_active (Reservation.book r) db)) eqn:Ht.
    + now rewrite (ReactivateReservation_taken now i db r Hc Hf Ht).
    + destruct (Reservation.is_active r) eqn:Ha.
      * rewrite (active_row_takes_book db r (fk_ok db Hc) Hin Ha) in Ht.
        discriminate.
      * rewrite (ReactivateReservation_free now i db r Hc Hf Ha Ht). cbn [snd].
        apply consistent_update; [exact Hc|exact Hf|].
        intros _. now apply exists_false.
Qed.

Lemma reachable_consistent init db :
  consistent init -> reachable init db -> consistent db.
Proof.
  intros Hi Hr. induction Hr as [|db now op _ IH]; [exact Hi|].
  now apply execute_consistent.
Qed.

(** From a consistent database the checks of the operations are enough: the
    storage layer never has to refuse their write. *)
Lemma operations_never_hit_constraint now op db c :
  consistent db -> raised now op db <> Some (IntegrityError c).
Proof.
  intro Hc. destruct op as [b rd notes|i|i]; cbn [raised].
  - destruct (find_Book b db) as [bk|] eqn:Hb;
      [|rewrite CreateReservation_no_book; [discriminate|exact Hb]].
    destruct (find_Reader rd db) as [rdr|] eqn:Hr;
      [|rewrite (CreateReservation_no_reader now b rd notes db bk);
        [discriminate|exact Hb|exact Hr]].
    destruct (filter_book_active (Some b) db) as [|existing l] eqn:F.
    + destruct (filter_reader_active (Some rd) db) as [|x xs] eqn:G.
      * rewrite (CreateReservation_ok now b rd notes db bk rdr Hc Hb Hr F G).
        discriminate.
      * rewrite (CreateReservation_reader_taken now b rd notes db bk rdr Hb Hr F);
          [discriminate|]. rewrite G. discriminate.
    + destruct (CreateReservation_book_taken now b rd notes db bk rdr existing l
                  Hc Hb Hr F) as (holder & _ & ->). discriminate.
  - destruct (find_Reservation i db) as [r|] eqn:Hf;
      [|rewrite CancelReservation_missing; [discriminate|exact Hf]].
    destruct (Reservation.is_active r) eqn:Ha.
    + rewrite (CancelReservation_active now i db r Hc Hf Ha). discriminate.
    + rewrite (CancelReservation_inactive now i db r Hf Ha). discriminate.
  - destruct (find_Reservation i db) as [r|] eqn:Hf;
      [|rewrite ReactivateReservation_missing; [discriminate|exact Hf]].
    destruct (find_Reservation_Some _ _ _ Hf) as [Hin Hpk].
    destruct (exists_ (filter_book_active (Reservation.book r) db)) eqn:Ht.
    + rewrite (ReactivateReservation_taken now i db r Hc Hf Ht). discriminate.
    + destruct (Reservation.is_active r) eqn:Ha.
      * rewrite (active_row_takes_book db r (fk_ok db Hc) Hin Ha) in Ht.
        discriminate.
      * rewrite (ReactivateReservation_free now i db r Hc Hf Ha Ht). discriminate.
Qed.

(** C1: for every book, in every state reached from a database without
    reservations by any sequence of [CreateReservation],
    [CancelReservation] and [ReactivateReservation], at most one
    reservation of the book is active (invariant I1). *)
Theorem I1_reachable (init db : Database) (b : Z) :
  Reservation_objects init = [] ->
  reachable init db ->
  (count (active_for_book b db) <= 1)%nat.
Proof.
  intros Hinit Hreach.
  apply (unique_active db).
  apply (reachable_consistent init); [|exact Hreach].
  now apply consistent_no_reservations.
Qed.

Lemma db_res1_consistent : consistent db_res1.
Proof. apply execute_consistent, consistent_no_reservations. reflexivity. Qed.

Lemma I1_reachable_witness :
  Reservation_objects db_empty = [] /\
  reachable db_empty db_res1 /\
  (count (active_for_book 1 db_res1) <= 1)%nat.
Proof.
  assert (Hr : reachable db_empty db_res1)
    by (apply reachable_step, reachable_init).
  split; [reflexivity|]. split; [exact Hr|].
  exact (I1_reachable db_empty db_res1 1%Z eq_refl Hr).
Defined.

(** ** The order of the checks of a creation *)

(** C2: [CreateReservation] checks, in this order, that the book and the
    reader exist (else [NotFound]), that the book has no active reservation
    (else [BookAlreadyReserved], whose message names the reader of the
    existing reservation), and that the reader has no active reservation
    (else [ReaderAlreadyReserved]); the first check that fails decides the
    error, so a book conflict hides a reader conflict; when all pass an
    active reservation is inserted. *)
Theorem CreateReservation_check_order now b rd notes db :
  consistent db ->
  match find_Book b db, find_Reader rd db with
  | Some bk, Some rdr =>
      match active_for_book b db with
      | existing :: _ =>
          exists holder,
            related_reader existing db = Some holder /\
            CreateReservation now b rd notes db
            = (Raise (BookAlreadyReserved bk holder), db)
      | [] =>
          match active_for_reader rd db with
          | _ :: _ =>
              CreateReservation now b rd notes db
              = (Raise (ReaderAlreadyReserved rdr), db)
          | [] =>
              exists r db',
                CreateReservation now b rd notes db = (Ok r, db') /\
                In r (Reservation_objects db') /\
                Reservation.is_active r = true /\
                Reservation.book r = Some b /\
                Reservation.reader r = Some rd /\
                Reservation.notes r = notes
          end
      end
  | _, _ =>
      exists e,
        CreateReservation now b rd notes db = (Raise e, db) /\
        is_NotFound e = true
  end.
Proof.
  intro Hc.
  destruct (find_Book b db) as [bk|] eqn:Hb.
  - destruct (find_Reader rd db) as [rdr|] eqn:Hr.
    + unfold active_for_book, active_for_reader.
      destruct (filter_book_active (Some b) db) as [|existing l] eqn:F.
      * destruct (filter_reader_active (Some rd) db) as [|x xs] eqn:G.
        -- eexists. eexists. split.
           ++ apply (CreateReservation_ok now b rd notes db bk rdr Hc Hb Hr F G).
           ++ cbn [Reservation_objects set_Reservation_objects].
              split; [apply in_or_app; right; now left|]. now repeat split.
        -- apply (CreateReservation_reader_taken now b rd notes db bk rdr Hb Hr F).
           rewrite G. discriminate.
      * apply (CreateReservation_book_taken now b rd notes db bk rdr existing l
                 Hc Hb Hr F).
    + eexists. split;
        [apply (CreateReservation_no_reader now b rd notes db bk Hb Hr)|reflexivity].
  - destruct (find_Reader rd db);
      (eexists; split; [apply (CreateReservation_no_book now b rd notes db Hb)
                       |reflexivity]).
Qed.

(** At [db_res1] book 1 is held by reader 1 ("John Tester"): a second
    reservation of book 1 for reader 1 meets both conflicts and reports the
    one of the book. *)
Lemma CreateReservation_check_order_witness :
  consistent db_res1 /\
  CreateReservation 200 1 1 "again" db_res1
  = (Raise (BookAlreadyReserved book1 reader1), db_res1).
Proof.
  split; [exact db_res1_consistent|].
  destruct (CreateReservation_check_order 200 1 1 "again" db_res1
              db_res1_consistent) as (holder & Hh & Hres).
  injection Hh as <-. exact Hres.
Defined.

(** ** Cancellation and reactivation *)

Lemma find_update_row_same i self rows :
  Reservation.pk self = Some i ->
  existsb (fun r => pk_is i (Reservation.pk r)) rows = true ->
  find (fun r => pk_is i (Reservation.pk r)) (update_row i self rows) = Some self.
Proof.
  intros Hpk. apply pk_is_true in Hpk.
  induction rows as [|r rows IH]; cbn [existsb update_row map find];
    [discriminate|].
  destruct (pk_is i (Reservation.pk r)) eqn:E.
  - intros _. now rewrite Hpk.
  - rewrite E. exact IH.
Qed.

Lemma find_update_row_other i j self rows :
  Reservation.pk self = Some j -> i <> j ->
  find (fun r => pk_is i (Reservation.pk r)) (update_row j self rows)
  = find (fun r => pk_is i (Reservation.pk r)) rows.
Proof.
  intros Hpk Hij.
  assert (Hself : pk_is i (Reservation.pk self) = false).
  { destruct (pk_is i (Reservation.pk self)) eqn:E; [|reflexivity].
    apply pk_is_true in E. congruence. }
  induction rows as [|r rows IH]; cbn [update_row map find]; [reflexivity|].
  fold (update_row j self rows).
  destruct (pk_is j (Reservation.pk r)) eqn:E.
  - apply pk_is_true in E. rewrite Hself.
    destruct (pk_is i (Reservation.pk r)) eqn:E'; [|exact IH].
    apply pk_is_true in E'. congruence.
  - destruct (pk_is i (Reservation.pk r)); [reflexivity|exact IH].
Qed.

Lemma find_after_update db i r self :
  find_Reservation i db = Some r -> Reservation.pk self = Some i ->
  find_Reservation i
    (set_Reservation_objects (update_row i self (Reservation_objects db)) db)
  = Some self.
Proof.
  intros Hf Hpk. destruct (find_Reservation_Some _ _ _ Hf) as [Hin Hr].
  unfold find_Reservation. cbn [Reservation_objects set_Reservation_objects].
  apply find_update_row_same; [exact Hpk|]. now apply existsb_pk with r.
Qed.

(** C4: [CancelReservation] fails with [NotFound] exactly when no
    reservation has the given id; on an inactive reservation it returns
    [False] and leaves the database as it is; on an active one it returns
    [True] and the reservation stored under the id has [is_active = False],
    [cancelled_at = now] and its other fields as they were. *)
Theorem CancelReservation_spec now i db :
  consistent db ->
  match find_Reservation i db with
  | None => CancelReservation now i db = (Raise Http404_Reservation, db)
  | Some r =>
      if Reservation.is_active r then
        exists db' r',
          CancelReservation now i db = (Ok true, db') /\
          find_Reservation i db' = Some r' /\
          Reservation.is_active r' = false /\
          Reservation.cancelled_at r' = Some now /\
          same_but_status r r'
      else CancelReservation now i db = (Ok false, db)
  end.
Proof.
  intro Hc. destruct (find_Reservation i db) as [r|] eqn:Hf.
  - destruct (Reservation.is_active r) eqn:Ha.
    + eexists. exists (set_status false (Some now) r).
      split; [apply (CancelReservation_active now i db r Hc Hf Ha)|].
      split.
      { apply find_after_update with r; [exact Hf|].
        apply (find_Reservation_Some _ _ _ Hf). }
      split; [reflexivity|]. split; [reflexivity|].
      unfold same_but_status. cbn. tauto.
    + apply (CancelReservation_inactive now i db r Hf Ha).
  - apply (CancelReservation_missing now i db Hf).
Qed.

Lemma CancelReservation_spec_witness :
  let r := {| Reservation.pk := Some 1%Z;
              Reservation.book := Some 1%Z;
              Reservation.reader := Some 1%Z;
              Reservation.reservation_date := Some 100%Z;
              Reservation.is_active := true;
              Reservation.cancelled_at := None;
              Reservation.notes := "first" |} in
  consistent db_res1 /\
  find_Reservation 1 db_res1 = Some r /\
  exists db' r',
    CancelReservation 150 1 db_res1 = (Ok true, db') /\
    find_Reservation 1 db' = Some r' /\
    Reservation.is_active r' = false /\
    Reservation.cancelled_at r' = Some 150%Z /\
    same_but_status r r'.
Proof.
  intro r. split; [exact db_res1_consistent|]. split; [reflexivity|].
  exact (CancelReservation_spec 150 1 db_res1 db_res1_consistent).
Defined.

(** A stored reservation that is active: its own row makes the book
    unavailable, so [reactivate] takes the [elif] branch and raises. *)
Lemma ReactivateReservation_active now i db r :
  consistent db ->
  find_Reservation i db = Some r -> Reservation.is_active r = true ->
  ReactivateReservation now i db = (Raise already_reserved, db).
Proof.
  intros Hc Hf Ha. apply ReactivateReservation_taken with r; try assumption.
  apply active_row_takes_book; [apply (fk_ok db Hc)| |exact Ha].
  apply (find_Reservation_Some _ _ _ Hf).
Qed.

(** C3: at [db_res1] reservation 1 is active; [ReactivateReservation] on it
    does not return [False] but raises the validation error "already
    reserved by someone else". *)
Theorem reactivate_on_active_example :
  find_Reservation 1 db_res1 = Some (inserted_reservation 1 100 1 1 "first") /\
  ReactivateReservation 300 1 db_res1 = (Raise already_reserved, db_res1).
Proof. split; reflexivity. Qed.

(** C6: for an inactive reservation, [ReactivateReservation] raises the
    validation error "already reserved" and leaves the database as it is
    when another reservation of the same book is active; when the book has
    no active reservation it returns [True] and the reservation stored under
    the id has [is_active = True], [cancelled_at = None] and its other
    fields as they were. *)
Theorem reactivate_inactive_spec now i db r :
  consistent db ->
  find_Reservation i db = Some r ->
  Reservation.is_active r = false ->
  (forall other,
      In other (Reservation_objects db) ->
      Reservation.is_active other = true ->
      Reservation.book other = Reservation.book r ->
      other <> r /\
      ReactivateReservation now i db = (Raise already_reserved, db))
  /\
  (filter_book_active (Reservation.book r) db = [] ->
   exists db' r',
     ReactivateReservation now i db = (Ok true, db') /\
     find_Reservation i db' = Some r' /\
     Reservation.is_active r' = true /\
     Reservation.cancelled_at r' = None /\
     same_but_status r r').
Proof.
  intros Hc Hf Ha. split.
  - intros other Hin Hact Hbook. split; [congruence|].
    apply ReactivateReservation_taken with r; try assumption.
    rewrite <- Hbook.
    apply active_row_takes_book; [apply (fk_ok db Hc)|exact Hin|exact Hact].
  - intro Hfree. eexists. exists (set_status true None r). split.
    + apply (ReactivateReservation_free now i db r Hc Hf Ha).
      now apply exists_false.
    + split.
      { apply find_after_update with r; [exact Hf|].
        apply (find_Reservation_Some _ _ _ Hf). }
      split; [reflexivity|]. split; [reflexivity|].
      unfold same_but_status. cbn. tauto.
Qed.

Lemma reactivate_inactive_spec_witness :
  let r := {| Reservation.pk := Some 1%Z;
              Reservation.book := Some 1%Z;
              Reservation.reader := Some 1%Z;
              Reservation.reservation_date := Some 100%Z;
              Reservation.is_active := false;
              Reservation.cancelled_at := Some 150%Z;
              Reservation.notes := "first" |} in
  (consistent db_taken /\
   find_Reservation 1 db_taken = Some r /\
   Reservation.is_active r = false /\
   ReactivateReservation 300 1 db_taken = (Raise already_reserved, db_taken))
  /\
  (consistent db_cancelled /\
   find_Reservation 1 db_cancelled = Some r /\
   filter_book_active (Reservation.book r) db_cancelled = [] /\
   exists db' r',
     ReactivateReservation 300 1 db_cancelled = (Ok true, db') /\
     find_Reservation 1 db' = Some r' /\
     Reservation.is_active r' = true /\
     Reservation.cancelled_at r' = None /\
     same_but_status r r').
Proof.
  intro r.
  assert (Hc : consistent db_cancelled).
  { unfold db_cancelled. apply execute_consistent, db_res1_consistent. }
  assert (Ht : consistent db_taken).
  { unfold db_taken. apply execute_consistent, Hc. }
  split.
  - split; [exact Ht|]. split; [reflexivity|]. split; [reflexivity|].
    destruct (reactivate_inactive_spec 300 1 db_taken r Ht eq_refl eq_refl)
      as [Htaken _].
    apply (Htaken (inserted_reservation 2 160 1 2 "second")).
    + right. now left.
    + reflexivity.
    + reflexivity.
  - split; [exact Hc|]. split; [reflexivity|]. split; [reflexivity|].
    exact (proj2 (reactivate_inactive_spec 300 1 db_cancelled r Hc eq_refl eq_refl)
                 eq_refl).
Defined.

(** ** The round trip *)











(** ** What cancellation and reactivation leave alone *)

Lemma Forall2_map_in {A} (R : A -> A -> Prop) (f : A -> A) (l : list A) :
  (forall x, In x l -> R x (f x)) -> Forall2 R l (map f l).
Proof.
  induction l as [|x l IH]; intro H; cbn [map]; constructor.
  - apply H. now left.
  - apply IH. intros y Hy. apply H. now right.
Qed.

Lemma same_but_status_refl r : same_but_status r r.
Proof. now repeat split. Qed.

Lemma only_status_changed_refl i db : only_status_changed i db db.
Proof.
  split; [reflexivity|]. split; [reflexivity|].
  rewrite <- (map_id (Reservation_objects db)) at 2.
  apply Forall2_map_in. intros x _. split; [apply same_but_status_refl|tauto].
Qed.

Lemma only_status_changed_update i db r a c :
  consistent db -> find_Reservation i db = Some r ->
  only_status_changed i db
    (set_Reservation_objects
       (update_row i (set_status a c r) (Reservation_objects db)) db).
Proof.
  intros Hc Hf. destruct (find_Reservation_Some _ _ _ Hf) as [Hin Hpk].
  split; [reflexivity|]. split; [reflexivity|].
  cbn [Reservation_objects set_Reservation_objects]. unfold update_row.
  apply Forall2_map_in. intros x Hx.
  destruct (pk_is i (Reservation.pk x)) eqn:E.
  - apply pk_is_true in E.
    assert (x = r) as ->
        by (apply (pk_determines_row db); try assumption;
            [apply (pk_unique db Hc)|congruence]).
    split; [now repeat split|]. intro Hne. congruence.
  - split; [apply same_but_status_refl|tauto].
Qed.

(** C10: [CancelReservation] and [ReactivateReservation] change at most the
    [is_active] and [cancelled_at] fields of the reservation they are
    called on: its key, book, reader, reservation date and notes stay, every
    other reservation stays as it is, no reservation is added or removed,
    and the tables of books and readers are untouched. *)
Theorem cancel_reactivate_frame now i db :
  consistent db ->
  only_status_changed i db (snd (CancelReservation now i db)) /\
  only_status_changed i db (snd (ReactivateReservation now i db)).
Proof.
  intro Hc. split.
  - destruct (find_Reservation i db) as [r|] eqn:Hf;
      [|rewrite CancelReservation_missing; [apply only_status_changed_refl|exact Hf]].
    destruct (Reservation.is_active r) eqn:Ha.
    + rewrite (CancelReservation_active now i db r Hc Hf Ha). cbn [snd].
      now apply only_status_changed_update.
    + rewrite (CancelReservation_inactive now i db r Hf Ha).
      apply only_status_changed_refl.
  - destruct (find_Reservation i db) as [r|] eqn:Hf;
      [|rewrite ReactivateReservation_missing;
        [apply only_status_changed_refl|exact Hf]].
    destruct (find_Reservation_Some _ _ _ Hf) as [Hin Hpk].
    destruct (exists_ (filter_book_active (Reservation.book r) db)) eqn:Ht.
    + rewrite (ReactivateReservation_taken now i db r Hc Hf Ht).
      apply only_status_changed_refl.
    + destruct (Reservation.is_active r) eqn:Ha.
      * rewrite (active_row_takes_book db r (fk_ok db Hc) Hin Ha) in Ht.
        discriminate.
      * rewrite (ReactivateReservation_free now i db r Hc Hf Ha Ht). cbn [snd].
        now apply only_status_changed_update.
Qed.

Lemma cancel_reactivate_frame_witness :
  consistent db_res1 /\
  only_status_changed 1 db_res1 (snd (CancelReservation 150 1 db_res1)) /\
  only_status_changed 1 db_cancelled (snd (ReactivateReservation 300 1 db_cancelled)).
Proof.
  assert (Hc : consistent db_cancelled)
    by (apply execute_consistent, db_res1_consistent).
  split; [exact db_res1_consistent|]. split.
  - exact (proj1 (cancel_reactivate_frame 150 1 db_res1 db_res1_consistent)).
  - exact (proj2 (cancel_reactivate_frame 300 1 db_cancelled Hc)).
Defined.

(** ** The storage layer *)

Lemma forallb_false_exists {A} (f : A -> bool) (l : list A) :
  forallb f l = false -> exists x, In x l /\ f x = false.
Proof.
  induction l as [|x l IH]; cbn [forallb]; [discriminate|].
  destruct (f x) eqn:E.
  - intro H. destruct (IH H) as (y & Hy & Hf). exists y. split; [now right|exact Hf].
  - intros _. exists x. split; [now left|exact E].
Qed.

Lemma unique_active_false rows :
  unique_active_reservation_per_book rows = false ->
  exists b : Z,
    (2 <= count (filter (fun r => fk_eqb (Reservation.book r) (Some b)
                                  && Reservation.is_active r) rows))%nat.
Proof.
  intro H. apply forallb_false_exists in H. destruct H as (r & _ & Hr).
  apply orb_false_iff in Hr. destruct Hr as [_ Hr].
  apply Nat.leb_gt in Hr.
  destruct (Reservation.book r) as [b|].
  - exists b. lia.
  - rewrite filter_book_null in Hr. cbn in Hr. lia.
Qed.

(** C8, as the code has it: the storage layer enforces I1 and nothing of
    I2.  A save is committed only if the table it writes has at most one
    active reservation per book; otherwise it is refused with
    [IntegrityError] on [unique_active_reservation_per_book] and the
    database stays as it was, the written table having some book with two
    active reservations or more. *)
Theorem storage_enforces_I1 now self db :
  let written :=
    set_Reservation_objects
      (snd (write_Reservation now self (Reservation_objects db))) db in
  match Model_save_Reservation now self db with
  | (Ok saved, db') =>
      saved = fst (write_Reservation now self (Reservation_objects db)) /\
      db' = written /\ I1 db'
  | (Raise e, db') =>
      e = IntegrityError "unique_active_reservation_per_book" /\
      db' = db /\
      exists b : Z, (2 <= count (active_for_book b written))%nat
  end.
Proof.
  cbv zeta. unfold Model_save_Reservation.
  destruct (write_Reservation now self (Reservation_objects db)) as [self' rows'].
  cbn [fst snd].
  destruct (unique_active_reservation_per_book rows') eqn:E.
  - split; [reflexivity|]. split; [reflexivity|]. now apply unique_active_I1.
  - split; [reflexivity|]. split; [reflexivity|].
    now apply unique_active_false.
Qed.

(** The storage layer has no constraint on readers: with reader 1 holding
    book 1, the insertion of a second active reservation of reader 1 (on
    book 2) is committed, and so is the update that reactivates a first
    reservation of a reader who holds another book meanwhile. *)
Lemma storage_accepts_second_active_for_reader :
  (exists saved db',
      Model_save_Reservation 170 (new_reservation (Some 2%Z) (Some 1%Z) "dup") db_res1
      = (Ok saved, db') /\
      count (active_for_reader 1 db_res1) = 1%nat /\
      count (active_for_reader 1 db') = 2%nat) /\
  count (active_for_reader 1 db_two_for_reader) = 2%nat /\
  reachable db_empty db_two_for_reader.
Proof.
  split; [|split].
  - eexists. eexists. split; [reflexivity|]. split; reflexivity.
  - reflexivity.
  - unfold db_two_for_reader, db_res1. cbn [run].
    repeat apply reachable_step. apply reachable_init.
Qed.

(** ** ASCII text *)

Lemma rstrip_cons c u :
  rstrip (String c u)
  = match rstrip u with
    | EmptyString => if isspace c then EmptyString else String c EmptyString
    | String a t => String c (String a t)
    end.
Proof. reflexivity. Qed.

Lemma ascii_lower_char c :
  (nat_of_ascii c <? 128)%nat = true ->
  (nat_of_ascii (lower_char c) <? 128)%nat = true.
Proof.
  destruct c as [[] [] [] [] [] [] [] []]; intro H;
    try reflexivity; discriminate H.
Qed.

Lemma ascii_only_cons c s :
  ascii_only (String c s) = true <->
  (nat_of_ascii c <? 128)%nat = true /\ ascii_only s = true.
Proof. cbn [ascii_only]. apply andb_true_iff. Qed.

Lemma ascii_only_lower s : ascii_only s = true -> ascii_only (lower s) = true.
Proof.
  induction s as [|c s IH]; [reflexivity|]. cbn [lower].
  rewrite !ascii_only_cons. intros [Hc Hs].
  split; [now apply ascii_lower_char|now apply IH].
Qed.

Lemma ascii_only_lstrip s : ascii_only s = true -> ascii_only (lstrip s) = true.
Proof.
  induction s as [|c s IH]; [reflexivity|]. cbn [lstrip]. intro H.
  destruct (isspace c); [|exact H].
  apply IH. now apply ascii_only_cons in H.
Qed.

Lemma ascii_only_rstrip s : ascii_only s = true -> ascii_only (rstrip s) = true.
Proof.
  induction s as [|c s IH]; [reflexivity|]. intro H.
  apply ascii_only_cons in H. destruct H as [Hc Hs]. specialize (IH Hs).
  rewrite rstrip_cons. destruct (rstrip s) as [|a t].
  - destruct (isspace c); [reflexivity|]. now apply ascii_only_cons.
  - now apply ascii_only_cons.
Qed.

Lemma ascii_only_strip s : ascii_only s = true -> ascii_only (strip s) = true.
Proof. intro H. unfold strip. now apply ascii_only_rstrip, ascii_only_lstrip. Qed.

(** On ASCII text [email.strip().lower()] is [lower (strip email)]. *)
Lemma str_builtins_ascii py_strip py_lower s :
  str_builtins py_strip py_lower -> ascii_only s = true ->
  py_lower (py_strip s) = lower (strip s).
Proof.
  intros [Hs Hl] Ha. rewrite (Hs s Ha). apply Hl. now apply ascii_only_strip.
Qed.

(** ** Reader e-mail *)

Lemma str_builtins_empty py_strip py_lower :
  str_builtins py_strip py_lower ->
  py_lower (py_strip EmptyString) = EmptyString.
Proof.
  intros [Hs Hl]. rewrite (Hs EmptyString eq_refl). cbn.
  now rewrite (Hl EmptyString eq_refl).
Qed.

Lemma normalize_email_email py_strip py_lower self :
  str_builtins py_strip py_lower ->
  Reader.email (normalize_email py_strip py_lower self)
  = py_lower (py_strip (Reader.email self)).
Proof.
  intro Hstr. unfold normalize_email. destruct (Reader.email self) eqn:E.
  - rewrite E. symmetry. now apply str_builtins_empty.
  - reflexivity.
Qed.

Lemma normalize_email_name py_strip py_lower self :
  Reader.name (normalize_email py_strip py_lower self) = Reader.name self.
Proof. unfold normalize_email. now destruct (Reader.email self). Qed.

Lemma write_Reader_fields now self rows :
  let (saved, rows') := write_Reader now self rows in
  Reader.email saved = Reader.email self /\
  Reader.name saved = Reader.name self /\
  In saved rows'.
Proof.
  unfold write_Reader.
  destruct (Reader.pk self) as [i|].
  - destruct (existsb (fun r => pk_is i (Reader.pk r)) rows) eqn:E.
    + split; [reflexivity|]. split; [reflexivity|].
      apply existsb_exists in E. destruct E as (x & Hx & Hpk).
      apply in_map_iff. exists x. now rewrite Hpk.
    + split; [reflexivity|]. split; [reflexivity|].
      apply in_or_app. right. now left.
  - split; [reflexivity|]. split; [reflexivity|].
    apply in_or_app. right. now left.
Qed.

(** C9: [Reader.save] stores the e-mail stripped of surrounding whitespace
    and then lower-cased, whatever the input text.  For the builtins
    [str.strip] and [str.lower], of which only the behaviour on ASCII text
    is assumed: when the save is committed the stored row carries
    [email.strip().lower()], which on ASCII text is [lower (strip email)],
    and the name as given; the only way it is not
    committed is the uniqueness of [email], and then nothing is stored; and
    creating a reader with the e-mail "  MixedCase@Email.COM " stores a row
    whose e-mail is "mixedcase@email.com". *)
Theorem Reader_save_normalizes py_strip py_lower now self db :
  str_builtins py_strip py_lower ->
  match Reader_save py_strip py_lower now self db with
  | (Ok saved, db') =>
      Reader.email saved = py_lower (py_strip (Reader.email self)) /\
      (ascii_only (Reader.email self) = true ->
       Reader.email saved = lower (strip (Reader.email self))) /\
      Reader.name saved = Reader.name self /\
      In saved (Reader_objects db')
  | (Raise e, db') =>
      e = IntegrityError "library_reader.email" /\
      db' = db /\
      unique_email
        (snd (write_Reader now (normalize_email py_strip py_lower self)
                           (Reader_objects db))) = false
  end
  /\
  exists saved db',
    Reader_objects_create py_strip py_lower now "Temp" "  MixedCase@Email.COM "
                          db_empty
    = (Ok saved, db') /\
    Reader.email saved = "mixedcase@email.com" /\
    Reader_objects db' = Reader_objects db_empty ++ [saved].
Proof.
  intro Hstr. split.
  - unfold Reader_save, Model_save_Reader.
    pose proof (write_Reader_fields now (normalize_email py_strip py_lower self)
                                    (Reader_objects db)) as H.
    destruct (write_Reader now (normalize_email py_strip py_lower self)
                           (Reader_objects db))
      as [saved rows'].
    destruct H as (He & Hn & Hin). cbn [snd].
    destruct (unique_email rows') eqn:U.
    + rewrite He, Hn, normalize_email_email, normalize_email_name by exact Hstr.
      split; [reflexivity|]. split; [|now split].
      intro Ha. now apply str_builtins_ascii.
    + now repeat split.
  - destruct Hstr as [Hs Hl].
    unfold Reader_objects_create, Reader_save, normalize_email.
    cbn [Reader.email Reader.pk Reader.name Reader.created_at Reader.updated_at].
    rewrite (Hs "  MixedCase@Email.COM "%string eq_refl).
    change (strip "  MixedCase@Email.COM ") with "MixedCase@Email.COM"%string.
    rewrite (Hl "MixedCase@Email.COM"%string eq_refl).
    eexists. eexists. split; [reflexivity|]. split; reflexivity.
Qed.

Lemma Reader_save_normalizes_witness :
  str_builtins strip lower /\
  exists saved db',
    Reader_objects_create strip lower 500 "Temp" "  MixedCase@Email.COM " db_empty
    = (Ok saved, db') /\
    Reader.email saved = "mixedcase@email.com" /\
    Reader_objects db' = Reader_objects db_empty ++ [saved].
Proof.
  assert (H : str_builtins strip lower) by (split; intros; reflexivity).
  split; [exact H|].
  exact (proj2 (Reader_save_normalizes strip lower 500 reader1 db_empty H)).
Defined.

(** Creating a reader whose normalized e-mail no stored reader has is
    committed. *)
Lemma count_email_app e (rows : list Reader.t) (x : Reader.t) :
  count (filter (fun r' => String.eqb (Reader.email r') e) (rows ++ [x]))
  = (count (filter (fun r' => String.eqb (Reader.email r') e) rows)
     + (if String.eqb (Reader.email x) e then 1 else 0))%nat.
Proof.
  unfold count. rewrite filter_app, length_app. cbn [filter].
  now destruct (String.eqb (Reader.email x) e).
Qed.

Lemma normalize_email_pk py_strip py_lower self :
  Reader.pk (normalize_email py_strip py_lower self) = Reader.pk self.
Proof. unfold normalize_email. now destruct (Reader.email self). Qed.

Lemma unique_email_insert rows x :
  unique_email rows = true ->
  (forall r, In r rows -> Reader.email r <> Reader.email x) ->
  unique_email (rows ++ [x]) = true.
Proof.
  intros Hu Hfresh. unfold unique_email in *. rewrite forallb_forall in *.
  intros y Hy. apply Nat.leb_le. rewrite count_email_app.
  apply in_app_or in Hy. destruct Hy as [Hy|[<-|[]]].
  - specialize (Hu y Hy). apply Nat.leb_le in Hu.
    destruct (String.eqb (Reader.email x) (Reader.email y)) eqn:E; [|lia].
    apply String.eqb_eq in E. symmetry in E. now apply Hfresh in Hy.
  - rewrite String.eqb_refl.
    assert (Hz : filter (fun r' => String.eqb (Reader.email r') (Reader.email x)) rows
                 = []).
    { destruct (filter _ rows) as [|z l] eqn:F; [reflexivity|].
      exfalso.
      assert (Hz : In z (filter (fun r' => String.eqb (Reader.email r')
                                                      (Reader.email x)) rows))
        by (rewrite F; now left).
      apply filter_In in Hz. destruct Hz as [Hz1 Hz2].
      apply String.eqb_eq in Hz2. now apply Hfresh in Hz1. }
    rewrite Hz. cbn. lia.
Qed.

Lemma Reader_objects_create_fresh py_strip py_lower now name email db :
  str_builtins py_strip py_lower ->
  unique_email (Reader_objects db) = true ->
  (forall r, In r (Reader_objects db) ->
             Reader.email r <> py_lower (py_strip email)) ->
  exists saved db',
    Reader_objects_create py_strip py_lower now name email db = (Ok saved, db') /\
    Reader.email saved = py_lower (py_strip email) /\
    In saved (Reader_objects db').
Proof.
  intros Hstr Hu Hfresh.
  unfold Reader_objects_create, Reader_save, Model_save_Reader, write_Reader.
  rewrite normalize_email_pk. cbn [Reader.pk].
  rewrite unique_email_insert; [|exact Hu|].
  - eexists. eexists. split; [reflexivity|].
    split; [cbn [Reader.email]; now apply normalize_email_email|].
    cbn [Reader_objects set_Reader_objects]. apply in_or_app. right. now left.
  - intros r Hr. cbn [Reader.email]. rewrite normalize_email_email by exact Hstr.
    now apply Hfresh.
Qed.

(** ** Quick reservation *)

Ltac not_a_success :=
  let H := fresh in let Hs := fresh in
  cbn; intros H Hs; injection H as <-; discriminate Hs.

(** A quick reservation that answers "success" found the book available and
    the reader without any active reservation. *)
Lemma quick_reserve_success_inv now request b db resp :
  fst (quick_reserve now request b db) = Ok resp ->
  status resp = "success" ->
  exists rd bk rdr,
    method request = "POST" /\
    body request = JsonObject (Some rd) /\
    find_Book b db = Some bk /\
    find_Reader rd db = Some rdr /\
    is_available bk db = true /\
    get_active_reservations rdr db = [].
Proof.
  unfold quick_reserve.
  destruct (String.eqb (method request) "POST") eqn:Em; [|not_a_success].
  apply String.eqb_eq in Em.
  unfold try_except, bind, json_loads_reader_id, get_Book_or_404, get_Reader_or_404,
    query.
  destruct (body request) as [|[rd|]]; [not_a_success| |].
  - cbn [ret].
    destruct (find_Book b db) as [bk|] eqn:Hb; [|not_a_success].
    destruct (find_Reader rd db) as [rdr|] eqn:Hr; [|not_a_success].
    destruct (is_available bk db) eqn:Ha; [|not_a_success].
    cbn [negb].
    destruct (get_active_reservations rdr db) eqn:Hg; [|not_a_success].
    intros _ _. exists rd, bk, rdr. now repeat split.
  - cbn [ret]. destruct (find_Book b db); not_a_success.
Qed.

(** C7, as the code has it: [quick_reserve] rejects a reader who holds one
    active reservation or more, whatever their number: for an available
    book and a reader with at least one active reservation the answer is
    the error "Ce lecteur a déjà une réservation en cours." and the database
    is unchanged. *)
Theorem quick_reserve_rejects_busy_reader now request b rd bk rdr db :
  method request = "POST" ->
  body request = JsonObject (Some rd) ->
  find_Book b db = Some bk ->
  find_Reader rd db = Some rdr ->
  is_available bk db = true ->
  (1 <= count (get_active_reservations rdr db))%nat ->
  quick_reserve now request b db
  = (Ok (json_error (Text "Ce lecteur a déjà une réservation en cours.")), db).
Proof.
  intros Hm Hbody Hb Hr Ha Hn. unfold quick_reserve.
  rewrite Hm, String.eqb_refl.
  unfold try_except, bind, json_loads_reader_id, get_Book_or_404, get_Reader_or_404,
    query.
  rewrite Hbody. cbn [ret]. rewrite Hb, Hr, Ha. cbn [negb].
  destruct (get_active_reservations rdr db); [cbn in Hn; lia|reflexivity].
Qed.

Lemma quick_reserve_rejects_busy_reader_witness :
  method post_reader1 = "POST" /\
  body post_reader1 = JsonObject (Some 1%Z) /\
  find_Book 2 db_res1 = Some book2 /\
  find_Reader 1 db_res1 = Some reader1 /\
  is_available book2 db_res1 = true /\
  count (get_active_reservations reader1 db_res1) = 1%nat /\
  quick_reserve 400 post_reader1 2 db_res1
  = (Ok (json_error (Text "Ce lecteur a déjà une réservation en cours.")), db_res1).
Proof.
  do 6 (split; [reflexivity|]).
  exact (quick_reserve_rejects_busy_reader 400 post_reader1 2 1 book2 reader1 db_res1
           eq_refl eq_refl eq_refl eq_refl eq_refl (le_n 1)).
Defined.

(** No reader holding between 1 and 4 active reservations gets a quick
    reservation, for any book and any database. *)
Lemma quick_reserve_no_success_below_five :
  ~ exists now request b db rd rdr bk resp,
      body request = JsonObject (Some rd) /\
      find_Reader rd db = Some rdr /\
      find_Book b db = Some bk /\
      is_available bk db = true /\
      (1 <= count (get_active_reservations rdr db) <= 4)%nat /\
      fst (quick_reserve now request b db) = Ok resp /\
      status resp = "success".
Proof.
  intros (now & request & b & db & rd & rdr & bk & resp
          & Hbody & Hr & Hb & Ha & Hn & Hres & Hs).
  destruct (quick_reserve_success_inv now request b db resp Hres Hs)
    as (rd' & bk' & rdr' & _ & Hbody' & _ & Hr' & _ & Hnone).
  rewrite Hbody in Hbody'. injection Hbody' as <-.
  rewrite Hr in Hr'. injection Hr' as <-.
  rewrite Hnone in Hn. cbn in Hn. lia.
Qed.

(** The ceiling of five is the one of [QuickReservationForm.clean], which
    [quick_reserve] does not call: for an available book the form accepts a
    reader with fewer than five active reservations. *)
Lemma QuickReservationForm_clean_ceiling bk rdr db :
  is_available bk db = true ->
  (count (get_active_reservations rdr db) < 5)%nat ->
  QuickReservationForm_clean (Some bk) (Some rdr) db = (Ok (Some rdr), db).
Proof.
  intros Ha Hn. unfold QuickReservationForm_clean, bind, query.
  rewrite Ha. cbn [negb].
  destruct (5 <=? count (get_active_reservations rdr db))%nat eqn:E;
    [|reflexivity].
  apply Nat.leb_le in E. lia.
Qed.

(** With an available book and a reader without active reservation the
    quick reservation is stored. *)
Lemma quick_reserve_ok now request b rd bk rdr db :
  consistent db ->
  method request = "POST" ->
  body request = JsonObject (Some rd) ->
  find_Book b db = Some bk ->
  find_Reader rd db = Some rdr ->
  is_available bk db = true ->
  get_active_reservations rdr db = [] ->
  exists resp db',
    quick_reserve now request b db = (Ok resp, db') /\
    status resp = "success" /\
    exists r, reservation_id resp = Reservation.pk r /\
              In r (Reservation_objects db') /\
              Reservation.is_active r = true /\
              Reservation.book r = Some b /\ Reservation.reader r = Some rd.
Proof.
  intros Hc Hm Hbody Hb Hr Ha Hnone.
  pose proof (find_Book_Some _ _ _ Hb) as Hbpk.
  pose proof (find_Reader_Some _ _ _ Hr) as Hrpk.
  assert (F : filter_book_active (Some b) db = []).
  { unfold is_available in Ha. rewrite Hbpk in Ha.
    apply exists_false. now destruct (exists_ (filter_book_active (Some b) db)). }
  assert (G : filter_reader_active (Some rd) db = []).
  { unfold get_active_reservations in Hnone. now rewrite Hrpk in Hnone. }
  pose proof (CreateReservation_ok now b rd EmptyString db bk rdr Hc Hb Hr F G) as Hok.
  cbv zeta in Hok.
  rewrite (CreateReservation_found now b rd EmptyString db bk rdr Hb Hr) in Hok.
  unfold quick_reserve. rewrite Hm, String.eqb_refl.
  unfold try_except, bind, json_loads_reader_id, get_Book_or_404, get_Reader_or_404,
    query.
  rewrite Hbody. cbn [ret]. rewrite Hb, Hr, Ha. cbn [negb]. rewrite Hnone.
  cbn [exists_]. unfold Reservation_objects_create. rewrite Hbpk, Hrpk.
  fold (new_reservation (Some b) (Some rd) EmptyString). rewrite Hok.
  eexists. eexists. split; [reflexivity|]. split; [reflexivity|].
  eexists. split; [reflexivity|].
  cbn [Reservation_objects set_Reservation_objects].
  split; [apply in_or_app; right; now left|]. now repeat split.
Qed.

(** * Further properties of the models, the views, the forms and the admin *)

(** ** What each operation does to the table of reservations *)

Lemma execute_table_step now op db :
  consistent db -> table_step now op db (execute now op db).
Proof.
  intro Hc. destruct op as [b rd notes|i|i]; cbn [execute].
  - destruct (find_Book b db) as [bk|] eqn:Hb.
    2:{ pose proof (CreateReservation_no_book now b rd notes db Hb) as E.
        rewrite E. cbn [snd]. apply step_same. intros ? ? ? _. unfold raised.
        rewrite E. discriminate. }
    destruct (find_Reader rd db) as [rdr|] eqn:Hr.
    2:{ pose proof (CreateReservation_no_reader now b rd notes db bk Hb Hr) as E.
        rewrite E. cbn [snd]. apply step_same. intros ? ? ? _. unfold raised.
        rewrite E. discriminate. }
    destruct (filter_book_active (Some b) db) as [|existing l] eqn:F.
    + destruct (filter_reader_active (Some rd) db) as [|x xs] eqn:G.
      * pose proof (CreateReservation_ok now b rd notes db bk rdr Hc Hb Hr F G) as E.
        cbv zeta in E. rewrite E. cbn [snd].
        apply (step_insert now _ db b rd notes bk rdr); try assumption;
          try reflexivity.
        unfold raised. now rewrite E.
      * assert (E : CreateReservation now b rd notes db
                    = (Raise (ReaderAlreadyReserved rdr), db)).
        { apply (CreateReservation_reader_taken now b rd notes db bk rdr Hb Hr F).
          rewrite G. discriminate. }
        rewrite E. cbn [snd]. apply step_same. intros ? ? ? _. unfold raised.
        rewrite E. discriminate.
    + destruct (CreateReservation_book_taken now b rd notes db bk rdr existing l
                  Hc Hb Hr F) as (holder & _ & E).
      rewrite E. cbn [snd]. apply step_same. intros ? ? ? _. unfold raised.
      rewrite E. discriminate.
  - destruct (find_Reservation i db) as [r|] eqn:Hf;
      [|rewrite CancelReservation_missing by exact Hf;
        apply step_same; discriminate].
    destruct (Reservation.is_active r) eqn:Ha.
    + rewrite (CancelReservation_active now i db r Hc Hf Ha). cbn [snd].
      now apply (step_cancel now _ db i r).
    + rewrite (CancelReservation_inactive now i db r Hf Ha).
      apply step_same; discriminate.
  - destruct (find_Reservation i db) as [r|] eqn:Hf;
      [|rewrite ReactivateReservation_missing by exact Hf;
        apply step_same; discriminate].
    destruct (find_Reservation_Some _ _ _ Hf) as [Hin Hpk].
    destruct (exists_ (filter_book_active (Reservation.book r) db)) eqn:Ht.
    + rewrite (ReactivateReservation_taken now i db r Hc Hf Ht).
      apply step_same; discriminate.
    + destruct (Reservation.is_active r) eqn:Ha.
      * rewrite (active_row_takes_book db r (fk_ok db Hc) Hin Ha) in Ht.
        discriminate.
      * rewrite (ReactivateReservation_free now i db r Hc Hf Ha Ht). cbn [snd].
        apply (step_reactivate now _ db i r); try assumption; try reflexivity.
        now apply exists_false.
Qed.

Lemma count_filter_map_eq {A} (P : A -> bool) (f : A -> A) (l : list A) :
  (forall x, In x l -> P (f x) = P x) ->
  count (filter P (map f l)) = count (filter P l).
Proof.
  unfold count. induction l as [|x l IH]; intro H; cbn [map filter]; [reflexivity|].
  rewrite (H x (or_introl eq_refl)).
  assert (IH' : List.length (filter P (map f l)) = List.length (filter P l))
    by (apply IH; intros y Hy; apply H; now right).
  destruct (P x); cbn [List.length]; now rewrite IH'.
Qed.

(** Under consistency the row replaced by an update of reservation [i] is
    the stored row itself. *)
Lemma update_row_stored db i r self x :
  consistent db -> find_Reservation i db = Some r ->
  In x (Reservation_objects db) ->
  (if pk_is i (Reservation.pk x) then self else x) = x \/
  (x = r /\ (if pk_is i (Reservation.pk x) then self else x) = self).
Proof.
  intros Hc Hf Hx. destruct (find_Reservation_Some _ _ _ Hf) as [Hin Hpk].
  destruct (pk_is i (Reservation.pk x)) eqn:E; [right|now left].
  apply pk_is_true in E. split; [|reflexivity].
  apply (pk_determines_row db); try assumption;
    [apply (pk_unique db Hc)|congruence].
Qed.

(** ** Invariant I3 *)

Lemma execute_I3 now op db :
  consistent db -> I3 db -> I3 (execute now op db).
Proof.
  intros Hc H3. generalize (execute_table_step now op db Hc).
  generalize (execute now op db). intros db' Hs.
  destruct Hs as [Hsame|b rd notes bk rdr _ _ _ _ _ _
                  |i r _ Hf Ha|i r _ Hf Ha _];
    [exact H3| | |]; intros x Hx;
    cbn [Reservation_objects set_Reservation_objects] in Hx.
  - apply in_app_or in Hx. destruct Hx as [Hx|[<-|[]]]; [now apply H3|].
    cbn. tauto.
  - apply in_update_row in Hx. destruct Hx as [->|Hx]; [|now apply H3].
    cbn. split; discriminate.
  - apply in_update_row in Hx. destruct Hx as [->|Hx]; [|now apply H3].
    cbn. tauto.
Qed.

(** X1: in every state reached from a database without reservations, a
    reservation is active exactly when its [cancelled_at] is [None]:
    creation stores an active row without date, [cancel] sets the date
    together with [is_active = False], [reactivate] clears it. *)
Theorem I3_reachable (init db : Database) :
  Reservation_objects init = [] ->
  reachable init db ->
  I3 db.
Proof.
  intros Hinit Hreach.
  assert (H : consistent db /\ I3 db).
  { induction Hreach as [|db now op _ [IHc IH3]].
    - split; [now apply consistent_no_reservations|].
      intros r Hr. rewrite Hinit in Hr. destruct Hr.
    - split; [now apply execute_consistent|now apply execute_I3]. }
  apply H.
Qed.

Lemma I3_reachable_witness :
  Reservation_objects db_empty = [] /\
  reachable db_empty db_taken /\
  I3 db_taken.
Proof.
  assert (Hr : reachable db_empty db_taken)
    by (unfold db_taken, db_cancelled, db_res1;
        repeat apply reachable_step; apply reachable_init).
  split; [reflexivity|]. split; [exact Hr|].
  exact (I3_reachable db_empty db_taken eq_refl Hr).
Defined.

(** ** Invariant I2 and the operations that keep it *)

(** X2: [CreateReservation] and [CancelReservation] keep invariant I2: from
    a consistent database where every reader has at most one active
    reservation they lead to one where this still holds (reactivation,
    which does not look at the reader, does not). *)
Theorem I2_kept_by_create_and_cancel now op db :
  consistent db -> I2 db -> checks_reader op = true ->
  I2 (execute now op db).
Proof.
  intros Hc H2 Hop. generalize (execute_table_step now op db Hc).
  generalize (execute now op db). intros db' Hs.
  destruct Hs as [Hsame|b rd notes bk rdr _ _ _ _ G _
                  |i r _ Hf Ha|i r Hop' Hf Ha _];
    [exact H2| | |].
  - intro rd'. unfold active_for_reader, filter_reader_active.
    cbn [Reservation_objects set_Reservation_objects].
    rewrite count_filter_app. cbn [filter inserted_reservation Reservation.reader
                                     Reservation.is_active].
    destruct (fk_eqb (Some rd) (Some rd') && true) eqn:E.
    + rewrite andb_true_r in E. cbn in E. apply Z.eqb_eq in E. subst rd'.
      unfold filter_reader_active in G. rewrite G. cbn. lia.
    + specialize (H2 rd'). unfold active_for_reader, filter_reader_active in H2.
      cbn. lia.
  - intro rd'. unfold active_for_reader, filter_reader_active.
    cbn [Reservation_objects set_Reservation_objects].
    eapply Nat.le_trans; [|apply (H2 rd')].
    apply count_filter_map_le. intros x _.
    destruct (pk_is i (Reservation.pk x)); [|tauto].
    cbn. rewrite andb_false_r. discriminate.
  - subst op. discriminate.
Qed.

Lemma I2_kept_by_create_and_cancel_witness :
  consistent db_res1 /\ I2 db_res1 /\
  checks_reader (OpCreate 2 1 "more") = true /\
  I2 (execute 200 (OpCreate 2 1 "more") db_res1).
Proof.
  assert (H2 : I2 db_res1).
  { intro rd. unfold active_for_reader, filter_reader_active. cbn.
    match goal with |- context [if ?c then _ else _] => destruct c end;
      cbn; lia. }
  split; [exact db_res1_consistent|]. split; [exact H2|]. split; [reflexivity|].
  exact (I2_kept_by_create_and_cancel 200 (OpCreate 2 1 "more") db_res1
           db_res1_consistent H2 eq_refl).
Defined.

(** ** The number of reservations of a reader *)

(** X3: [Reader.get_reservations_count] only grows by creation: a
    successful [CreateReservation] adds one to the count of its reader and
    nothing to the others; a failed creation, a cancellation and a
    reactivation leave every count as it is. *)
Theorem reservations_count_step now op db rdr :
  consistent db ->
  get_reservations_count rdr (execute now op db)
  = (get_reservations_count rdr db + added_for now op db (Reader.pk rdr))%nat.
Proof.
  intro Hc. generalize (execute_table_step now op db Hc).
  generalize (execute now op db). intros db' Hs.
  assert (Hkeep : forall i r a c,
             find_Reservation i db = Some r ->
             get_reservations_count rdr
               (set_Reservation_objects
                  (update_row i (set_status a c r) (Reservation_objects db)) db)
             = get_reservations_count rdr db).
  { intros i r a c Hf. unfold get_reservations_count.
    cbn [Reservation_objects set_Reservation_objects]. unfold update_row.
    apply count_filter_map_eq. intros x Hx.
    destruct (update_row_stored db i r (set_status a c r) x Hc Hf Hx)
      as [->|[-> ->]]; reflexivity. }
  destruct Hs as [Hsame|b rd notes bk rdr' Hop _ _ _ _ Hraised
                  |i r Hop Hf Ha|i r Hop Hf Ha _].
  - unfold added_for.
    destruct op as [b rd notes|i|i]; [|lia|lia].
    destruct (raised now (OpCreate b rd notes) db) eqn:E; [lia|].
    now destruct (Hsame b rd notes eq_refl).
  - subst op. unfold added_for. rewrite Hraised.
    unfold get_reservations_count.
    cbn [Reservation_objects set_Reservation_objects]. unfold count.
    rewrite filter_app, length_app.
    cbn [filter inserted_reservation Reservation.reader].
    now destruct (fk_eqb (Some rd) (Reader.pk rdr)).
  - rewrite (Hkeep i r false (Some now) Hf). subst op. cbn [added_for]. lia.
  - rewrite (Hkeep i r true None Hf). subst op. cbn [added_for]. lia.
Qed.

Lemma reservations_count_step_witness :
  consistent db_cancelled /\
  get_reservations_count reader1 db_cancelled = 1%nat /\
  get_reservations_count reader1 (execute 160 (OpCreate 2 1 "b2") db_cancelled)
  = 2%nat /\
  get_reservations_count reader2 (execute 160 (OpCreate 2 1 "b2") db_cancelled)
  = 0%nat.
Proof.
  assert (Hc : consistent db_cancelled)
    by (apply execute_consistent, db_res1_consistent).
  split; [exact Hc|]. split; [reflexivity|]. split.
  - exact (reservations_count_step 160 (OpCreate 2 1 "b2") db_cancelled reader1 Hc).
  - exact (reservations_count_step 160 (OpCreate 2 1 "b2") db_cancelled reader2 Hc).
Defined.

(** ** The quick reservation and [CreateReservation] *)

Lemma full_clean_db self db : snd (Reservation_full_clean self db) = db.
Proof.
  unfold Reservation_full_clean.
  destruct (fst (Reservation_clean self db)) as [u|e].
  - now destruct (Reservation_clean_fields self db).
  - destruct e; try reflexivity.
    + now destruct (Reservation_clean_fields self db ++ [("__all__", message0)]).
    + now destruct (Reservation_clean_fields self db ++ error_dict).
Qed.

(** A save that raises leaves the database as it was. *)
Lemma Reservation_save_Raise now self db e db' :
  Reservation_save now self db = (Raise e, db') -> db' = db.
Proof.
  unfold Reservation_save, bind.
  pose proof (full_clean_db self db) as Hdb.
  destruct (Reservation_full_clean self db) as [[u|e1] db1]; cbn [snd] in Hdb;
    subst db1.
  - unfold Model_save_Reservation.
    destruct (write_Reservation now self (Reservation_objects db)) as [s rows].
    destruct (unique_active_reservation_per_book rows); intro H;
      injection H; congruence.
  - intro H. injection H. congruence.
Qed.

Lemma save_new_book_taken now db b rd notes bk rdr existing l :
  find_Book b db = Some bk -> find_Reader rd db = Some rdr ->
  filter_book_active (Some b) db = existing :: l ->
  exists e,
    Reservation_save now (new_reservation (Some b) (Some rd) notes) db
    = (Raise e, db).
Proof.
  intros Hb Hr F. unfold Reservation_save, bind, Reservation_full_clean.
  rewrite (clean_new db b rd notes bk rdr Hb Hr), F.
  rewrite (clean_fields_new db b rd notes bk rdr Hb Hr).
  destruct l as [|e2 l].
  - destruct (related_reader existing db); eexists; reflexivity.
  - eexists; reflexivity.
Qed.

(** X4: a quick reservation for reader [rd] is a [CreateReservation] with
    empty notes: it answers "success", with the key of the new reservation,
    exactly when the creation returns, and leaves the same database; when
    the creation raises it answers with an error and stores nothing. *)
Theorem quick_reserve_as_CreateReservation now request b rd db :
  method request = "POST" ->
  body request = JsonObject (Some rd) ->
  match CreateReservation now b rd EmptyString db with
  | (Ok r, db') =>
      exists rdr,
        find_Reader rd db = Some rdr /\
        quick_reserve now request b db
        = (Ok {| status := "success";
                 message := Text ("Livre réservé avec succès pour "
                                  ++ Reader.name rdr)%string;
                 reservation_id := Reservation.pk r |}, db')
  | (Raise e, db') =>
      db' = db /\
      exists m, quick_reserve now request b db = (Ok (json_error m), db)
  end.
Proof.
  intros Hm Hbody. unfold quick_reserve. rewrite Hm, String.eqb_refl.
  unfold try_except, bind, json_loads_reader_id, get_Book_or_404,
    get_Reader_or_404, query.
  rewrite Hbody. cbn [ret].
  destruct (find_Book b db) as [bk|] eqn:Hb.
  2:{ rewrite (CreateReservation_no_book now b rd EmptyString db Hb).
      split; [reflexivity|]. eexists; reflexivity. }
  destruct (find_Reader rd db) as [rdr|] eqn:Hr.
  2:{ rewrite (CreateReservation_no_reader now b rd EmptyString db bk Hb Hr).
      split; [reflexivity|]. eexists; reflexivity. }
  rewrite (CreateReservation_found now b rd EmptyString db bk rdr Hb Hr).
  unfold is_available, get_active_reservations.
  rewrite (find_Book_Some _ _ _ Hb), (find_Reader_Some _ _ _ Hr).
  destruct (filter_book_active (Some b) db) as [|existing l] eqn:F; cbn [exists_ negb].
  - destruct (filter_reader_active (Some rd) db) as [|x xs] eqn:G; cbn [exists_].
    + unfold Reservation_objects_create.
      rewrite (find_Book_Some _ _ _ Hb), (find_Reader_Some _ _ _ Hr).
      fold (new_reservation (Some b) (Some rd) EmptyString).
      destruct (Reservation_save now (new_reservation (Some b) (Some rd) EmptyString) db)
        as [[r|e] db'] eqn:S.
      * exists rdr. split; reflexivity.
      * apply Reservation_save_Raise in S. subst db'.
        split; [reflexivity|]. eexists; reflexivity.
    + pose proof (CreateReservation_reader_taken now b rd EmptyString db bk rdr
                    Hb Hr F) as E.
      rewrite (CreateReservation_found now b rd EmptyString db bk rdr Hb Hr) in E.
      rewrite E by (rewrite G; discriminate).
      split; [reflexivity|]. eexists; reflexivity.
  - destruct (save_new_book_taken now db b rd EmptyString bk rdr existing l Hb Hr F)
      as (e & ->).
    split; [reflexivity|]. eexists; reflexivity.
Qed.

Lemma quick_reserve_as_CreateReservation_witness :
  method post_reader1 = "POST" /\
  body post_reader1 = JsonObject (Some 1%Z) /\
  quick_reserve 400 post_reader1 1 db_cancelled
  = (Ok {| status := "success";
           message := Text "Livre réservé avec succès pour John Tester";
           reservation_id := Some 2%Z |},
     snd (CreateReservation 400 1 1 EmptyString db_cancelled)).
Proof.
  split; [reflexivity|]. split; [reflexivity|].
  destruct (quick_reserve_as_CreateReservation 400 post_reader1 1 1 db_cancelled
              eq_refl eq_refl) as (rdr & Hr & Hq).
  injection Hr as <-. exact Hq.
Defined.

(** ** Stripping and lower-casing *)

Lemma isspace_lower_char c : isspace (lower_char c) = isspace c.
Proof. destruct c as [[] [] [] [] [] [] [] []]; reflexivity. Qed.

Lemma lower_char_idem c : lower_char (lower_char c) = lower_char c.
Proof. destruct c as [[] [] [] [] [] [] [] []]; reflexivity. Qed.

Lemma lower_idem s : lower (lower s) = lower s.
Proof.
  induction s as [|c s IH]; cbn [lower]; [reflexivity|].
  now rewrite lower_char_idem, IH.
Qed.

Lemma lstrip_lower s : lstrip (lower s) = lower (lstrip s).
Proof.
  induction s as [|c s IH]; cbn [lower lstrip]; [reflexivity|].
  rewrite isspace_lower_char. destruct (isspace c); [exact IH|reflexivity].
Qed.

Lemma rstrip_lower s : rstrip (lower s) = lower (rstrip s).
Proof.
  induction s as [|c s IH]; cbn [lower rstrip]; [reflexivity|].
  rewrite IH, isspace_lower_char.
  destruct (rstrip s) as [|a t]; cbn [lower]; [|reflexivity].
  now destruct (isspace c).
Qed.

Lemma strip_lower s : strip (lower s) = lower (strip s).
Proof. unfold strip. now rewrite lstrip_lower, rstrip_lower. Qed.

Lemma rstrip_idem s : rstrip (rstrip s) = rstrip s.
Proof.
  induction s as [|c s IH]; [reflexivity|].
  rewrite rstrip_cons. destruct (rstrip s) as [|a t] eqn:E.
  - destruct (isspace c) eqn:Ec; [reflexivity|].
    rewrite rstrip_cons. cbn [rstrip]. now rewrite Ec.
  - rewrite rstrip_cons, IH. reflexivity.
Qed.

Lemma lstrip_head s :
  lstrip s = EmptyString \/
  exists c u, lstrip s = String c u /\ isspace c = false.
Proof.
  induction s as [|c s IH]; cbn [lstrip]; [now left|].
  destruct (isspace c) eqn:E; [exact IH|]. right. now exists c, s.
Qed.

Lemma rstrip_head c u :
  isspace c = false -> exists t, rstrip (String c u) = String c t.
Proof.
  intro E. cbn [rstrip]. destruct (rstrip u) as [|a t].
  - rewrite E. now exists EmptyString.
  - now exists (String a t).
Qed.

Lemma strip_idem s : strip (strip s) = strip s.
Proof.
  unfold strip.
  assert (H : lstrip (rstrip (lstrip s)) = rstrip (lstrip s)).
  { destruct (lstrip_head s) as [->|(c & u & -> & E)]; [reflexivity|].
    destruct (rstrip_head c u E) as (t & ->). cbn [lstrip]. now rewrite E. }
  rewrite H. apply rstrip_idem.
Qed.

Lemma strip_lower_fixed s : lower (strip (strip (lower s))) = strip (lower s).
Proof. now rewrite strip_idem, <- strip_lower, lower_idem. Qed.

(** ** The field cleaners of the forms *)

Lemma length_lt_2 (t : string) :
  (String.length t <? 2)%nat = false -> t <> EmptyString.
Proof. intros H ->. discriminate H. Qed.

(** X5: a name that [ReaderForm.clean_name] accepts for a non-empty input
    is the input stripped; it has no surrounding whitespace left, at least
    two characters, is not made of digits only, and cleaning it again
    returns it unchanged. *)
Theorem clean_name_accepts s t :
  s <> EmptyString ->
  ReaderForm_clean_name (Some s) = Ok (Some t) ->
  t = strip s /\ strip t = t /\ (2 <= String.length t)%nat /\ isdigit t = false /\
  ReaderForm_clean_name (Some t) = Ok (Some t).
Proof.
  intros Hs H. unfold ReaderForm_clean_name in H.
  destruct s as [|c s]; [congruence|].
  destruct (String.length (strip (String c s)) <? 2)%nat eqn:El; [discriminate|].
  destruct (isdigit (strip (String c s))) eqn:Ed; [discriminate|].
  injection H as <-.
  split; [reflexivity|]. split; [apply strip_idem|].
  split; [apply Nat.ltb_ge in El; exact El|]. split; [exact Ed|].
  pose proof (strip_idem (String c s)) as Hfix.
  destruct (strip (String c s)) as [|a u]; [discriminate El|].
  unfold ReaderForm_clean_name. cbv zeta. rewrite Hfix, El, Ed. reflexivity.
Qed.

Lemma clean_name_accepts_witness :
  "  Ada Lovelace "%string <> EmptyString /\
  ReaderForm_clean_name (Some "  Ada Lovelace ") = Ok (Some "Ada Lovelace") /\
  ReaderForm_clean_name (Some "Ada Lovelace") = Ok (Some "Ada Lovelace").
Proof.
  assert (Hs : "  Ada Lovelace "%string <> EmptyString) by discriminate.
  split; [exact Hs|]. split; [reflexivity|].
  exact (proj2 (proj2 (proj2 (proj2
           (clean_name_accepts "  Ada Lovelace " "Ada Lovelace" Hs eq_refl))))).
Defined.

(** X6: on ASCII text, a title or an author that [BookForm.clean_title] or
    [BookForm.clean_author] accepts for a non-empty input is the input
    stripped, is ASCII text of at least two characters, and is returned
    unchanged when cleaned again. *)
Theorem clean_title_author_accept s t :
  ascii_only s = true ->
  s <> EmptyString ->
  (BookForm_clean_title (Some s) = Ok (Some t) ->
   t = strip s /\ ascii_only t = true /\ (2 <= String.length t)%nat /\
   BookForm_clean_title (Some t) = Ok (Some t)) /\
  (BookForm_clean_author (Some s) = Ok (Some t) ->
   t = strip s /\ ascii_only t = true /\ (2 <= String.length t)%nat /\
   BookForm_clean_author (Some t) = Ok (Some t)).
Proof.
  intros Hascii Hs. apply ascii_only_strip in Hascii.
  destruct s as [|c s]; [congruence|].
  split; intro H;
    [unfold BookForm_clean_title in H|unfold BookForm_clean_author in H];
    (destruct (String.length (strip (String c s)) <? 2)%nat eqn:El;
     [discriminate|]);
    injection H as <-;
    (split; [reflexivity|]); (split; [exact Hascii|]);
    (split; [apply Nat.ltb_ge in El; exact El|]);
    pose proof (strip_idem (String c s)) as Hfix;
    (destruct (strip (String c s)) as [|a u]; [discriminate El|]);
    [unfold BookForm_clean_title|unfold BookForm_clean_author];
    cbv zeta; rewrite Hfix, El; reflexivity.
Qed.

Lemma clean_title_author_accept_witness :
  ascii_only " Dune " = true /\
  " Dune "%string <> EmptyString /\
  BookForm_clean_title (Some " Dune ") = Ok (Some "Dune") /\
  BookForm_clean_title (Some "Dune") = Ok (Some "Dune") /\
  BookForm_clean_author (Some "Dune") = Ok (Some "Dune").
Proof.
  assert (Hs : " Dune "%string <> EmptyString) by discriminate.
  destruct (clean_title_author_accept " Dune " "Dune" eq_refl Hs) as [Ht Ha].
  split; [reflexivity|]. split; [exact Hs|]. split; [reflexivity|].
  split; [exact (proj2 (proj2 (proj2 (Ht eq_refl))))
         |exact (proj2 (proj2 (proj2 (Ha eq_refl))))].
Defined.

(** X7: [Book.clean] accepts exactly the years from 1000 to the current
    year; [BookForm.clean_year] accepts the same years and, because of its
    [if year:] guard, the year 0 as well. *)
Theorem year_checks current_year self :
  (Book_clean current_year self = Ok tt <->
   (1000 <= Book.year self <= current_year)%Z) /\
  (BookForm_clean_year current_year (Some (Book.year self))
   = Ok (Some (Book.year self)) <->
   Book.year self = 0%Z \/ (1000 <= Book.year self <= current_year)%Z).
Proof.
  unfold Book_clean, BookForm_clean_year. split.
  - destruct (Book.year self >? current_year)%Z eqn:E1;
      [|destruct (Book.year self <? 1000)%Z eqn:E2];
      split; intro H; try discriminate; try reflexivity; lia.
  - destruct (Book.year self =? 0)%Z eqn:E0;
      [|destruct (Book.year self >? current_year)%Z eqn:E1;
        [|destruct (Book.year self <? 1000)%Z eqn:E2]];
      split; intro H; try discriminate; try reflexivity; lia.
Qed.

(** ** The e-mail of a reader, from the form to the table *)

Lemma Reader_save_Ok py_strip py_lower now self db saved db' :
  str_builtins py_strip py_lower ->
  Reader_save py_strip py_lower now self db = (Ok saved, db') ->
  Reader.email saved = py_lower (py_strip (Reader.email self)) /\
  Reader.name saved = Reader.name self.
Proof.
  intro Hstr. unfold Reader_save, Model_save_Reader.
  pose proof (write_Reader_fields now (normalize_email py_strip py_lower self)
                                  (Reader_objects db)) as H.
  destruct (write_Reader now (normalize_email py_strip py_lower self)
                         (Reader_objects db))
    as [saved0 rows'].
  destruct H as (He & Hn & _).
  destruct (unique_email rows'); [|discriminate].
  intro E. injection E as <- _.
  rewrite He, Hn, normalize_email_name. split; [|reflexivity].
  now apply normalize_email_email.
Qed.

Lemma Reader_save_Raise py_strip py_lower now self db e db' :
  Reader_save py_strip py_lower now self db = (Raise e, db') -> db' = db.
Proof.
  unfold Reader_save, Model_save_Reader.
  destruct (write_Reader now (normalize_email py_strip py_lower self)
                         (Reader_objects db))
    as [saved0 rows'].
  destruct (unique_email rows'); [discriminate|]. intro E. now injection E.
Qed.

(** X8: on ASCII text, an e-mail that [ReaderForm.clean_email] accepts for a
    new reader is the input lower-cased and stripped, the check writes
    nothing, and creating the reader with it cannot fail: [Reader.save]
    stores exactly that e-mail. *)
Theorem clean_email_then_create py_strip py_lower now name s e instance db db1 :
  str_builtins py_strip py_lower ->
  ascii_only s = true ->
  unique_email (Reader_objects db) = true ->
  s <> EmptyString ->
  Reader.pk instance = None ->
  ReaderForm_clean_email instance (Some s) db = (Ok (Some e), db1) ->
  e = strip (lower s) /\ ascii_only e = true /\ db1 = db /\
  exists saved db',
    Reader_objects_create py_strip py_lower now name e db = (Ok saved, db') /\
    Reader.email saved = e /\
    In saved (Reader_objects db').
Proof.
  intros Hstr Hascii Hu Hs Hpk H. destruct s as [|c s]; [congruence|].
  unfold ReaderForm_clean_email in H. rewrite Hpk in H. cbn [orb] in H.
  unfold bind, query in H.
  destruct (exists_ (filter (fun r => String.eqb (Reader.email r)
                                                 (strip (lower (String c s))))
                            (Reader_objects db))) eqn:T; [discriminate|].
  injection H as <- <-.
  assert (He : ascii_only (strip (lower (String c s))) = true)
    by now apply ascii_only_strip, ascii_only_lower.
  assert (Hfix : py_lower (py_strip (strip (lower (String c s))))
                 = strip (lower (String c s))).
  { rewrite (str_builtins_ascii _ _ _ Hstr He). apply strip_lower_fixed. }
  split; [reflexivity|]. split; [exact He|]. split; [reflexivity|].
  apply exists_false in T.
  destruct (Reader_objects_create_fresh py_strip py_lower now name
              (strip (lower (String c s))) db Hstr Hu)
    as (saved & db' & Hc & Hemail & Hin).
  - intros r Hr Heq. rewrite Hfix in Heq.
    assert (Hx : In r (filter (fun r => String.eqb (Reader.email r)
                                                   (strip (lower (String c s))))
                              (Reader_objects db))).
    { apply filter_In. split; [exact Hr|]. now apply String.eqb_eq. }
    now rewrite T in Hx.
  - exists saved, db'. rewrite Hfix in Hemail. now repeat split.
Qed.

Lemma clean_email_then_create_witness :
  str_builtins strip lower /\
  ascii_only " New.Reader@Example.COM" = true /\
  unique_email (Reader_objects db_empty) = true /\
  ReaderForm_clean_email reader1 (Some " New.Reader@Example.COM") db_empty
  = (Ok (Some "new.reader@example.com"), db_empty) /\
  exists saved db',
    Reader_objects_create strip lower 500 "New" "new.reader@example.com" db_empty
    = (Ok saved, db') /\
    Reader.email saved = "new.reader@example.com" /\
    In saved (Reader_objects db').
Proof.
  assert (H : str_builtins strip lower) by (split; intros; reflexivity).
  split; [exact H|].
  split; [reflexivity|]. split; [reflexivity|]. split; [reflexivity|].
  refine (proj2 (proj2 (proj2
            (clean_email_then_create strip lower 500 "New"
               " New.Reader@Example.COM" "new.reader@example.com"
               {| Reader.pk := None; Reader.name := "New";
                  Reader.email := EmptyString;
                  Reader.created_at := None; Reader.updated_at := None |}
               db_empty db_empty H eq_refl eq_refl _ eq_refl eq_refl)))).
  discriminate.
Defined.

(** X9: on ASCII text, the e-mail stored by [Reader.save] is a fixed point
    of the normalisation: saving the stored reader again, when that save is
    committed, keeps its e-mail and its name; when it is refused, nothing
    is written. *)
Theorem Reader_save_twice py_strip py_lower now now' self db saved db' :
  str_builtins py_strip py_lower ->
  ascii_only (Reader.email self) = true ->
  Reader_save py_strip py_lower now self db = (Ok saved, db') ->
  match Reader_save py_strip py_lower now' saved db' with
  | (Ok saved', _) =>
      Reader.email saved' = Reader.email saved /\
      Reader.name saved' = Reader.name saved
  | (Raise _, db'') => db'' = db'
  end.
Proof.
  intros Hstr Hascii H1. apply Reader_save_Ok in H1; [|exact Hstr].
  destruct H1 as [He _].
  rewrite (str_builtins_ascii _ _ _ Hstr Hascii) in He.
  destruct (Reader_save py_strip py_lower now' saved db')
    as [[saved'|e] db''] eqn:H2.
  - apply Reader_save_Ok in H2; [|exact Hstr].
    destruct H2 as [He' Hn']. split; [|exact Hn'].
    rewrite He', He. rewrite (str_builtins_ascii _ _ _ Hstr).
    + now rewrite strip_lower, lower_idem, strip_idem.
    + now apply ascii_only_lower, ascii_only_strip.
  - now apply Reader_save_Raise in H2.
Qed.

Lemma Reader_save_twice_witness :
  str_builtins strip lower /\
  ascii_only "  MixedCase@Email.COM " = true /\
  exists saved db' saved' db'',
    Reader_objects_create strip lower 500 "Temp" "  MixedCase@Email.COM " db_empty
    = (Ok saved, db') /\
    Reader_save strip lower 600 saved db' = (Ok saved', db'') /\
    Reader.email saved' = "mixedcase@email.com".
Proof.
  assert (H : str_builtins strip lower) by (split; intros; reflexivity).
  split; [exact H|]. split; [reflexivity|].
  eexists. eexists. eexists. eexists.
  split; [reflexivity|]. split; [reflexivity|].
  exact (proj1 (Reader_save_twice strip lower 500 600
                  {| Reader.pk := None; Reader.name := "Temp";
                     Reader.email := "  MixedCase@Email.COM ";
                     Reader.created_at := None; Reader.updated_at := None |}
                  db_empty _ _ H eq_refl eq_refl)).
Defined.

(** ** The view [cancel_reservation] *)

(** X10: [cancel_reservation] never answers "Erreur lors de l'annulation.":
    on an active reservation [cancel] returns [True] or raises, so the
    [else] of [if success] is dead code. *)
Theorem cancel_reservation_never_reports_failure now request i db resp msgs db' :
  cancel_reservation now request i db = (Ok (resp, msgs), db') ->
  resp <> Json (json_error (Text "Erreur lors de l'annulation.")).
Proof.
  unfold cancel_reservation, require_POST.
  destruct (String.eqb (method request) "POST");
    [|intros H; injection H as <- _ _; discriminate].
  unfold bind, get_Reservation_or_404.
  destruct (find_Reservation i db) as [r|]; [|discriminate].
  destruct (Reservation.is_active r) eqn:Ha;
    [|intros H; injection H as <- _ _; discriminate].
  unfold cancel. rewrite Ha. unfold bind.
  destruct (Reservation_save now (set_status false (Some now) r) db) as [[s|e] db1];
    [|discriminate].
  cbn. intros H; injection H as <- _ _; discriminate.
Qed.

Lemma cancel_reservation_never_reports_failure_witness :
  cancel_reservation 150 (request_of "POST") 1 db_res1
  = (Ok (Json {| status := "success"; message := Text "Réservation annulée.";
                 reservation_id := None |},
         [{| level := "success"; text := "Réservation annulée avec succès." |}]),
     db_cancelled) /\
  Json {| status := "success"; message := Text "Réservation annulée.";
          reservation_id := None |}
  <> Json (json_error (Text "Erreur lors de l'annulation.")).
Proof.
  split; [reflexivity|].
  exact (cancel_reservation_never_reports_failure 150 (request_of "POST") 1 db_res1
           _ _ _ eq_refl).
Defined.

(** X11: for a stored reservation and a POST request, [cancel_reservation]
    answers "success" and cancels it when it is active, and answers "Cette
    réservation est déjà annulée." without writing when it is not; a second
    call always gets the latter answer. *)
Theorem cancel_reservation_view now now' request i db r :
  consistent db ->
  method request = "POST" ->
  find_Reservation i db = Some r ->
  let already :=
    (Json (json_error (Text "Cette réservation est déjà annulée.")),
     @nil FlashMessage) in
  cancel_reservation now request i db
  = (if Reservation.is_active r then
       (Ok (Json {| status := "success"; message := Text "Réservation annulée.";
                    reservation_id := None |},
            [{| level := "success"; text := "Réservation annulée avec succès." |}]),
        snd (CancelReservation now i db))
     else (Ok already, db)) /\
  cancel_reservation now' request i (snd (cancel_reservation now request i db))
  = (Ok already, snd (cancel_reservation now request i db)).
Proof.
  intros Hc Hm Hf already.
  assert (Hinactive : forall db0 r0,
             find_Reservation i db0 = Some r0 -> Reservation.is_active r0 = false ->
             forall t, cancel_reservation t request i db0 = (Ok already, db0)).
  { intros db0 r0 Hf0 Ha0 t. unfold cancel_reservation, require_POST.
    rewrite Hm, String.eqb_refl. unfold bind, get_Reservation_or_404.
    now rewrite Hf0, Ha0. }
  destruct (Reservation.is_active r) eqn:Ha.
  - assert (E : cancel_reservation now request i db
                = (Ok (Json {| status := "success";
                               message := Text "Réservation annulée.";
                               reservation_id := None |},
                       [{| level := "success";
                           text := "Réservation annulée avec succès." |}]),
                   snd (CancelReservation now i db))).
    { pose proof (CancelReservation_active now i db r Hc Hf Ha) as Hcan.
      rewrite Hcan. cbn [snd].
      unfold CancelReservation, bind, get_Reservation_or_404 in Hcan.
      rewrite Hf in Hcan.
      unfold cancel_reservation, require_POST.
      rewrite Hm, String.eqb_refl. unfold bind, get_Reservation_or_404.
      rewrite Hf, Ha.
      destruct (cancel now r db) as [[ok|e] db1]; [|discriminate].
      injection Hcan as -> ->. reflexivity. }
    split; [exact E|]. rewrite E. cbn [snd].
    rewrite (CancelReservation_active now i db r Hc Hf Ha). cbn [snd].
    apply (Hinactive _ (set_status false (Some now) r)); [|reflexivity].
    apply find_after_update with r; [exact Hf|].
    apply (find_Reservation_Some _ _ _ Hf).
  - rewrite (Hinactive db r Hf Ha now). split; [reflexivity|]. cbn [snd].
    apply (Hinactive db r Hf Ha).
Qed.

Lemma cancel_reservation_view_witness :
  consistent db_res1 /\
  cancel_reservation 150 (request_of "POST") 1 db_res1
  = (Ok (Json {| status := "success"; message := Text "Réservation annulée.";
                 reservation_id := None |},
         [{| level := "success"; text := "Réservation annulée avec succès." |}]),
     db_cancelled) /\
  cancel_reservation 160 (request_of "POST") 1 db_cancelled
  = (Ok (Json (json_error (Text "Cette réservation est déjà annulée.")), []),
     db_cancelled).
Proof.
  split; [exact db_res1_consistent|].
  exact (cancel_reservation_view 150 160 (request_of "POST") 1 db_res1
           (inserted_reservation 1 100 1 1 "first")
           db_res1_consistent eq_refl eq_refl).
Defined.

(** ** Deleting a book or a reader *)

Section Keys.
Context {A : Type} (key : A -> option Z).

Lemma find_filter_same i (l : list A) :
  find (fun x => pk_is i (key x)) (filter (fun x => negb (pk_is i (key x))) l) = None.
Proof.
  induction l as [|x l IH]; cbn [filter find]; [reflexivity|].
  destruct (pk_is i (key x)) eqn:E; cbn [negb find]; [exact IH|].
  now rewrite E.
Qed.

Lemma find_filter_other i j (l : list A) :
  j <> i ->
  find (fun x => pk_is j (key x)) (filter (fun x => negb (pk_is i (key x))) l)
  = find (fun x => pk_is j (key x)) l.
Proof.
  intro Hji. induction l as [|x l IH]; cbn [filter find]; [reflexivity|].
  destruct (pk_is i (key x)) eqn:E; cbn [negb find].
  - apply pk_is_true in E.
    destruct (pk_is j (key x)) eqn:E'; [|exact IH].
    apply pk_is_true in E'. congruence.
  - destruct (pk_is j (key x)); [reflexivity|exact IH].
Qed.

Lemma NoDup_map_filter (p : A -> bool) (l : list A) :
  NoDup (map key l) -> NoDup (map key (filter p l)).
Proof.
  induction l as [|x l IH]; cbn [map filter]; intro H; [constructor|].
  inversion H as [|? ? Hnotin Hnd]; subst.
  destruct (p x); [|now apply IH]. cbn [map]. constructor; [|now apply IH].
  intro Hin. apply Hnotin. apply in_map_iff in Hin.
  destruct Hin as (y & Hy & Hyin). apply filter_In in Hyin.
  apply in_map_iff. exists y. tauto.
Qed.
End Keys.

Lemma count_filter_filter_le {A} (P q : A -> bool) (l : list A) :
  (count (filter P (filter q l)) <= count (filter P l))%nat.
Proof.
  unfold count. induction l as [|x l IH]; cbn [filter]; [lia|].
  destruct (q x); cbn [filter]; destruct (P x); cbn [List.length]; lia.
Qed.

(** The database after the deletion of the book of key [i]. *)
Lemma consistent_delete_book db i :
  consistent db ->
  consistent
    {| Book_objects := filter (fun b => negb (pk_is i (Book.pk b))) (Book_objects db);
       Reader_objects := Reader_objects db;
       Reservation_objects :=
         filter (fun r => negb (pk_is i (Reservation.book r)))
                (Reservation_objects db) |}.
Proof.
  intro Hc. constructor; cbn [Reservation_objects].
  - apply NoDup_map_filter, (pk_unique db Hc).
  - intros r Hr. apply filter_In in Hr. now apply (pk_set db Hc).
  - intros r Hr. cbn [Reservation_objects] in Hr. apply filter_In in Hr.
    destruct Hr as [Hin Hne]. destruct (fk_ok db Hc r Hin) as [Hb Hrd].
    split; [|exact Hrd].
    unfold related_book, find_Book in *. cbn [Book_objects].
    destruct (Reservation.book r) as [j|]; [|exact Hb].
    rewrite (find_filter_other Book.pk i j); [exact Hb|].
    intros ->. cbn in Hne. now rewrite Z.eqb_refl in Hne.
  - intro b. unfold active_for_book, filter_book_active. cbn [Reservation_objects].
    eapply Nat.le_trans; [apply count_filter_filter_le|apply (unique_active db Hc b)].
Qed.

Lemma consistent_delete_reader db i :
  consistent db ->
  consistent
    {| Book_objects := Book_objects db;
       Reader_objects :=
         filter (fun r => negb (pk_is i (Reader.pk r))) (Reader_objects db);
       Reservation_objects :=
         filter (fun r => negb (pk_is i (Reservation.reader r)))
                (Reservation_objects db) |}.
Proof.
  intro Hc. constructor; cbn [Reservation_objects].
  - apply NoDup_map_filter, (pk_unique db Hc).
  - intros r Hr. apply filter_In in Hr. now apply (pk_set db Hc).
  - intros r Hr. cbn [Reservation_objects] in Hr. apply filter_In in Hr.
    destruct Hr as [Hin Hne]. destruct (fk_ok db Hc r Hin) as [Hb Hrd].
    split; [exact Hb|].
    unfold related_reader, find_Reader in *. cbn [Reader_objects].
    destruct (Reservation.reader r) as [j|]; [|exact Hrd].
    rewrite (find_filter_other Reader.pk i j); [exact Hrd|].
    intros ->. cbn in Hne. now rewrite Z.eqb_refl in Hne.
  - intro b. unfold active_for_book, filter_book_active. cbn [Reservation_objects].
    eapply Nat.le_trans; [apply count_filter_filter_le|apply (unique_active db Hc b)].
Qed.

(** X12: [delete_book] keeps the database consistent.  It answers 404 for
    an unknown book; it never deletes a book that has an active
    reservation, whatever the method; otherwise a POST removes the book
    together with all its reservations and nothing else, and any other
    method writes nothing. *)
Theorem delete_book_spec request i db :
  consistent db ->
  let db' := snd (delete_book request i db) in
  consistent db' /\
  match find_Book i db with
  | None =>
      delete_book request i db
      = (Raises (Http404 "No Book matches the given query."), db)
  | Some bk =>
      if exists_ (filter_book_active (Some i) db) then
        db' = db /\
        exists msgs,
          fst (delete_book request i db)
          = Returns (Redirect "library:book_list" [], msgs)
      else if String.eqb (method request) "POST" then
        find_Book i db' = None /\
        (forall j, j <> i -> find_Book j db' = find_Book j db) /\
        Reader_objects db' = Reader_objects db /\
        Reservation_objects db'
        = filter (fun r => negb (pk_is i (Reservation.book r)))
                 (Reservation_objects db)
      else db' = db
  end.
Proof.
  intros Hc. cbv zeta. unfold delete_book, bindV, lift, get_Book_or_404, query, retV.
  destruct (find_Book i db) as [bk|] eqn:Hb; [|split; [exact Hc|reflexivity]].
  rewrite (find_Book_Some _ _ _ Hb).
  destruct (exists_ (filter_book_active (Some i) db)) eqn:Ht.
  - cbn [snd fst]. split; [exact Hc|]. split; [reflexivity|]. eexists; reflexivity.
  - destruct (String.eqb (method request) "POST").
    + unfold Book_delete. rewrite (find_Book_Some _ _ _ Hb). cbn [snd].
      split; [now apply consistent_delete_book|].
      unfold find_Book. cbn [Book_objects Reader_objects Reservation_objects].
      split; [apply (find_filter_same Book.pk)|].
      split; [intros j Hj; now apply (find_filter_other Book.pk)|].
      split; reflexivity.
    + cbn [snd]. split; [exact Hc|reflexivity].
Qed.

Lemma delete_book_spec_witness :
  consistent db_cancelled /\
  find_Book 1 (snd (delete_book (request_of "POST") 1 db_cancelled)) = None /\
  Reservation_objects (snd (delete_book (request_of "POST") 1 db_cancelled)) = [] /\
  snd (delete_book (request_of "POST") 1 db_res1) = db_res1.
Proof.
  assert (Hc : consistent db_cancelled)
    by (apply execute_consistent, db_res1_consistent).
  split; [exact Hc|].
  destruct (delete_book_spec (request_of "POST") 1 db_cancelled Hc)
    as [_ (H1 & _ & _ & H4)].
  split; [exact H1|]. split; [exact H4|].
  destruct (delete_book_spec (request_of "POST") 1 db_res1 db_res1_consistent)
    as [_ [H _]].
  exact H.
Defined.

(** X13: [delete_reader] keeps the database consistent.  It answers 404
    for an unknown reader; it never deletes a reader who has an active
    reservation, whatever the method; otherwise a POST removes the reader
    together with all their reservations and nothing else, and any other
    method writes nothing. *)
Theorem delete_reader_spec request i db :
  consistent db ->
  let db' := snd (delete_reader request i db) in
  consistent db' /\
  match find_Reader i db with
  | None =>
      delete_reader request i db
      = (Raises (Http404 "No Reader matches the given query."), db)
  | Some rd =>
      if exists_ (filter_reader_active (Some i) db) then
        db' = db /\
        exists msgs,
          fst (delete_reader request i db)
          = Returns (Redirect "library:reader_detail" [("reader_id", Some i)], msgs)
      else if String.eqb (method request) "POST" then
        find_Reader i db' = None /\
        (forall j, j <> i -> find_Reader j db' = find_Reader j db) /\
        Book_objects db' = Book_objects db /\
        Reservation_objects db'
        = filter (fun r => negb (pk_is i (Reservation.reader r)))
                 (Reservation_objects db)
      else db' = db
  end.
Proof.
  intros Hc. cbv zeta.
  unfold delete_reader, bindV, lift, get_Reader_or_404, query, retV.
  destruct (find_Reader i db) as [rd|] eqn:Hr; [|split; [exact Hc|reflexivity]].
  rewrite (find_Reader_Some _ _ _ Hr).
  destruct (exists_ (filter_reader_active (Some i) db)) eqn:Ht.
  - cbn [snd fst]. split; [exact Hc|]. split; [reflexivity|]. eexists; reflexivity.
  - destruct (String.eqb (method request) "POST").
    + unfold Reader_delete. rewrite (find_Reader_Some _ _ _ Hr). cbn [snd].
      split; [now apply consistent_delete_reader|].
      unfold find_Reader. cbn [Book_objects Reader_objects Reservation_objects].
      split; [apply (find_filter_same Reader.pk)|].
      split; [intros j Hj; now apply (find_filter_other Reader.pk)|].
      split; reflexivity.
    + cbn [snd]. split; [exact Hc|reflexivity].
Qed.

Lemma delete_reader_spec_witness :
  consistent db_cancelled /\
  find_Reader 1 (snd (delete_reader (request_of "POST") 1 db_cancelled)) = None /\
  Reservation_objects (snd (delete_reader (request_of "POST") 1 db_cancelled)) = [] /\
  snd (delete_reader (request_of "POST") 1 db_res1) = db_res1.
Proof.
  assert (Hc : consistent db_cancelled)
    by (apply execute_consistent, db_res1_consistent).
  split; [exact Hc|].
  destruct (delete_reader_spec (request_of "POST") 1 db_cancelled Hc)
    as [_ (H1 & _ & _ & H4)].
  split; [exact H1|]. split; [exact H4|].
  destruct (delete_reader_spec (request_of "POST") 1 db_res1 db_res1_consistent)
    as [_ [H _]].
  exact H.
Defined.

(** ** The current reservation of a book *)

Lemma active_of_book_cases db bk :
  consistent db ->
  filter_book_active (Book.pk bk) db = [] \/
  exists r, filter_book_active (Book.pk bk) db = [r].
Proof.
  intro Hc. destruct (Book.pk bk) as [b|].
  - pose proof (unique_active db Hc b) as H. unfold active_for_book in H.
    destruct (filter_book_active (Some b) db) as [|r [|r2 l]]; [now left| |].
    + right. now exists r.
    + cbn in H. lia.
  - left. unfold filter_book_active. apply filter_book_null.
Qed.

Lemma order_by_nil (order_by : list Reservation.t -> list Reservation.t) :
  (forall l, Permutation l (order_by l)) -> order_by [] = [].
Proof. intro H. now apply Permutation_nil. Qed.

Lemma order_by_singleton (order_by : list Reservation.t -> list Reservation.t) r :
  (forall l, Permutation l (order_by l)) -> order_by [r] = [r].
Proof. intro H. now apply Permutation_length_1_inv. Qed.

(** X14: in a consistent database, whatever the order of the queryset,
    [Book.get_current_reservation] returns [None] exactly when the book is
    available, and otherwise the one active reservation of the book. *)
Theorem get_current_reservation_spec order_by db bk :
  (forall l, Permutation l (order_by l)) ->
  consistent db ->
  match get_current_reservation order_by bk db with
  | None => is_available bk db = true
  | Some r =>
      is_available bk db = false /\
      filter_book_active (Book.pk bk) db = [r] /\
      In r (Reservation_objects db) /\
      Reservation.is_active r = true
  end.
Proof.
  intros Hp Hc. unfold get_current_reservation, is_available.
  destruct (active_of_book_cases db bk Hc) as [E|[r E]]; rewrite E.
  - now rewrite (order_by_nil order_by Hp).
  - rewrite (order_by_singleton order_by r Hp). cbn.
    assert (Hr : In r (filter_book_active (Book.pk bk) db)) by (rewrite E; now left).
    unfold filter_book_active in Hr. apply filter_In in Hr.
    destruct Hr as [Hin Hr]. apply andb_true_iff in Hr. tauto.
Qed.

Lemma stored_order_permutation l : Permutation l (stored_order l).
Proof. apply Permutation_refl. Qed.

Lemma get_current_reservation_spec_witness :
  (forall l, Permutation l (stored_order l)) /\
  consistent db_res1 /\
  get_current_reservation stored_order book1 db_res1
  = Some (inserted_reservation 1 100 1 1 "first") /\
  is_available book1 db_res1 = false /\
  is_available book2 db_res1 = true.
Proof.
  split; [exact stored_order_permutation|]. split; [exact db_res1_consistent|].
  split; [reflexivity|]. split.
  - exact (proj1 (get_current_reservation_spec stored_order db_res1 book1
                    stored_order_permutation db_res1_consistent)).
  - exact (get_current_reservation_spec stored_order db_res1 book2
             stored_order_permutation db_res1_consistent).
Defined.

(** ** [ReservationForm.clean] and [Reservation.clean] *)

(** X15: the ceiling of five of [ReservationForm.clean] is never the one
    that decides: for an available book and a reader holding between one
    and four active reservations the form's [clean] passes, and
    [Reservation.clean] on the reservation to create raises the error of
    the reader who has a reservation already. *)
Theorem ReservationForm_ceiling_never_decides order_by b rd notes db bk rdr :
  find_Book b db = Some bk ->
  find_Reader rd db = Some rdr ->
  is_available bk db = true ->
  (1 <= count (get_active_reservations rdr db) < 5)%nat ->
  ReservationForm_clean order_by (Some bk) (Some rdr) notes db
  = (Returns (Some bk, Some rdr, notes), db) /\
  Reservation_clean (new_reservation (Some b) (Some rd) notes) db
  = (Raise (ReaderAlreadyReserved rdr), db).
Proof.
  intros Hb Hr Ha [Hn1 Hn5]. split.
  - unfold ReservationForm_clean. rewrite Ha. cbn [negb].
    destruct (5 <=? count (get_active_reservations rdr db))%nat eqn:E;
      [|reflexivity].
    apply Nat.leb_le in E. lia.
  - rewrite (clean_new db b rd notes bk rdr Hb Hr).
    unfold is_available in Ha. rewrite (find_Book_Some _ _ _ Hb) in Ha.
    unfold get_active_reservations in Hn1. rewrite (find_Reader_Some _ _ _ Hr) in Hn1.
    destruct (filter_book_active (Some b) db); [|discriminate].
    destruct (filter_reader_active (Some rd) db); [cbn in Hn1; lia|reflexivity].
Qed.

Lemma ReservationForm_ceiling_never_decides_witness :
  find_Book 2 db_res1 = Some book2 /\
  find_Reader 1 db_res1 = Some reader1 /\
  is_available book2 db_res1 = true /\
  count (get_active_reservations reader1 db_res1) = 1%nat /\
  ReservationForm_clean stored_order (Some book2) (Some reader1) "n" db_res1
  = (Returns (Some book2, Some reader1, "n"), db_res1) /\
  Reservation_clean (new_reservation (Some 2%Z) (Some 1%Z) "n") db_res1
  = (Raise (ReaderAlreadyReserved reader1), db_res1).
Proof.
  do 4 (split; [reflexivity|]).
  exact (ReservationForm_ceiling_never_decides stored_order 2 1 "n" db_res1
           book2 reader1 eq_refl eq_refl eq_refl
           (conj (le_n 1) (proj1 (Nat.leb_le 2 5) eq_refl))).
Defined.

(** X16: for a book that has an active reservation, [ReservationForm.clean]
    and [Reservation.clean] raise the same message, naming the reader who
    holds the book: the form as a plain validation error, the model as the
    error of field [book]. *)
Theorem ReservationForm_same_message order_by b rd notes db bk rdr :
  (forall l, Permutation l (order_by l)) ->
  consistent db ->
  find_Book b db = Some bk ->
  find_Reader rd db = Some rdr ->
  is_available bk db = false ->
  exists holder current m,
    get_current_reservation order_by bk db = Some current /\
    related_reader current db = Some holder /\
    BookAlreadyReserved bk holder = ValidationErrorDict [("book", m)] /\
    ReservationForm_clean order_by (Some bk) (Some rdr) notes db
    = (Raises (ValidationError m), db) /\
    Reservation_clean (new_reservation (Some b) (Some rd) notes) db
    = (Raise (ValidationErrorDict [("book", m)]), db).
Proof.
  intros Hp Hc Hb Hr Ha.
  pose proof (find_Book_Some _ _ _ Hb) as Hpk.
  unfold is_available in Ha. rewrite Hpk in Ha.
  destruct (filter_book_active (Some b) db) as [|current l] eqn:F; [discriminate|].
  pose proof (active_singleton db b current l (unique_active db Hc) F) as ->.
  assert (Hin : In current (Reservation_objects db)).
  { assert (H : In current (filter_book_active (Some b) db)) by (rewrite F; now left).
    unfold filter_book_active in H. now apply filter_In in H. }
  destruct (load_reader_ok db current (fk_ok db Hc) Hin)
    as (j & holder & Hj & Hfind & _).
  assert (Hrel : related_reader current db = Some holder)
    by (unfold related_reader; now rewrite Hj).
  assert (Hcur : get_current_reservation order_by bk db = Some current).
  { unfold get_current_reservation. rewrite Hpk, F.
    now rewrite (order_by_singleton order_by current Hp). }
  exists holder, current. eexists.
  split; [exact Hcur|]. split; [exact Hrel|]. split; [reflexivity|]. split.
  - unfold ReservationForm_clean, is_available. rewrite Hpk, F. cbn [exists_ negb].
    now rewrite Hcur, Hrel.
  - rewrite (clean_new db b rd notes bk rdr Hb Hr), F, Hrel. reflexivity.
Qed.

Lemma ReservationForm_same_message_witness :
  (forall l, Permutation l (stored_order l)) /\
  consistent db_res1 /\
  is_available book1 db_res1 = false /\
  exists m,
    ReservationForm_clean stored_order (Some book1) (Some reader2) "n" db_res1
    = (Raises (ValidationError m), db_res1) /\
    Reservation_clean (new_reservation (Some 1%Z) (Some 2%Z) "n") db_res1
    = (Raise (ValidationErrorDict [("book", m)]), db_res1).
Proof.
  split; [exact stored_order_permutation|]. split; [exact db_res1_consistent|].
  split; [reflexivity|].
  destruct (ReservationForm_same_message stored_order 1 2 "n" db_res1 book1 reader2
              stored_order_permutation db_res1_consistent eq_refl eq_refl eq_refl)
    as (holder & current & m & _ & _ & _ & H1 & H2).
  exists m. split; [exact H1|exact H2].
Defined.

(** ** The figures of the home page *)

Lemma count_partition {A} (p : A -> bool) (l : list A) :
  (count (filter p l) + count (filter (fun x => negb (p x)) l) = count l)%nat.
Proof.
  unfold count. induction l as [|x l IH]; cbn [filter]; [reflexivity|].
  destruct (p x); cbn [negb List.length]; lia.
Qed.

Lemma list_sum_indicator {A} (p : A -> bool) (l : list A) :
  list_sum (map (fun x => if p x then 1 else 0)%nat l) = count (filter p l).
Proof.
  unfold count, list_sum.
  induction l as [|x l IH]; cbn [map fold_right filter]; [reflexivity|].
  destruct (p x); cbn [List.length]; lia.
Qed.

Lemma list_sum_plus {A} (f g : A -> nat) (l : list A) :
  list_sum (map (fun x => f x + g x)%nat l)
  = (list_sum (map f l) + list_sum (map g l))%nat.
Proof. unfold list_sum. induction l as [|x l IH]; cbn [map fold_right]; lia. Qed.

Lemma list_sum_zero {A} (l : list A) : list_sum (map (fun _ => 0%nat) l) = 0%nat.
Proof. unfold list_sum. induction l as [|x l IH]; cbn [map fold_right]; lia. Qed.

Lemma count_key_1 {A} (key : A -> option Z) i (l : list A) :
  NoDup (map key l) ->
  find (fun x => pk_is i (key x)) l <> None ->
  count (filter (fun x => pk_is i (key x)) l) = 1%nat.
Proof.
  unfold count. induction l as [|x l IH]; cbn [map find filter]; intros Hnd Hf;
    [congruence|].
  inversion Hnd as [|? ? Hnotin Hnd']; subst.
  destruct (pk_is i (key x)) eqn:E.
  - apply pk_is_true in E. cbn [List.length]. f_equal.
    destruct (filter (fun y => pk_is i (key y)) l) as [|y ys] eqn:F; [reflexivity|].
    exfalso. apply Hnotin. rewrite E.
    assert (Hy : In y (filter (fun y => pk_is i (key y)) l)) by (rewrite F; now left).
    apply filter_In in Hy. destruct Hy as [Hy1 Hy2]. apply pk_is_true in Hy2.
    rewrite <- Hy2. now apply in_map.
  - now apply IH.
Qed.

Lemma fk_eqb_sym a b : fk_eqb a b = fk_eqb b a.
Proof. destruct a, b; cbn; try reflexivity. apply Z.eqb_sym. Qed.

(** Summed over the books, the active reservations of each book are the
    active reservations. *)
Lemma active_summed_over_books db (rows : list Reservation.t) :
  NoDup (map Book.pk (Book_objects db)) ->
  (forall r, In r rows -> related_book r db <> None) ->
  list_sum
    (map (fun bk =>
            count (filter (fun r => fk_eqb (Reservation.book r) (Book.pk bk)
                                    && Reservation.is_active r) rows))
         (Book_objects db))
  = count (filter Reservation.is_active rows).
Proof.
  intros Hnd. induction rows as [|r rows IH]; intro Hfk.
  - cbn [filter count List.length]. apply list_sum_zero.
  - assert (E : forall bk,
               count (filter (fun r0 => fk_eqb (Reservation.book r0) (Book.pk bk)
                                        && Reservation.is_active r0) (r :: rows))
               = ((if fk_eqb (Reservation.book r) (Book.pk bk)
                      && Reservation.is_active r then 1 else 0)
                  + count (filter (fun r0 => fk_eqb (Reservation.book r0) (Book.pk bk)
                                             && Reservation.is_active r0) rows))%nat).
    { intro bk. unfold count. cbn [filter].
      now destruct (fk_eqb (Reservation.book r) (Book.pk bk)
                    && Reservation.is_active r). }
    rewrite (map_ext _ _ E), list_sum_plus, IH, list_sum_indicator
      by (intros x Hx; apply Hfk; now right).
    assert (Hone : count (filter (fun bk => fk_eqb (Reservation.book r) (Book.pk bk)
                                             && Reservation.is_active r)
                                 (Book_objects db))
                   = if Reservation.is_active r then 1%nat else 0%nat).
    { destruct (Reservation.is_active r) eqn:Ha.
      - specialize (Hfk r (or_introl eq_refl)). unfold related_book in Hfk.
        destruct (Reservation.book r) as [j|]; [|congruence].
        rewrite (filter_ext _ (fun bk => pk_is j (Book.pk bk)))
          by (intro bk; rewrite andb_true_r; apply fk_eqb_sym).
        now apply count_key_1.
      - rewrite (filter_ext _ (fun _ => false))
          by (intro bk; apply andb_false_r).
        assert (Hnil : forall l : list Book.t, filter (fun _ => false) l = [])
          by (induction l; cbn; auto).
        now rewrite Hnil. }
    rewrite Hone. unfold count. cbn [filter].
    destruct (Reservation.is_active r); cbn [List.length]; lia.
Qed.

(** The reserved books are as many as the active reservations. *)
Lemma reserved_books_count db :
  consistent db ->
  NoDup (map Book.pk (Book_objects db)) ->
  count (filter (fun bk => negb (is_available bk db)) (Book_objects db))
  = count (filter Reservation.is_active (Reservation_objects db)).
Proof.
  intros Hc Hnd.
  rewrite <- (active_summed_over_books db (Reservation_objects db) Hnd)
    by (intros r Hr; apply (fk_ok db Hc r Hr)).
  rewrite <- list_sum_indicator. f_equal. apply map_ext. intro bk.
  unfold is_available. fold (filter_book_active (Book.pk bk) db).
  destruct (active_of_book_cases db bk Hc) as [E|[r E]]; now rewrite E.
Qed.

(** X17: in a consistent database with distinct book keys the figures of
    [home] are exact: [active_reservations] is the number of reserved
    books, and [available_books], computed as the difference
    [total_books - active_reservations], is the number of books for which
    [is_available] holds. *)
Theorem home_figures order_by db :
  consistent db ->
  NoDup (map Book.pk (Book_objects db)) ->
  home order_by db
  = Render "library/home.html"
      (HomeContext
         (count (Book_objects db))
         (count (Reader_objects db))
         (count (filter (fun bk => negb (is_available bk db)) (Book_objects db)))
         (Z.of_nat (count (filter (fun bk => is_available bk db) (Book_objects db))))
         (firstn 5 (order_by (Reservation_objects db)))).
Proof.
  intros Hc Hnd. unfold home. cbv zeta.
  rewrite <- (reserved_books_count db Hc Hnd).
  pose proof (count_partition (fun bk => is_available bk db) (Book_objects db)) as H.
  do 2 f_equal. lia.
Qed.

Lemma home_figures_witness :
  consistent db_res1 /\
  NoDup (map Book.pk (Book_objects db_res1)) /\
  home stored_order db_res1
  = Render "library/home.html"
      (HomeContext 2 2 1 1 [inserted_reservation 1 100 1 1 "first"]).
Proof.
  assert (Hnd : NoDup (map Book.pk (Book_objects db_res1))).
  { cbn. repeat constructor; cbn; intuition discriminate. }
  split; [exact db_res1_consistent|]. split; [exact Hnd|].
  exact (home_figures stored_order db_res1 db_res1_consistent Hnd).
Defined.

(** ** The actions of the admin *)

(** A stored row is the one found under its key. *)
Lemma find_stored db r :
  consistent db -> In r (Reservation_objects db) ->
  exists i, Reservation.pk r = Some i /\ find_Reservation i db = Some r.
Proof.
  intros Hc Hin. pose proof (pk_set db Hc r Hin) as Hpk.
  destruct (Reservation.pk r) as [i|] eqn:E; [|congruence]. exists i.
  split; [reflexivity|].
  destruct (find_Reservation i db) as [r'|] eqn:F.
  - destruct (find_Reservation_Some _ _ _ F) as [Hin' Hpk']. f_equal.
    apply (pk_determines_row db); try assumption;
      [apply (pk_unique db Hc)|congruence].
  - unfold find_Reservation in F. pose proof (find_none _ _ F r Hin) as H.
    cbn in H. rewrite E in H. cbn in H. now rewrite Z.eqb_refl in H.
Qed.

Lemma in_update_row_other j self rows x :
  In x rows -> Reservation.pk x <> Some j -> In x (update_row j self rows).
Proof.
  intros Hin Hne. unfold update_row. apply in_map_iff. exists x.
  split; [|exact Hin].
  destruct (pk_is j (Reservation.pk x)) eqn:E; [|reflexivity].
  apply pk_is_true in E. congruence.
Qed.

Lemma cancel_stored now i db r :
  consistent db ->
  find_Reservation i db = Some r -> Reservation.is_active r = true ->
  cancel now r db
  = (Ok true,
     set_Reservation_objects
       (update_row i (set_status false (Some now) r) (Reservation_objects db)) db).
Proof.
  intros Hc Hf Ha. pose proof (CancelReservation_active now i db r Hc Hf Ha) as H.
  unfold CancelReservation, bind, get_Reservation_or_404 in H. now rewrite Hf in H.
Qed.

Lemma reactivate_stored now i db r :
  consistent db ->
  find_Reservation i db = Some r -> Reservation.is_active r = false ->
  reactivate now r db
  = if exists_ (filter_book_active (Reservation.book r) db)
    then (Raise already_reserved, db)
    else (Ok true,
          set_Reservation_objects
            (update_row i (set_status true None r) (Reservation_objects db)) db).
Proof.
  intros Hc Hf Ha.
  destruct (exists_ (filter_book_active (Reservation.book r) db)) eqn:Ht.
  - pose proof (ReactivateReservation_taken now i db r Hc Hf Ht) as H.
    unfold ReactivateReservation, bind, get_Reservation_or_404 in H.
    now rewrite Hf in H.
  - pose proof (ReactivateReservation_free now i db r Hc Hf Ha Ht) as H.
    unfold ReactivateReservation, bind, get_Reservation_or_404 in H.
    now rewrite Hf in H.
Qed.

(** What a loop over stored rows with distinct keys needs to go on after
    the update of the first one. *)
Lemma rest_still_stored db j r self rest :
  consistent db ->
  find_Reservation j db = Some r ->
  NoDup (map Reservation.pk (r :: rest)) ->
  (forall x, In x rest -> In x (Reservation_objects db)) ->
  forall x, In x rest ->
    In x (Reservation_objects
            (set_Reservation_objects (update_row j self (Reservation_objects db)) db)).
Proof.
  intros Hc Hf Hnd Hst x Hx. cbn [Reservation_objects set_Reservation_objects].
  apply in_update_row_other; [now apply Hst|].
  destruct (find_Reservation_Some _ _ _ Hf) as [_ Hpk].
  cbn [map] in Hnd. inversion Hnd as [|? ? Hnotin _]; subst.
  intro E. apply Hnotin. rewrite Hpk, <- E. now apply in_map.
Qed.

Lemma cancel_each_spec clock : forall rs k n db,
  consistent db ->
  NoDup (map Reservation.pk rs) ->
  (forall r, In r rs ->
             Reservation.is_active r = true /\ In r (Reservation_objects db)) ->
  exists db',
    cancel_each clock k rs n db = (Ok (n + List.length rs)%nat, db') /\
    consistent db' /\
    Book_objects db' = Book_objects db /\
    Reader_objects db' = Reader_objects db /\
    forall i x, find_Reservation i db = Some x ->
      exists x', find_Reservation i db' = Some x' /\
        ((In (Some i) (map Reservation.pk rs) /\
          exists m, (k <= m)%nat /\ x' = set_status false (Some (clock m)) x) \/
         (~ In (Some i) (map Reservation.pk rs) /\ x' = x)).
Proof.
  induction rs as [|r rest IH]; intros k n db Hc Hnd Hrs.
  - exists db. cbn [cancel_each List.length]. rewrite Nat.add_0_r.
    split; [reflexivity|]. split; [exact Hc|].
    split; [reflexivity|]. split; [reflexivity|].
    intros i x Hf. exists x. split; [exact Hf|]. right. cbn. tauto.
  - destruct (Hrs r (or_introl eq_refl)) as [Ha Hin].
    destruct (find_stored db r Hc Hin) as (j & Hpk & Hf).
    cbn [cancel_each]. unfold bind.
    rewrite (cancel_stored (clock k) j db r Hc Hf Ha).
    set (self := set_status false (Some (clock k)) r).
    set (db1 := set_Reservation_objects
                  (update_row j self (Reservation_objects db)) db).
    assert (Hc1 : consistent db1)
      by (apply consistent_update; [exact Hc|exact Hf|discriminate]).
    assert (Hnd' : NoDup (map Reservation.pk rest))
      by (cbn [map] in Hnd; now inversion Hnd).
    assert (Hnotin : ~ In (Some j) (map Reservation.pk rest))
      by (cbn [map] in Hnd; rewrite Hpk in Hnd; now inversion Hnd).
    destruct (IH (S k) (S n) db1 Hc1 Hnd') as (db' & Hrun & Hc' & Hb & Hr & Hfind).
    { intros x Hx. split; [apply Hrs; now right|].
      apply (rest_still_stored db j r self rest Hc Hf Hnd); [|exact Hx].
      intros y Hy. apply Hrs. now right. }
    exists db'. rewrite Hrun. cbn [List.length].
    split; [f_equal; f_equal; lia|]. split; [exact Hc'|].
    split; [exact Hb|]. split; [exact Hr|].
    intros i x Hfx. cbn [map]. rewrite Hpk.
    destruct (Z.eq_dec i j) as [->|Hij].
    + rewrite Hf in Hfx. injection Hfx as <-.
      destruct (Hfind j self) as (x' & Hx' & [[Habs _]|[_ ->]]).
      * apply find_after_update with r; [exact Hf|exact Hpk].
      * contradiction.
      * exists self. split; [exact Hx'|]. left. split; [now left|].
        exists k. split; [lia|reflexivity].
    + destruct (Hfind i x) as (x' & Hx' & Hcase).
      * unfold find_Reservation in *. subst db1.
        cbn [Reservation_objects set_Reservation_objects].
        rewrite find_update_row_other; [exact Hfx|exact Hpk|exact Hij].
      * exists x'. split; [exact Hx'|].
        destruct Hcase as [[Hi (m & Hm & Ht)]|[Hi ->]]; [left|right].
        -- split; [now right|]. exists m. split; [lia|exact Ht].
        -- split; [|reflexivity]. intros [E|E]; [congruence|contradiction].
Qed.

(** The rows an action iterates over: stored, with distinct keys, and
    exactly those of the selection. *)
Lemma iterated_rows order_by (p : Reservation.t -> bool) db :
  (forall l, Permutation l (order_by l)) ->
  consistent db ->
  let rs := order_by (filter p (Reservation_objects db)) in
  NoDup (map Reservation.pk rs) /\
  List.length rs = count (filter p (Reservation_objects db)) /\
  (forall r, In r rs <-> In r (Reservation_objects db) /\ p r = true).
Proof.
  intros Hp Hc rs. pose proof (Hp (filter p (Reservation_objects db))) as Hperm.
  fold rs in Hperm. split; [|split].
  - apply (Permutation_NoDup (Permutation_map Reservation.pk Hperm)).
    apply NoDup_map_filter, (pk_unique db Hc).
  - symmetry. apply (Permutation_length Hperm).
  - intro r. rewrite <- filter_In. split; intro H.
    + apply (Permutation_in r (Permutation_sym Hperm) H).
    + apply (Permutation_in r Hperm H).
Qed.

(** X18: the admin action [cancel_reservations] on a consistent database,
    whatever the order of the queryset: it does not raise; its message
    counts the selected reservations that were active; afterwards every
    selected reservation that was active is stored with [is_active = False],
    with [cancelled_at] a reading of the clock taken during the action, and
    with its other fields as they were; every other reservation is stored
    as it was, and the database is consistent with the same books and
    readers. *)
Theorem cancel_reservations_spec order_by clock queryset db :
  (forall l, Permutation l (order_by l)) ->
  consistent db ->
  exists db',
    cancel_reservations order_by clock queryset db
    = (Ok (str_int (Z.of_nat
                      (count (filter (fun r => queryset r && Reservation.is_active r)
                                     (Reservation_objects db))))
           ++ " réservation(s) annulée(s).")%string, db') /\
    consistent db' /\
    Book_objects db' = Book_objects db /\
    Reader_objects db' = Reader_objects db /\
    forall i x, find_Reservation i db = Some x ->
      exists x', find_Reservation i db' = Some x' /\
        if queryset x && Reservation.is_active x
        then Reservation.is_active x' = false /\
             (exists m, Reservation.cancelled_at x' = Some (clock m)) /\
             same_but_status x x'
        else x' = x.
Proof.
  intros Hp Hc.
  destruct (iterated_rows order_by
              (fun r => queryset r && Reservation.is_active r) db Hp Hc)
    as (Hnd & Hlen & Hmem).
  destruct (cancel_each_spec clock _ 0%nat 0%nat db Hc Hnd)
    as (db' & Hrun & Hc' & Hb & Hr & Hfind).
  { intros r Hr. apply Hmem in Hr. destruct Hr as [Hin Hq].
    apply andb_true_iff in Hq. tauto. }
  exists db'. unfold cancel_reservations, bind, query. rewrite Hrun.
  cbn [Nat.add]. rewrite Hlen. split; [reflexivity|].
  split; [exact Hc'|]. split; [exact Hb|]. split; [exact Hr|].
  intros i x Hfx. destruct (Hfind i x Hfx) as (x' & Hx' & Hcase).
  exists x'. split; [exact Hx'|].
  destruct (find_Reservation_Some _ _ _ Hfx) as [Hin Hpk].
  destruct Hcase as [[Hi (m & _ & ->)]|[Hi ->]].
  - apply in_map_iff in Hi. destruct Hi as (r & Hrpk & Hrs).
    apply Hmem in Hrs. destruct Hrs as [Hrin Hq].
    assert (r = x) as ->
        by (apply (pk_determines_row db); try assumption;
            [apply (pk_unique db Hc)|congruence]).
    rewrite Hq. split; [reflexivity|]. split; [now exists m|].
    unfold same_but_status. cbn. tauto.
  - destruct (queryset x && Reservation.is_active x) eqn:Hq; [|reflexivity].
    exfalso. apply Hi. rewrite <- Hpk. apply in_map. apply Hmem. now split.
Qed.

Lemma cancel_reservations_spec_witness :
  (forall l, Permutation l (stored_order l)) /\
  consistent db_taken /\
  find_Reservation 2 db_taken
  = Some {| Reservation.pk := Some 2%Z;
            Reservation.book := Some 1%Z;
            Reservation.reader := Some 2%Z;
            Reservation.reservation_date := Some 160%Z;
            Reservation.is_active := true;
            Reservation.cancelled_at := None;
            Reservation.notes := "second" |} /\
  exists db',
    cancel_reservations stored_order (fun k => Z.of_nat (200 + k)) select_all db_taken
    = (Ok "1 réservation(s) annulée(s).", db') /\
    find_Reservation 2 db'
    = Some {| Reservation.pk := Some 2%Z;
              Reservation.book := Some 1%Z;
              Reservation.reader := Some 2%Z;
              Reservation.reservation_date := Some 160%Z;
              Reservation.is_active := false;
              Reservation.cancelled_at := Some 200%Z;
              Reservation.notes := "second" |}.
Proof.
  assert (Hc : consistent db_taken).
  { unfold db_taken, db_cancelled.
    apply execute_consistent, execute_consistent, db_res1_consistent. }
  split; [exact stored_order_permutation|]. split; [exact Hc|].
  split; [reflexivity|].
  destruct (cancel_reservations_spec stored_order (fun k => Z.of_nat (200 + k))
              select_all db_taken stored_order_permutation Hc)
    as (db' & Hrun & _).
  exists db'. split; [exact Hrun|].
  cbv in Hrun. injection Hrun as <-. reflexivity.
Defined.

Lemma update_row_absent j self rows :
  ~ In (Some j) (map Reservation.pk rows) -> update_row j self rows = rows.
Proof.
  intro H. unfold update_row. rewrite <- (map_id rows) at 2.
  apply map_ext_in. intros x Hx.
  destruct (pk_is j (Reservation.pk x)) eqn:E; [|reflexivity].
  apply pk_is_true in E. exfalso. apply H. rewrite <- E. now apply in_map.
Qed.

(** Replacing an inactive stored row by an active one adds one active
    row. *)
Lemma count_active_update j r self rows :
  NoDup (map Reservation.pk rows) ->
  In r rows -> Reservation.pk r = Some j ->
  Reservation.is_active r = false -> Reservation.is_active self = true ->
  count (filter Reservation.is_active (update_row j self rows))
  = S (count (filter Reservation.is_active rows)).
Proof.
  intros Hnd Hin Hpk Ha Hs. unfold count.
  induction rows as [|x rows IH]; [destruct Hin|].
  cbn [map] in Hnd. inversion Hnd as [|? ? Hnotin Hnd']; subst.
  cbn [update_row map filter]. fold (update_row j self rows).
  destruct Hin as [->|Hin].
  - rewrite Hpk in Hnotin. rewrite (update_row_absent j self rows Hnotin).
    assert (E : pk_is j (Reservation.pk r) = true) by now apply pk_is_true.
    rewrite E, Hs, Ha. reflexivity.
  - assert (E : pk_is j (Reservation.pk x) = false).
    { destruct (pk_is j (Reservation.pk x)) eqn:E; [|reflexivity].
      apply pk_is_true in E. exfalso. apply Hnotin. rewrite E, <- Hpk.
      now apply in_map. }
    rewrite E. specialize (IH Hnd' Hin).
    destruct (Reservation.is_active x); cbn [List.length]; now rewrite IH.
Qed.

Lemma reactivate_each_spec clock : forall rs k n errs db,
  consistent db ->
  NoDup (map Reservation.pk rs) ->
  (forall r, In r rs ->
             Reservation.is_active r = false /\ In r (Reservation_objects db)) ->
  exists n' new db',
    reactivate_each clock k rs n errs db = (Ok (n', errs ++ new), db') /\
    consistent db' /\
    (n' + List.length new = n + List.length rs)%nat /\
    Forall (fun line : ErrorLine => snd line = already_reserved) new /\
    Book_objects db' = Book_objects db /\
    Reader_objects db' = Reader_objects db /\
    map Reservation.pk (Reservation_objects db')
    = map Reservation.pk (Reservation_objects db) /\
    (count (filter Reservation.is_active (Reservation_objects db')) + n
     = count (filter Reservation.is_active (Reservation_objects db)) + n')%nat.
Proof.
  induction rs as [|r rest IH]; intros k n errs db Hc Hnd Hrs.
  - exists n, [], db. cbn [reactivate_each List.length]. rewrite app_nil_r.
    split; [reflexivity|]. split; [exact Hc|]. split; [reflexivity|].
    split; [constructor|]. now repeat split.
  - destruct (Hrs r (or_introl eq_refl)) as [Ha Hin].
    destruct (find_stored db r Hc Hin) as (j & Hpk & Hf).
    assert (Hnd' : NoDup (map Reservation.pk rest))
      by (cbn [map] in Hnd; now inversion Hnd).
    cbn [reactivate_each]. unfold bind at 1. unfold try_except, bind at 1.
    rewrite (reactivate_stored (clock k) j db r Hc Hf Ha).
    destruct (exists_ (filter_book_active (Reservation.book r) db)) eqn:Ht.
    + destruct (load_book_ok db r (fk_ok db Hc) Hin) as (b & bk & _ & _ & _ & Hload).
      unfold bind at 1. rewrite Hload. cbn [ret fst snd].
      destruct (IH (S k) n (errs ++ [(Book.title bk, already_reserved)]) db
                  Hc Hnd')
        as (n' & new & db' & Hrun & Hc' & Hcount & Hall & Hb & Hr & Hk & Hact).
      { intros x Hx. apply Hrs. now right. }
      exists n', ((Book.title bk, already_reserved) :: new), db'.
      rewrite Hrun. rewrite <- app_assoc. cbn [app List.length].
      split; [reflexivity|]. split; [exact Hc'|]. split; [lia|].
      split; [constructor; [reflexivity|exact Hall]|]. now repeat split.
    + cbn [ret fst snd].
      set (self := set_status true None r).
      set (db1 := set_Reservation_objects
                    (update_row j self (Reservation_objects db)) db).
      assert (Hc1 : consistent db1).
      { apply consistent_update; [exact Hc|exact Hf|].
        intros _. now apply exists_false. }
      destruct (IH (S k) (S n) errs db1 Hc1 Hnd')
        as (n' & new & db' & Hrun & Hc' & Hcount & Hall & Hb & Hr & Hk & Hact).
      { intros x Hx. split; [apply Hrs; now right|].
        apply (rest_still_stored db j r self rest Hc Hf Hnd); [|exact Hx].
        intros y Hy. apply Hrs. now right. }
      exists n', new, db'. rewrite Hrun. cbn [List.length].
      split; [reflexivity|]. split; [exact Hc'|]. split; [lia|].
      split; [exact Hall|]. split; [exact Hb|]. split; [exact Hr|].
      subst db1. cbn [Reservation_objects set_Reservation_objects] in Hk, Hact.
      split; [rewrite Hk; now apply map_pk_update_row|].
      rewrite (count_active_update j r self (Reservation_objects db)) in Hact;
        try assumption; try reflexivity; [lia|apply (pk_unique db Hc)].
Qed.

(** X19: the admin action [reactivate_reservations] on a consistent
    database, whatever the order of the queryset: it does not raise and
    leaves a consistent database with the same books, readers and
    reservation keys; every selected cancelled reservation is either
    counted as reactivated or listed in the errors, each error being the
    one of a book already reserved; and the number it reports is the number
    of active reservations gained. *)
Theorem reactivate_reservations_spec order_by clock queryset db :
  (forall l, Permutation l (order_by l)) ->
  consistent db ->
  exists n errors db',
    reactivate_reservations order_by clock queryset db
    = (Ok ((str_int (Z.of_nat n) ++ " réservation(s) réactivée(s).")%string, errors),
       db') /\
    consistent db' /\
    (n + List.length errors
     = count (filter (fun r => queryset r && negb (Reservation.is_active r))
                     (Reservation_objects db)))%nat /\
    Forall (fun line : ErrorLine => snd line = already_reserved) errors /\
    Book_objects db' = Book_objects db /\
    Reader_objects db' = Reader_objects db /\
    map Reservation.pk (Reservation_objects db')
    = map Reservation.pk (Reservation_objects db) /\
    count (filter Reservation.is_active (Reservation_objects db'))
    = (count (filter Reservation.is_active (Reservation_objects db)) + n)%nat.
Proof.
  intros Hp Hc.
  destruct (iterated_rows order_by
              (fun r => queryset r && negb (Reservation.is_active r)) db Hp Hc)
    as (Hnd & Hlen & Hmem).
  destruct (reactivate_each_spec clock _ 0%nat 0%nat [] db Hc Hnd)
    as (n & new & db' & Hrun & Hc' & Hcount & Hall & Hb & Hr & Hk & Hact).
  { intros r Hin. apply Hmem in Hin. destruct Hin as [Hin Hq].
    apply andb_true_iff in Hq. destruct Hq as [_ Hq].
    split; [now destruct (Reservation.is_active r)|exact Hin]. }
  exists n, new, db'. unfold reactivate_reservations, bind, query. rewrite Hrun.
  cbn [app fst snd ret]. split; [reflexivity|]. split; [exact Hc'|].
  split; [rewrite <- Hlen; lia|]. split; [exact Hall|].
  split; [exact Hb|]. split; [exact Hr|]. split; [exact Hk|]. lia.
Qed.

Lemma reactivate_reservations_spec_witness :
  (forall l, Permutation l (stored_order l)) /\
  consistent db_taken /\
  reactivate_reservations stored_order (fun k => Z.of_nat (200 + k)) select_all
                          db_taken
  = (Ok ("0 réservation(s) réactivée(s).", [("Test Book", already_reserved)]),
     db_taken) /\
  consistent
    (snd (reactivate_reservations stored_order (fun k => Z.of_nat (200 + k))
                                  select_all db_taken)).
Proof.
  assert (Hc : consistent db_taken).
  { unfold db_taken, db_cancelled.
    apply execute_consistent, execute_consistent, db_res1_consistent. }
  split; [exact stored_order_permutation|]. split; [exact Hc|].
  split; [reflexivity|].
  destruct (reactivate_reservations_spec stored_order (fun k => Z.of_nat (200 + k))
              select_all db_taken stored_order_permutation Hc)
    as (n & errors & db' & Hrun & Hc' & _).
  rewrite Hrun. exact Hc'.
Defined.

(** ** The quick reservation always answers *)

(** X20: [quick_reserve] never raises: whatever the method, the body and
    the identifiers, it returns a response; a consistent database stays
    consistent, and unless the answer is "success" the database is the one
    it started from. *)
Theorem quick_reserve_always_answers now request b db :
  consistent db ->
  exists resp,
    fst (quick_reserve now request b db) = Ok resp /\
    consistent (snd (quick_reserve now request b db)) /\
    (status resp <> "success" -> snd (quick_reserve now request b db) = db).
Proof.
  intro Hc. unfold quick_reserve.
  destruct (String.eqb (method request) "POST");
    [|eexists; split; [reflexivity|]; split; [exact Hc|reflexivity]].
  unfold try_except, bind, json_loads_reader_id, get_Book_or_404, get_Reader_or_404,
    query.
  destruct (body request) as [|[rd|]];
    [eexists; split; [reflexivity|]; split; [exact Hc|reflexivity]| |].
  - cbn [ret].
    destruct (find_Book b db) as [bk|] eqn:Hb;
      [|eexists; split; [reflexivity|]; split; [exact Hc|reflexivity]].
    destruct (find_Reader rd db) as [rdr|] eqn:Hr;
      [|eexists; split; [reflexivity|]; split; [exact Hc|reflexivity]].
    destruct (is_available bk db);
      [|eexists; split; [reflexivity|]; split; [exact Hc|reflexivity]].
    cbn [negb].
    destruct (exists_ (get_active_reservations rdr db));
      [eexists; split; [reflexivity|]; split; [exact Hc|reflexivity]|].
    pose proof (execute_consistent now (OpCreate b rd EmptyString) db Hc) as Hc'.
    cbn [execute] in Hc'.
    rewrite (CreateReservation_found now b rd EmptyString db bk rdr Hb Hr) in Hc'.
    unfold Reservation_objects_create.
    rewrite (find_Book_Some _ _ _ Hb), (find_Reader_Some _ _ _ Hr).
    fold (new_reservation (Some b) (Some rd) EmptyString).
    destruct (Reservation_save now (new_reservation (Some b) (Some rd) EmptyString) db)
      as [[r|e] db'] eqn:S; cbn [fst snd ret] in *.
    + eexists. split; [reflexivity|]. split; [exact Hc'|].
      cbn [status]. intro H. now contradiction H.
    + apply Reservation_save_Raise in S. subst db'.
      eexists. split; [reflexivity|]. split; [exact Hc|reflexivity].
  - cbn [ret].
    destruct (find_Book b db);
      eexists; (split; [reflexivity|]); (split; [exact Hc|reflexivity]).
Qed.

Lemma quick_reserve_always_answers_witness :
  consistent db_res1 /\
  quick_reserve 400 {| method := "POST"; body := InvalidJson |} 2 db_res1
  = (Ok (json_error (Str JSONDecodeError)), db_res1) /\
  consistent (snd (quick_reserve 400 post_reader1 2 db_cancelled)).
Proof.
  assert (Hc : consistent db_cancelled)
    by (apply execute_consistent, db_res1_consistent).
  split; [exact db_res1_consistent|]. split; [reflexivity|].
  destruct (quick_reserve_always_answers 400 post_reader1 2 db_cancelled Hc)
    as (resp & _ & H & _).
  exact H.
Defined.

(** ** Saving a reservation without book or reader *)

(** X21: [Reservation.save] never stores a new reservation whose book or
    reader is unset or refers to no row, and nothing is written.  With the
    book unset, [clean] returns at once and [full_clean] raises the errors
    of the fields, "This field cannot be null." for [book] first.  With a
    book key that refers to no row, [hasattr(self, 'book')] lets
    [Book.DoesNotExist] out of [clean] and of [save].  With an existing
    book and the reader unset, [full_clean] raises "This field cannot be
    null." for [reader] (stated where the constraint of the table has
    nothing to report: the reservation is inactive or the book is free).
    With an existing book and a reader key that refers to no row,
    [Reader.DoesNotExist] comes out of [save]. *)
Theorem save_rejects_dangling now self db :
  Reservation.pk self = None ->
  (Reservation.book self = None ->
   exists errors,
     Forall (fun e : string * string => fst e = "reader") errors /\
     Reservation_save now self db
     = (Raise (ValidationErrorDict
                 (("book", "This field cannot be null.") :: errors)), db)) /\
  (forall b,
      Reservation.book self = Some b -> find_Book b db = None ->
      Reservation_save now self db = (Raise (DoesNotExist "Book"), db)) /\
  (forall b bk,
      Reservation.book self = Some b -> find_Book b db = Some bk ->
      Reservation.reader self = None ->
      Reservation.is_active self = false \/ filter_book_active (Some b) db = [] ->
      Reservation_save now self db
      = (Raise (ValidationErrorDict [("reader", "This field cannot be null.")]),
         db)) /\
  (forall b bk rd,
      Reservation.book self = Some b -> find_Book b db = Some bk ->
      Reservation.reader self = Some rd -> find_Reader rd db = None ->
      Reservation_save now self db = (Raise (DoesNotExist "Reader"), db)).
Proof.
  intro Hpk. split; [|split; [|split]].
  - intro Hb.
    assert (Hclean : Reservation_clean self db = (Ok tt, db)).
    { unfold Reservation_clean. rewrite Hpk. unfold bind, hasattr_book.
      now rewrite Hb. }
    unfold Reservation_save, bind, Reservation_full_clean.
    rewrite Hclean. unfold Reservation_clean_fields. rewrite Hb.
    cbn [fst app]. eexists. split; [|reflexivity].
    destruct (Reservation.reader self) as [j|];
      [destruct (find_Reader j db)|];
      repeat (apply Forall_cons; [reflexivity|]); apply Forall_nil.
  - intros b Hb Hf.
    assert (Hclean : Reservation_clean self db = (Raise (DoesNotExist "Book"), db)).
    { unfold Reservation_clean. rewrite Hpk. unfold bind, hasattr_book.
      now rewrite Hb, Hf. }
    unfold Reservation_save, bind, Reservation_full_clean.
    now rewrite Hclean.
  - intros b bk Hb Hf Hr _.
    assert (Hclean : Reservation_clean self db = (Ok tt, db)).
    { unfold Reservation_clean. rewrite Hpk. unfold bind, hasattr_book.
      rewrite Hb, Hf. unfold hasattr_reader. now rewrite Hr. }
    unfold Reservation_save, bind, Reservation_full_clean.
    rewrite Hclean. unfold Reservation_clean_fields. now rewrite Hb, Hf, Hr.
  - intros b bk rd Hb Hf Hr Hg.
    assert (Hclean : Reservation_clean self db
                     = (Raise (DoesNotExist "Reader"), db)).
    { unfold Reservation_clean. rewrite Hpk. unfold bind, hasattr_book.
      rewrite Hb, Hf. unfold hasattr_reader. now rewrite Hr, Hg. }
    unfold Reservation_save, bind, Reservation_full_clean.
    now rewrite Hclean.
Qed.

Lemma save_rejects_dangling_witness :
  Reservation.pk (new_reservation (Some 9%Z) None "x") = None /\
  find_Book 9 db_res1 = None /\
  Reservation_save 700 (new_reservation (Some 9%Z) None "x") db_res1
  = (Raise (DoesNotExist "Book"), db_res1) /\
  Reservation_save 700 (new_reservation (Some 2%Z) None "x") db_res1
  = (Raise (ValidationErrorDict [("reader", "This field cannot be null.")]),
     db_res1).
Proof.
  split; [reflexivity|]. split; [reflexivity|]. split.
  - exact (proj1 (proj2 (save_rejects_dangling 700
                           (new_reservation (Some 9%Z) None "x") db_res1 eq_refl))
                 9%Z eq_refl eq_refl).
  - exact (proj1 (proj2 (proj2 (save_rejects_dangling 700
                                  (new_reservation (Some 2%Z) None "x") db_res1
                                  eq_refl)))
                 2%Z book2 eq_refl eq_refl eq_refl (or_intror eq_refl)).
Defined.

(** ** Keys and references in the reachable states *)

(** X22: in every state reached from a database without reservations the
    reservations have distinct keys, none of them unset, and each refers
    to a book and a reader that exist. *)
Theorem reachable_keys_and_references (init db : Database) :
  Reservation_objects init = [] ->
  reachable init db ->
  NoDup (map Reservation.pk (Reservation_objects db)) /\
  forall r, In r (Reservation_objects db) ->
    Reservation.pk r <> None /\
    related_book r db <> None /\ related_reader r db <> None.
Proof.
  intros Hinit Hreach.
  assert (Hc : consistent db)
    by (apply (reachable_consistent init);
        [now apply consistent_no_reservations|exact Hreach]).
  split; [apply (pk_unique db Hc)|]. intros r Hr.
  split; [apply (pk_set db Hc r Hr)|apply (fk_ok db Hc r Hr)].
Qed.

Lemma reachable_keys_and_references_witness :
  Reservation_objects db_empty = [] /\
  reachable db_empty db_taken /\
  NoDup (map Reservation.pk (Reservation_objects db_taken)).
Proof.
  assert (Hr : reachable db_empty db_taken)
    by (unfold db_taken, db_cancelled, db_res1;
        repeat apply reachable_step; apply reachable_init).
  split; [reflexivity|]. split; [exact Hr|].
  exact (proj1 (reachable_keys_and_references db_empty db_taken eq_refl Hr)).
Defined.
